(** * career-hub: profile, experience and project services

    A shallow embedding of the ownership, visibility, completeness, slug and
    ordering logic of [backend/app] (models, schemas and services), and the
    properties of that logic.

    Conventions of the embedding.
    - A Python [str] is a [string]; one [ascii] stands for one code point in
      the range 0..255, so [String.length] is Python's [len].
    - A Python [int] is a [Z].
    - [Optional[T]] is [option T]; Python truthiness is written out
      ([truthy_str], [is_Some], a test against [0]).
    - A raised exception is the [Raise] branch of [Result].
    - A table of the relational store is the list of its rows in storage
      order; [first] is the first matching row and [order_by] is a
      stable sort of the selected rows. *)

From Stdlib Require Import ZArith Ascii String List Bool Lia Permutation Sorted.
From Stdlib.Strings Require Byte.
From stdpp Require Import base decidable option list strings gmap sorting pretty.

Local Open Scope string_scope.
Local Open Scope Z_scope.

(** ** Python string primitives *)

Module Py.

(** [str.isspace] on one code point below 256: TAB..CR, FS..US, space,
    NEL (0x85) and NBSP (0xA0). The same set is the regex class [\s]. *)
Definition is_space (c : ascii) : bool :=
  let n := N_of_ascii c in
  (((9 <=? n) && (n <=? 13)) || ((28 <=? n) && (n <=? 32))
   || (n =? 133) || (n =? 160))%N.

Fixpoint lstrip (s : string) : string :=
  match s with
  | EmptyString => EmptyString
  | String c r => if is_space c then lstrip r else s
  end.

Fixpoint rstrip (s : string) : string :=
  match s with
  | EmptyString => EmptyString
  | String c r =>
      match rstrip r with
      | EmptyString => if is_space c then EmptyString else String c EmptyString
      | r' => String c r'
      end
  end.

(** [s.strip()] *)
Definition strip (s : string) : string := rstrip (lstrip s).

(** Truthiness of a [str]: non-empty. *)
Definition truthy_str (s : string) : bool :=
  match s with EmptyString => false | String _ _ => true end.

(** Truthiness of an [Optional[str]]: present and non-empty. *)
Definition truthy_opt (o : option string) : bool :=
  match o with Some s => truthy_str s | None => false end.

(** [len(s)] as a Python integer. *)
Definition len (s : string) : Z := Z.of_nat (String.length s).

(** [c.lower()] on one code point below 256: A..Z and the Latin-1 capitals
    0xC0..0xDE (without the multiplication sign 0xD7) move up by 32. *)
Definition lower_char (c : ascii) : ascii :=
  let n := N_of_ascii c in
  if (((65 <=? n) && (n <=? 90))
      || ((192 <=? n) && (n <=? 222) && negb (n =? 215)))%N
  then ascii_of_N (n + 32) else c.

Fixpoint lower (s : string) : string :=
  match s with
  | EmptyString => EmptyString
  | String c r => String (lower_char c) (lower r)
  end.

(** Membership in the regex class [[a-zA-Z0-9\s-]]. *)
Definition slug_char (c : ascii) : bool :=
  let n := N_of_ascii c in
  (((97 <=? n) && (n <=? 122)) || ((65 <=? n) && (n <=? 90))
   || ((48 <=? n) && (n <=? 57)) || is_space c || (n =? 45))%N.

(** [re.sub(r"[^a-zA-Z0-9\s-]", "", s)] *)
Fixpoint sub_non_slug (s : string) : string :=
  match s with
  | EmptyString => EmptyString
  | String c r => if slug_char c then String c (sub_non_slug r) else sub_non_slug r
  end.

(** [re.sub(r"\s+", "-", s)]; [in_run] records that the previous character
    belonged to the whitespace run already replaced. *)
Fixpoint sub_spaces_from (in_run : bool) (s : string) : string :=
  match s with
  | EmptyString => EmptyString
  | String c r =>
      if is_space c
      then (if in_run then sub_spaces_from true r
            else String "-"%char (sub_spaces_from true r))
      else String c (sub_spaces_from false r)
  end.

Definition sub_spaces (s : string) : string := sub_spaces_from false s.

(** One hexadecimal digit, lower case, as [binascii.hexlify] writes it. *)
Definition hex_digit (n : N) : ascii :=
  (if n <? 10 then ascii_of_N (48 + n) else ascii_of_N (87 + n))%N.

Definition hex_of_byte (b : Byte.byte) : string :=
  let n := Byte.to_N b in
  String (hex_digit (n / 16)) (String (hex_digit (n mod 16)) EmptyString).

(** [secrets.token_hex(3)], given the three bytes [secrets.token_bytes(3)]
    drew. *)
Definition token_hex3 (rnd : Byte.byte * Byte.byte * Byte.byte) : string :=
  let '(b0, b1, b2) := rnd in
  hex_of_byte b0 ++ hex_of_byte b1 ++ hex_of_byte b2.

Definition is_hex_digit (c : ascii) : bool :=
  let n := N_of_ascii c in
  (((48 <=? n) && (n <=? 57)) || ((97 <=? n) && (n <=? 102)))%N.

(** [str(x)] for an optional identifier: [str(None)] is ["None"]. *)
Definition str_opt (o : option string) : string :=
  match o with Some s => s | None => "None" end.

End Py.

(** ** Exceptions *)

Inductive Error : Type :=
  | AuthenticationError (msg : string)
  | ExperienceNotFoundError (msg : string)
  | ProfileNotFoundError (msg : string)
  | ProfileAlreadyExistsError (msg : string)
  | SlugAlreadyExistsError (msg : string)
  | ProjectNotFoundError (msg : string)
  | ValidationError (errors : list string)
  | IntegrityError.

Inductive Result (A : Type) : Type :=
  | Ok (a : A)
  | Raise (e : Error).
Arguments Ok {A} a.
Arguments Raise {A} e.

(** Sequencing: the first raised exception aborts the rest. *)
#[global] Instance Result_ret : MRet Result := fun A a => Ok a.
#[global] Instance Result_bind : MBind Result := fun A B k r =>
  match r with
  | Ok a => k a
  | Raise e => Raise e
  end.

(** ** Dates *)

Record date : Type := mkdate { year : Z; month : Z; day : Z }.

(** [d1 <= d2] on [datetime.date]: the order of (year, month, day). *)
Definition date_leb (d1 d2 : date) : bool :=
  (year d1 <? year d2)
  || ((year d1 =? year d2)
      && ((month d1 <? month d2)
          || ((month d1 =? month d2) && (day d1 <=? day d2)))).

Definition date_le (d1 d2 : date) : Prop :=
  year d1 < year d2
  \/ (year d1 = year d2
      /\ (month d1 < month d2 \/ (month d1 = month d2 /\ day d1 <= day d2))).

(** ** Queries: ORDER BY *)

Section OrderBy.
Context {A : Type} (precedes : A -> A -> bool).

Fixpoint insert_row (x : A) (l : list A) : list A :=
  match l with
  | [] => [x]
  | y :: r => if precedes x y then x :: y :: r else y :: insert_row x r
  end.

(** The rows of [l] sorted so that a row comes before every row it
    [precedes]; rows with equal keys keep their storage order. *)
Definition order_by (l : list A) : list A := foldr insert_row [] l.

End OrderBy.

(** ** Models *)

(** Modelled from the spec: the [User] identity record ([app/models/user.py]
    is not part of the sources): an immutable identity with attributes [id]
    and [name]. *)
Module User.
Record t : Type := mk { id : string; name : option string }.
End User.

(** [models/experience.py]. The server-side timestamps [created_at] and
    [updated_at] are written by the database and read by no operation below;
    they are left out of the row. *)
Module Experience.

Record t : Type := mk {
  id : string;
  profile_id : string;
  company_name : string;
  company_website : option string;
  company_size : option string;
  industry : option string;
  company_location : option string;
  position : string;
  employment_type : option string;
  start_date : date;
  end_date : option date;
  is_current : bool;
  description : option string;
  responsibilities : list string;
  technologies : list string;
  display_order : Z
}.

Definition set_display_order (v : Z) (self : t) : t :=
  mk (id self) (profile_id self) (company_name self) (company_website self)
     (company_size self) (industry self) (company_location self)
     (position self) (employment_type self) (start_date self) (end_date self)
     (is_current self) (description self) (responsibilities self)
     (technologies self) v.

Definition set_technologies (v : list string) (self : t) : t :=
  mk (id self) (profile_id self) (company_name self) (company_website self)
     (company_size self) (industry self) (company_location self)
     (position self) (employment_type self) (start_date self) (end_date self)
     (is_current self) (description self) (responsibilities self)
     v (display_order self).

Definition set_responsibilities (v : list string) (self : t) : t :=
  mk (id self) (profile_id self) (company_name self) (company_website self)
     (company_size self) (industry self) (company_location self)
     (position self) (employment_type self) (start_date self) (end_date self)
     (is_current self) (description self) v
     (technologies self) (display_order self).

(** Truthiness of a list: non-empty. *)
Definition truthy_list (l : list string) : bool :=
  match l with [] => false | _ :: _ => true end.

(** [add_responsibility]. The column is NOT NULL, so [not
    self.responsibilities] holds on the empty list only. *)
Definition add_responsibility (responsibility : string) (self : t) : t :=
  let self :=
    if negb (truthy_list (responsibilities self))
    then set_responsibilities [] self else self in
  if Py.truthy_str (Py.strip responsibility)
     && negb (bool_decide (responsibility ∈ responsibilities self))
  then set_responsibilities
         (responsibilities self ++ [Py.strip responsibility]) self
  else self.

Definition remove_responsibility (responsibility : string) (self : t) : t :=
  if truthy_list (responsibilities self)
     && bool_decide (responsibility ∈ responsibilities self)
  then set_responsibilities
         (filter (fun r => r ≠ responsibility) (responsibilities self)) self
  else self.

Definition add_technology (technology : string) (self : t) : t :=
  let self :=
    if negb (truthy_list (technologies self))
    then set_technologies [] self else self in
  if Py.truthy_str (Py.strip technology)
     && negb (bool_decide (technology ∈ technologies self))
  then set_technologies (technologies self ++ [Py.strip technology]) self
  else self.

Definition remove_technology (technology : string) (self : t) : t :=
  if truthy_list (technologies self)
     && bool_decide (technology ∈ technologies self)
  then set_technologies
         (filter (fun x => x ≠ technology) (technologies self)) self
  else self.

(** [is_date_valid]: [end_date > start_date] when an end date is present. *)
Definition is_date_valid (self : t) : bool :=
  match end_date self with
  | None => true
  | Some e => negb (date_leb e (start_date self))
  end.

(** [duration_months]; [today] is [date.today()]. The column [start_date]
    is NOT NULL, so the guard [if not self.start_date] does not fire on a
    row; the result keeps the type [Optional[int]]. *)
Definition duration_months (today : date) (self : t) : option Z :=
  let end_ := default today (end_date self) in
  let months :=
    (year end_ - year (start_date self)) * 12
    + (month end_ - month (start_date self)) in
  Some (Z.max (months + 1) 1).

(** [duration_text]; [f"{n}"] of an integer is its decimal notation. *)
Definition duration_text (today : date) (self : t) : string :=
  match duration_months today self with
  | None => "Unknown duration"
  | Some months =>
      if months =? 0 then "Unknown duration"
      else if months <? 12
      then pretty months ++ " " ++ (if months =? 1 then "month" else "months")
      else
        let years := months / 12 in
        let remaining_months := months mod 12 in
        if remaining_months =? 0
        then pretty years ++ " " ++ (if years =? 1 then "year" else "years")
        else pretty years ++ " " ++ (if years =? 1 then "year" else "years")
             ++ " " ++ pretty remaining_months ++ " "
             ++ (if remaining_months =? 1 then "month" else "months")
  end.

End Experience.

(** [models/profile.py] *)
Module Profile.

Record t : Type := mk {
  id : string;
  user_id : string;
  slug : option string;
  headline : option string;
  summary : option string;
  location : option string;
  visibility : string;
  contact : gmap string string;
  draft_data : option (gmap string string);
  profile_photo_url : option string;
  completeness_score : Z
}.

Definition set_slug (v : option string) (self : t) : t :=
  mk (id self) (user_id self) v (headline self) (summary self)
     (location self) (visibility self) (contact self) (draft_data self)
     (profile_photo_url self) (completeness_score self).

Definition set_completeness_score (v : Z) (self : t) : t :=
  mk (id self) (user_id self) (slug self) (headline self) (summary self)
     (location self) (visibility self) (contact self) (draft_data self)
     (profile_photo_url self) v.

(** The name part of a generated slug: the two [re.sub] calls. *)
Definition slug_of_name (name : string) : string :=
  let slug := Py.sub_non_slug (Py.lower name) in
  Py.sub_spaces (Py.strip slug).

(** [generate_slug]. The method reads [self.id] and the relationship
    attribute [self.user]; both are [None] on an object that was built by
    the constructor and not flushed yet. [rnd] is the draw of
    [secrets.token_hex(3)]. *)
Definition generate_slug (self_id : option string) (self_user : option User.t)
    (rnd : Byte.byte * Byte.byte * Byte.byte) : string :=
  match self_user with
  | None => Py.lower (Py.str_opt self_id)
  | Some user =>
      if negb (Py.truthy_opt (User.name user))
      then Py.lower (Py.str_opt self_id)
      else
        let slug := slug_of_name (default EmptyString (User.name user)) in
        let suffix := Py.token_hex3 rnd in
        slug ++ "-" ++ suffix
  end.

(** [calculate_completeness]; [experiences] is the relationship
    [self.experiences]. *)
Definition calculate_completeness (self : t) (experiences : list Experience.t)
    : Z :=
  let score := 0 in
  let score :=
    match headline self with
    | Some h =>
        if Py.truthy_str h && Py.truthy_str (Py.strip h)
        then score + 10 else score
    | None => score
    end in
  let score :=
    match summary self with
    | Some s =>
        if Py.truthy_str s && (100 <? Py.len (Py.strip s))
        then score + 20 else score
    | None => score
    end in
  let experience_count :=
    match experiences with
    | [] => 0
    | _ :: _ => Z.of_nat (length experiences)
    end in
  let score := score + Z.min (experience_count * 10) 30 in
  Z.min score 100.

Definition update_completeness (self : t) (experiences : list Experience.t)
    : t :=
  set_completeness_score (calculate_completeness self experiences) self.

Definition is_public (self : t) : bool :=
  bool_decide (visibility self = "PUBLIC").

(** [can_view]: [viewer_user_id == self.user_id] is [False] for [None]. *)
Definition can_view (self : t) (viewer_user_id : option string) : bool :=
  if bool_decide (visibility self = "PUBLIC") then true
  else if bool_decide (visibility self = "PRIVATE")
  then bool_decide (viewer_user_id = Some (user_id self))
  else bool_decide (viewer_user_id = Some (user_id self)).

End Profile.

(** [models/project.py] *)
Module Project.

Inductive ProjectStatus : Type := ACTIVE | STAGING | ARCHIVED.
Inductive ProjectCategory : Type := DEMO | INTERNAL | PRODUCTION.
Inductive ProjectScale : Type := SMALL | MEDIUM | LARGE | ENTERPRISE.

(** [created_at] is the server-side insertion time, which the listing
    order reads. *)
Record t : Type := mk {
  id : string;
  profile_id : string;
  name : string;
  description : option string;
  status : ProjectStatus;
  category : ProjectCategory;
  scale : ProjectScale;
  start_date : option string;
  end_date : option string;
  client : option string;
  technologies : list string;
  achievements : list string;
  challenges : list string;
  display_order : Z;
  created_at : Z
}.

Definition set_display_order (v : Z) (self : t) : t :=
  mk (id self) (profile_id self) (name self) (description self) (status self)
     (category self) (scale self) (start_date self) (end_date self)
     (client self) (technologies self) (achievements self) (challenges self)
     v (created_at self).

End Project.

(** ** Schemas ([schemas/experience.py], [schemas/profile.py]) *)

Module Schema.

(** The request body of an experience creation, before validation. [None]
    in [is_current], [responsibilities], [technologies] and [display_order]
    means that the field was not supplied. *)
Record ExperienceCreateInput : Type := mkInput {
  in_company_name : string;
  in_company_website : option string;
  in_company_size : option string;
  in_industry : option string;
  in_company_location : option string;
  in_position : string;
  in_employment_type : option string;
  in_start_date : date;
  in_end_date : option date;
  in_is_current : option bool;
  in_description : option string;
  in_responsibilities : option (list string);
  in_technologies : option (list string);
  in_display_order : option Z
}.

(** A validated [ExperienceCreate] ([ExperienceBase]) object. *)
Record ExperienceCreate : Type := mkCreate {
  company_name : string;
  company_website : option string;
  company_size : option string;
  industry : option string;
  company_location : option string;
  position : string;
  employment_type : option string;
  start_date : date;
  end_date : option date;
  is_current : bool;
  description : option string;
  responsibilities : list string;
  technologies : list string;
  display_order : Z
}.

Definition allowed_employment_types : list string :=
  ["FULL_TIME"; "PART_TIME"; "CONTRACT"; "FREELANCE"; "INTERNSHIP";
   "TEMPORARY"].

Definition allowed_company_sizes : list string :=
  ["1-10"; "11-50"; "51-200"; "201-500"; "501-1000"; "1001-5000"; "5000+"].

(** A validator returns the error it raises, if any. *)
Definition validate_employment_type (v : option string) : option string :=
  match v with
  | None => None
  | Some s =>
      if bool_decide (s ∈ allowed_employment_types) then None
      else Some "Employment type must be one of the allowed values"
  end.

Definition validate_company_size (v : option string) : option string :=
  match v with
  | None => None
  | Some s =>
      if bool_decide (s ∈ allowed_company_sizes) then None
      else Some "Company size must be one of the allowed values"
  end.

(** [validate_end_date]: [values] holds [start_date], a required field
    validated before. *)
Definition validate_end_date (v : option date) (values_start_date : date)
    : option string :=
  match v with
  | None => None
  | Some e =>
      if date_leb e values_start_date
      then Some "End date must be after start date" else None
  end.

(** [validate_current_position]: [values_end_date] is [values.get("end_date")],
    which is absent when [end_date] itself failed validation. *)
Definition validate_current_position (v : bool) (values_end_date : option date)
    : option string :=
  if v && bool_decide (is_Some values_end_date)
  then Some "Current position cannot have an end date" else None.

(** [Field(max_length=n)] *)
Definition check_max_length (field : string) (n : Z) (v : option string)
    : option string :=
  match v with
  | Some s => if n <? Py.len s then Some (field ++ ": string too long") else None
  | None => None
  end.

(** A field validator runs only when the field passed its constraint. *)
Definition and_then (constraint validator : option string) : option string :=
  match constraint with Some e => Some e | None => validator end.

Definition errors_of (checks : list (option string)) : list string :=
  omap (fun c => c) checks.

(** Parsing and validating the body into an [ExperienceCreate]: every field
    is checked in declaration order and all errors are collected. A field
    that was not supplied takes its default and its validator does not run. *)
Definition validate_create (raw : ExperienceCreateInput)
    : Result ExperienceCreate :=
  let e_end := validate_end_date (in_end_date raw) (in_start_date raw) in
  let values_end_date :=
    match e_end with None => in_end_date raw | Some _ => None end in
  let e_current :=
    match in_is_current raw with
    | Some v => validate_current_position v values_end_date
    | None => None
    end in
  let errors := errors_of [
    check_max_length "company_name" 200 (Some (in_company_name raw));
    check_max_length "company_website" 500 (in_company_website raw);
    and_then (check_max_length "company_size" 50 (in_company_size raw))
             (validate_company_size (in_company_size raw));
    check_max_length "industry" 100 (in_industry raw);
    check_max_length "company_location" 100 (in_company_location raw);
    check_max_length "position" 200 (Some (in_position raw));
    and_then (check_max_length "employment_type" 50 (in_employment_type raw))
             (validate_employment_type (in_employment_type raw));
    e_end;
    e_current ] in
  match errors with
  | [] =>
      Ok (mkCreate (in_company_name raw) (in_company_website raw)
            (in_company_size raw) (in_industry raw) (in_company_location raw)
            (in_position raw) (in_employment_type raw) (in_start_date raw)
            (in_end_date raw) (default false (in_is_current raw))
            (in_description raw) (default [] (in_responsibilities raw))
            (default [] (in_technologies raw))
            (default 0 (in_display_order raw)))
  | _ :: _ => Raise (ValidationError errors)
  end.

(** One field of a partial update: not supplied, or supplied with a value
    or with an explicit null. *)
Inductive patch (A : Type) : Type :=
  | Unset
  | Assign (v : option A).
Arguments Unset {A}.
Arguments Assign {A} v.

Definition supplied {A : Type} (p : patch A) : option A :=
  match p with Unset => None | Assign v => v end.

(** [ExperienceUpdate] *)
Record ExperienceUpdate : Type := mkUpdate {
  up_company_name : patch string;
  up_company_website : patch string;
  up_company_size : patch string;
  up_industry : patch string;
  up_company_location : patch string;
  up_position : patch string;
  up_employment_type : patch string;
  up_start_date : patch date;
  up_end_date : patch date;
  up_is_current : patch bool;
  up_description : patch string;
  up_responsibilities : patch (list string);
  up_technologies : patch (list string);
  up_display_order : patch Z
}.

(** The validators of [ExperienceUpdate]: the length constraints and the two
    enumerations. *)
Definition validate_update (raw : ExperienceUpdate) : Result ExperienceUpdate :=
  let errors := errors_of [
    check_max_length "company_name" 200 (supplied (up_company_name raw));
    check_max_length "company_website" 500 (supplied (up_company_website raw));
    and_then
      (check_max_length "company_size" 50 (supplied (up_company_size raw)))
      (validate_company_size (supplied (up_company_size raw)));
    check_max_length "industry" 100 (supplied (up_industry raw));
    check_max_length "company_location" 100
      (supplied (up_company_location raw));
    check_max_length "position" 200 (supplied (up_position raw));
    and_then
      (check_max_length "employment_type" 50
         (supplied (up_employment_type raw)))
      (validate_employment_type (supplied (up_employment_type raw))) ] in
  match errors with
  | [] => Ok raw
  | _ :: _ => Raise (ValidationError errors)
  end.

(** A validated [ProfileCreate] object. *)
Record ProfileCreate : Type := mkProfileCreate {
  pc_headline : option string;
  pc_summary : option string;
  pc_location : option string;
  pc_visibility : string;
  pc_contact : gmap string string;
  pc_profile_photo_url : option string;
  pc_slug : option string;
  pc_draft_data : option (gmap string string)
}.

(** [ProfileUpdate]. The JSONB column [contact] stores an explicit null as
    the JSON value null, which the row type of this embedding does not
    have: [pu_contact] is either not supplied or a map. *)
Record ProfileUpdate : Type := mkProfileUpdate {
  pu_headline : patch string;
  pu_summary : patch string;
  pu_location : patch string;
  pu_visibility : patch string;
  pu_contact : option (gmap string string);
  pu_profile_photo_url : patch string;
  pu_draft_data : patch (gmap string string)
}.

Definition allowed_visibilities : list string :=
  ["PRIVATE"; "FRIENDS"; "PUBLIC"].

(** [validate_visibility] of [ProfileUpdate]: a null passes. *)
Definition validate_visibility (v : option string) : option string :=
  match v with
  | None => None
  | Some s =>
      if bool_decide (s ∈ allowed_visibilities) then None
      else Some "Visibility must be one of the allowed values"
  end.

(** The validators of [ProfileUpdate]. *)
Definition validate_profile_update (raw : ProfileUpdate)
    : Result ProfileUpdate :=
  let errors := errors_of [
    check_max_length "headline" 200 (supplied (pu_headline raw));
    check_max_length "location" 100 (supplied (pu_location raw));
    validate_visibility (supplied (pu_visibility raw)) ] in
  match errors with
  | [] => Ok raw
  | _ :: _ => Raise (ValidationError errors)
  end.

(** Membership in the regex class [[a-z0-9-]]. *)
Definition explicit_slug_char (c : ascii) : bool :=
  let n := N_of_ascii c in
  (((97 <=? n) && (n <=? 122)) || ((48 <=? n) && (n <=? 57)) || (n =? 45))%N.

(** The rest of a match of [[a-z0-9-]+$]: characters of the class up to the
    end of the string, where [$] also matches before a final line feed. *)
Fixpoint slug_pattern_rest (s : string) : bool :=
  match s with
  | EmptyString => true
  | String c r =>
      if explicit_slug_char c then slug_pattern_rest r
      else bool_decide (c = "010"%char) && bool_decide (r = EmptyString)
  end.

(** [re.match(r'^[a-z0-9-]+$', v)] *)
Definition slug_pattern (s : string) : bool :=
  match s with
  | EmptyString => false
  | String c r => explicit_slug_char c && slug_pattern_rest r
  end.

(** [validate_slug] of [ProfileCreate] *)
Definition validate_slug (v : option string) : option string :=
  match v with
  | None => None
  | Some s =>
      if negb (slug_pattern s)
      then Some
        "Slug must contain only lowercase letters, numbers, and hyphens"
      else if Py.len s <? 3
      then Some "Slug must be at least 3 characters long"
      else None
  end.

(** [schemas/project.py]: a validated [ProjectCreate] ([ProjectBase]). *)
Record ProjectCreate : Type := mkProjectCreate {
  pj_name : string;
  pj_description : option string;
  pj_status : Project.ProjectStatus;
  pj_category : Project.ProjectCategory;
  pj_scale : Project.ProjectScale;
  pj_start_date : option string;
  pj_end_date : option string;
  pj_client : option string;
  pj_technologies : list string;
  pj_achievements : list string;
  pj_challenges : list string
}.

(** [ProjectUpdate] *)
Record ProjectUpdate : Type := mkProjectUpdate {
  pju_name : patch string;
  pju_description : patch string;
  pju_status : patch Project.ProjectStatus;
  pju_category : patch Project.ProjectCategory;
  pju_scale : patch Project.ProjectScale;
  pju_start_date : patch string;
  pju_end_date : patch string;
  pju_client : patch string;
  pju_technologies : patch (list string);
  pju_achievements : patch (list string);
  pju_challenges : patch (list string)
}.

End Schema.

(** ** The store *)

Record Db : Type := mkDb {
  users : list User.t;
  profiles : list Profile.t;
  experiences : list Experience.t;
  projects : list Project.t
}.

Definition set_profiles (v : list Profile.t) (db : Db) : Db :=
  mkDb (users db) v (experiences db) (projects db).

Definition set_experiences (v : list Experience.t) (db : Db) : Db :=
  mkDb (users db) (profiles db) v (projects db).

Definition set_projects (v : list Project.t) (db : Db) : Db :=
  mkDb (users db) (profiles db) (experiences db) v.

(** [query.filter(...).first()] *)
Definition first {A : Type} (p : A -> bool) (rows : list A) : option A :=
  List.find p rows.

(** Writing back the object that [first] returned: the first row selected
    by [p] is replaced. *)
Fixpoint replace_first {A : Type} (p : A -> bool) (new : A) (rows : list A)
    : list A :=
  match rows with
  | [] => []
  | x :: r => if p x then new :: r else x :: replace_first p new r
  end.

(** [db.delete(obj)] for the object that [first] returned: the first row
    selected by [p] is removed. *)
Fixpoint remove_first {A : Type} (p : A -> bool) (rows : list A) : list A :=
  match rows with
  | [] => []
  | x :: r => if p x then r else x :: remove_first p r
  end.

Definition profile_by_id (profile_id : string) (p : Profile.t) : bool :=
  bool_decide (Profile.id p = profile_id).

Definition experience_by_id (experience_id : string) (e : Experience.t)
    : bool :=
  bool_decide (Experience.id e = experience_id).

Definition experience_of (profile_id : string) (e : Experience.t) : bool :=
  bool_decide (Experience.profile_id e = profile_id).

Definition project_by_id (project_id : string) (p : Project.t) : bool :=
  bool_decide (Project.id p = project_id).

Definition project_of (profile_id : string) (p : Project.t) : bool :=
  bool_decide (Project.profile_id p = profile_id).

(** [profile.update_completeness(); db.commit()] on a persistent profile:
    the relationship [profile.experiences] is the profile's rows of the
    experience table. Returns the store and the refreshed profile. *)
Definition commit_completeness (profile : Profile.t) (db : Db)
    : Db * Profile.t :=
  let related :=
    List.filter (experience_of (Profile.id profile)) (experiences db) in
  let profile := Profile.update_completeness profile related in
  (set_profiles
     (replace_first (profile_by_id (Profile.id profile)) profile (profiles db))
     db,
   profile).

(** ** [services/experience_service.py] *)

Module ExperienceService.

(** [Experience.display_order.desc()] *)
Definition order_desc (x y : Z) : bool := y <=? x.

Definition by_display_order_desc (e1 e2 : Experience.t) : bool :=
  Experience.display_order e2 <=? Experience.display_order e1.

(** [Experience.display_order.desc(), Experience.start_date.desc()] *)
Definition by_display_order_desc_start_date_desc (e1 e2 : Experience.t)
    : bool :=
  (Experience.display_order e2 <? Experience.display_order e1)
  || ((Experience.display_order e1 =? Experience.display_order e2)
      && date_leb (Experience.start_date e2) (Experience.start_date e1)).

(** [db.add(experience); db.commit()]: the primary key must be fresh. *)
Definition insert (e : Experience.t) (db : Db) : Result Db :=
  if bool_decide (Experience.id e ∈ Experience.id <$> experiences db)
  then Raise IntegrityError
  else Ok (set_experiences (experiences db ++ [e]) db).

(** [create_experience]; [new_id] is the ULID drawn for the new row. *)
Definition create_experience (db : Db) (profile_id user_id : string)
    (experience_data : Schema.ExperienceCreate) (new_id : string)
    : Result (Db * Experience.t) :=
  match first (profile_by_id profile_id) (profiles db) with
  | None => Raise (AuthenticationError "Profile not found")
  | Some profile =>
      if bool_decide (Profile.user_id profile ≠ user_id)
      then Raise (AuthenticationError
             "You don't have permission to add experiences to this profile")
      else
        let max_order :=
          head (order_by order_desc
                  (Experience.display_order
                     <$> List.filter (experience_of profile_id)
                           (experiences db))) in
        let display_order :=
          match max_order with Some m => m + 1 | None => 0 end in
        let experience :=
          Experience.mk new_id profile_id
            (Schema.company_name experience_data)
            (Schema.company_website experience_data)
            (Schema.company_size experience_data)
            (Schema.industry experience_data)
            (Schema.company_location experience_data)
            (Schema.position experience_data)
            (Schema.employment_type experience_data)
            (Schema.start_date experience_data)
            (Schema.end_date experience_data)
            (Schema.is_current experience_data)
            (Schema.description experience_data)
            (Schema.responsibilities experience_data)
            (Schema.technologies experience_data)
            (* experience_data.display_order or display_order *)
            (if Schema.display_order experience_data =? 0
             then display_order
             else Schema.display_order experience_data) in
        db ← insert experience db;
        Ok ((commit_completeness profile db).1, experience)
  end.

(** [get_experiences_by_profile] *)
Definition get_experiences_by_profile (db : Db) (profile_id : string)
    (user_id : option string) : Result (list Experience.t) :=
  match first (profile_by_id profile_id) (profiles db) with
  | None => Ok []
  | Some profile =>
      if negb (Profile.can_view profile user_id)
      then Raise (AuthenticationError
             "You don't have permission to view this profile")
      else
        Ok (order_by by_display_order_desc_start_date_desc
              (List.filter (experience_of profile_id) (experiences db)))
  end.

(** [setattr] of a supplied field on a nullable column. *)
Definition set_nullable {A : Type} (p : Schema.patch A) (old : option A)
    : option A :=
  match p with Schema.Unset => old | Schema.Assign v => v end.

(** [setattr] of a supplied field on a NOT NULL column: an explicit null
    makes the commit fail. *)
Definition set_required {A : Type} (p : Schema.patch A) (old : A) : Result A :=
  match p with
  | Schema.Unset => Ok old
  | Schema.Assign (Some v) => Ok v
  | Schema.Assign None => Raise IntegrityError
  end.

(** The loop over [experience_data.dict(exclude_unset=True)]. *)
Definition apply_update (d : Schema.ExperienceUpdate) (e : Experience.t)
    : Result Experience.t :=
  company_name ← set_required (Schema.up_company_name d)
                   (Experience.company_name e);
  position ← set_required (Schema.up_position d) (Experience.position e);
  start_date ← set_required (Schema.up_start_date d) (Experience.start_date e);
  is_current ← set_required (Schema.up_is_current d) (Experience.is_current e);
  responsibilities ← set_required (Schema.up_responsibilities d)
                       (Experience.responsibilities e);
  technologies ← set_required (Schema.up_technologies d)
                   (Experience.technologies e);
  display_order ← set_required (Schema.up_display_order d)
                    (Experience.display_order e);
  Ok (Experience.mk (Experience.id e) (Experience.profile_id e)
        company_name
        (set_nullable (Schema.up_company_website d)
           (Experience.company_website e))
        (set_nullable (Schema.up_company_size d) (Experience.company_size e))
        (set_nullable (Schema.up_industry d) (Experience.industry e))
        (set_nullable (Schema.up_company_location d)
           (Experience.company_location e))
        position
        (set_nullable (Schema.up_employment_type d)
           (Experience.employment_type e))
        start_date
        (set_nullable (Schema.up_end_date d) (Experience.end_date e))
        is_current
        (set_nullable (Schema.up_description d) (Experience.description e))
        responsibilities technologies display_order).

(** [update_experience] *)
Definition update_experience (db : Db) (experience_id user_id : string)
    (experience_data : Schema.ExperienceUpdate)
    : Result (Db * Experience.t) :=
  match first (experience_by_id experience_id) (experiences db) with
  | None => Raise (ExperienceNotFoundError "Experience not found")
  | Some experience =>
      match first (profile_by_id (Experience.profile_id experience))
              (profiles db) with
      | None => Raise (AuthenticationError
                  "You don't have permission to update this experience")
      | Some profile =>
          if bool_decide (Profile.user_id profile ≠ user_id)
          then Raise (AuthenticationError
                 "You don't have permission to update this experience")
          else
            experience ← apply_update experience_data experience;
            let db :=
              set_experiences
                (replace_first (experience_by_id experience_id) experience
                   (experiences db)) db in
            Ok ((commit_completeness profile db).1, experience)
      end
  end.

(** [{exp.id: exp for exp in experiences}]: a later row replaces an earlier
    one under the same key. *)
Definition experience_map_of (rows : list Experience.t)
    : gmap string Experience.t :=
  fold_left (fun m e => <[Experience.id e := e]> m) rows ∅.

(** The loop over [enumerate(experience_ids)], from position [index] on;
    [n] is [len(experience_ids)]. The map holds the session's row objects,
    so assigning through it changes the row. *)
Fixpoint reorder_loop (n : Z) (index : nat) (experience_ids : list string)
    (experience_map : gmap string Experience.t) : gmap string Experience.t :=
  match experience_ids with
  | [] => experience_map
  | experience_id :: rest =>
      let experience_map :=
        match experience_map !! experience_id with
        | Some e =>
            <[experience_id :=
                Experience.set_display_order (n - Z.of_nat index) e]>
              experience_map
        | None => experience_map
        end in
      reorder_loop n (S index) rest experience_map
  end.

(** [db.commit()] after the loop: every row of the profile takes the state
    of its object. *)
Definition commit_rows (profile_id : string)
    (experience_map : gmap string Experience.t) (rows : list Experience.t)
    : list Experience.t :=
  (fun e =>
     if experience_of profile_id e
     then default e (experience_map !! Experience.id e)
     else e) <$> rows.

(** [reorder_experiences] *)
Definition reorder_experiences (db : Db) (profile_id user_id : string)
    (experience_ids : list string) : Result (Db * list Experience.t) :=
  match first (profile_by_id profile_id) (profiles db) with
  | None => Raise (AuthenticationError
      "You don't have permission to reorder experiences for this profile")
  | Some profile =>
      if bool_decide (Profile.user_id profile ≠ user_id)
      then Raise (AuthenticationError
        "You don't have permission to reorder experiences for this profile")
      else
        let rows := List.filter (experience_of profile_id) (experiences db) in
        let experience_map := experience_map_of rows in
        let experience_map :=
          reorder_loop (Z.of_nat (length experience_ids)) 0 experience_ids
            experience_map in
        let db :=
          set_experiences
            (commit_rows profile_id experience_map (experiences db)) db in
        Ok (db,
            order_by by_display_order_desc
              (List.filter (experience_of profile_id) (experiences db)))
  end.

(** [get_experience_by_id] *)
Definition get_experience_by_id (db : Db) (experience_id : string)
    : option Experience.t :=
  first (experience_by_id experience_id) (experiences db).

(** [delete_experience]: [False] for an unknown id. *)
Definition delete_experience (db : Db) (experience_id user_id : string)
    : Result (Db * bool) :=
  match first (experience_by_id experience_id) (experiences db) with
  | None => Ok (db, false)
  | Some experience =>
      match first (profile_by_id (Experience.profile_id experience))
              (profiles db) with
      | None => Raise (AuthenticationError
                  "You don't have permission to delete this experience")
      | Some profile =>
          if bool_decide (Profile.user_id profile ≠ user_id)
          then Raise (AuthenticationError
                 "You don't have permission to delete this experience")
          else
            let db :=
              set_experiences
                (remove_first (experience_by_id experience_id)
                   (experiences db)) db in
            Ok ((commit_completeness profile db).1, true)
      end
  end.

(** The body that [add_responsibility], [remove_responsibility],
    [add_technology] and [remove_technology] of the service share: load the
    experience, check the ownership through its profile, call the method
    [change] of the model, commit. The profile is not touched. *)
Definition change_list (change : Experience.t -> Experience.t) (db : Db)
    (experience_id user_id : string) : Result (Db * Experience.t) :=
  match first (experience_by_id experience_id) (experiences db) with
  | None => Raise (ExperienceNotFoundError "Experience not found")
  | Some experience =>
      match first (profile_by_id (Experience.profile_id experience))
              (profiles db) with
      | None => Raise (AuthenticationError
                  "You don't have permission to update this experience")
      | Some profile =>
          if bool_decide (Profile.user_id profile ≠ user_id)
          then Raise (AuthenticationError
                 "You don't have permission to update this experience")
          else
            let experience := change experience in
            Ok (set_experiences
                  (replace_first (experience_by_id experience_id) experience
                     (experiences db)) db,
                experience)
      end
  end.

Definition add_responsibility (db : Db) (experience_id user_id : string)
    (responsibility : string) : Result (Db * Experience.t) :=
  change_list (Experience.add_responsibility responsibility) db
    experience_id user_id.

Definition remove_responsibility (db : Db) (experience_id user_id : string)
    (responsibility : string) : Result (Db * Experience.t) :=
  change_list (Experience.remove_responsibility responsibility) db
    experience_id user_id.

Definition add_technology (db : Db) (experience_id user_id : string)
    (technology : string) : Result (Db * Experience.t) :=
  change_list (Experience.add_technology technology) db
    experience_id user_id.

Definition remove_technology (db : Db) (experience_id user_id : string)
    (technology : string) : Result (Db * Experience.t) :=
  change_list (Experience.remove_technology technology) db
    experience_id user_id.

End ExperienceService.

(** ** [services/project_service.py] *)

Module ProjectService.

(** [Project.display_order.asc(), Project.created_at.desc()] *)
Definition by_display_order_asc_created_at_desc (p1 p2 : Project.t) : bool :=
  (Project.display_order p1 <? Project.display_order p2)
  || ((Project.display_order p1 =? Project.display_order p2)
      && (Project.created_at p2 <=? Project.created_at p1)).

Definition get_project_by_id (db : Db) (project_id : string)
    : option Project.t :=
  first (project_by_id project_id) (projects db).

Definition get_profile_projects (db : Db) (profile_id : string)
    : list Project.t :=
  order_by by_display_order_asc_created_at_desc
    (List.filter (project_of profile_id) (projects db)).

(** The loop over [enumerate(project_ids)], from position [index] on. Each
    round looks the project up in the table and assigns through the row
    object it found. *)
Fixpoint reorder_loop (profile_id : string) (index : nat)
    (project_ids : list string) (db : Db) : Db :=
  match project_ids with
  | [] => db
  | project_id :: rest =>
      let db :=
        match get_project_by_id db project_id with
        | Some project =>
            if bool_decide (Project.profile_id project = profile_id)
            then set_projects
                   (replace_first (project_by_id project_id)
                      (Project.set_display_order (Z.of_nat index) project)
                      (projects db)) db
            else db
        | None => db
        end in
      reorder_loop profile_id (S index) rest db
  end.

(** [reorder_projects] *)
Definition reorder_projects (db : Db) (profile_id user_id : string)
    (project_ids : list string) : Result (Db * list Project.t) :=
  match first (profile_by_id profile_id) (profiles db) with
  | None => Raise (ProjectNotFoundError "Profile not found or access denied")
  | Some profile =>
      if bool_decide (Profile.user_id profile ≠ user_id)
      then Raise (ProjectNotFoundError "Profile not found or access denied")
      else
        let db := reorder_loop profile_id 0 project_ids db in
        Ok (db, get_profile_projects db profile_id)
  end.

(** [db.add(project); db.commit()]: the primary key must be fresh. *)
Definition insert (p : Project.t) (db : Db) : Result Db :=
  if bool_decide (Project.id p ∈ Project.id <$> projects db)
  then Raise IntegrityError
  else Ok (set_projects (projects db ++ [p]) db).

(** [create_project]; [new_id] is the ULID drawn for the new row and [now]
    the value of [datetime.utcnow] that fills [created_at]. *)
Definition create_project (db : Db) (profile_id user_id : string)
    (project_data : Schema.ProjectCreate) (new_id : string) (now : Z)
    : Result (Db * Project.t) :=
  match first (profile_by_id profile_id) (profiles db) with
  | None => Raise (ProjectNotFoundError "Profile not found or access denied")
  | Some profile =>
      if bool_decide (Profile.user_id profile ≠ user_id)
      then Raise (ProjectNotFoundError "Profile not found or access denied")
      else
        let max_order :=
          Z.of_nat
            (length (List.filter (project_of profile_id) (projects db))) in
        let project :=
          Project.mk new_id profile_id
            (Schema.pj_name project_data)
            (Schema.pj_description project_data)
            (Schema.pj_status project_data)
            (Schema.pj_category project_data)
            (Schema.pj_scale project_data)
            (Schema.pj_start_date project_data)
            (Schema.pj_end_date project_data)
            (Schema.pj_client project_data)
            (Schema.pj_technologies project_data)
            (Schema.pj_achievements project_data)
            (Schema.pj_challenges project_data)
            max_order now in
        db ← insert project db;
        Ok (db, project)
  end.

(** The loop over [project_data.model_dump(exclude_unset=True)]: [name],
    the three enumerations and the three arrays are NOT NULL columns. *)
Definition apply_update (d : Schema.ProjectUpdate) (p : Project.t)
    : Result Project.t :=
  name ← ExperienceService.set_required (Schema.pju_name d) (Project.name p);
  status ← ExperienceService.set_required (Schema.pju_status d)
             (Project.status p);
  category ← ExperienceService.set_required (Schema.pju_category d)
               (Project.category p);
  scale ← ExperienceService.set_required (Schema.pju_scale d)
            (Project.scale p);
  technologies ← ExperienceService.set_required (Schema.pju_technologies d)
                   (Project.technologies p);
  achievements ← ExperienceService.set_required (Schema.pju_achievements d)
                   (Project.achievements p);
  challenges ← ExperienceService.set_required (Schema.pju_challenges d)
                 (Project.challenges p);
  Ok (Project.mk (Project.id p) (Project.profile_id p) name
        (ExperienceService.set_nullable (Schema.pju_description d)
           (Project.description p))
        status category scale
        (ExperienceService.set_nullable (Schema.pju_start_date d)
           (Project.start_date p))
        (ExperienceService.set_nullable (Schema.pju_end_date d)
           (Project.end_date p))
        (ExperienceService.set_nullable (Schema.pju_client d)
           (Project.client p))
        technologies achievements challenges
        (Project.display_order p) (Project.created_at p)).

(** [update_project] *)
Definition update_project (db : Db) (project_id user_id : string)
    (project_data : Schema.ProjectUpdate) : Result (Db * Project.t) :=
  match get_project_by_id db project_id with
  | None => Raise (ProjectNotFoundError "Project not found")
  | Some project =>
      match first (profile_by_id (Project.profile_id project))
              (profiles db) with
      | None =>
          Raise (ProjectNotFoundError "Project not found or access denied")
      | Some profile =>
          if bool_decide (Profile.user_id profile ≠ user_id)
          then Raise (ProjectNotFoundError
                 "Project not found or access denied")
          else
            project ← apply_update project_data project;
            Ok (set_projects
                  (replace_first (project_by_id project_id) project
                     (projects db)) db,
                project)
      end
  end.

(** [delete_project] *)
Definition delete_project (db : Db) (project_id user_id : string)
    : Result Db :=
  match get_project_by_id db project_id with
  | None => Raise (ProjectNotFoundError "Project not found")
  | Some project =>
      match first (profile_by_id (Project.profile_id project))
              (profiles db) with
      | None =>
          Raise (ProjectNotFoundError "Project not found or access denied")
      | Some profile =>
          if bool_decide (Profile.user_id profile ≠ user_id)
          then Raise (ProjectNotFoundError
                 "Project not found or access denied")
          else
            Ok (set_projects
                  (remove_first (project_by_id project_id) (projects db)) db)
      end
  end.

End ProjectService.

(** ** [services/profile_service.py] *)

Module ProfileService.

(** The slugs in use: [Profile.slug == s] selects no row with a null slug. *)
Definition slugs (db : Db) : list string := omap Profile.slug (profiles db).

(** The loop that makes the slug unique, run for at most [fuel] rounds:
    [while query(slug == profile.slug).first(): profile.slug =
    f"{original_slug}-{counter}"; counter += 1]. *)
Fixpoint ensure_unique (fuel : nat) (taken : list string)
    (original_slug slug : string) (counter : N) : option string :=
  match fuel with
  | O => None
  | S fuel =>
      if bool_decide (slug ∈ taken)
      then ensure_unique fuel taken original_slug
             (original_slug ++ "-" ++ pretty counter) (counter + 1)%N
      else Some slug
  end.

(** [db.add(profile); db.commit()] under the constraints of the table:
    primary key, one profile per user, unique slug. *)
Definition insert (p : Profile.t) (db : Db) : Result Db :=
  if bool_decide (Profile.id p ∈ Profile.id <$> profiles db)
     || bool_decide (Profile.user_id p ∈ Profile.user_id <$> profiles db)
     || match Profile.slug p with
        | Some s => bool_decide (s ∈ slugs db)
        | None => false
        end
  then Raise IntegrityError
  else Ok (set_profiles (profiles db ++ [p]) db).

(** [create_profile]; [new_id] is the ULID drawn when the row is flushed and
    [rnd] the draw of [secrets.token_hex]. The object built by
    [Profile(user_id=..., ...)] has neither a primary key nor a loaded
    [user] relationship when [generate_slug] runs. The uniqueness loop
    needs at most one round more than there are slugs in use
    ([ensure_unique_total]). *)
Definition create_profile (db : Db) (user_id : string)
    (profile_data : Schema.ProfileCreate) (new_id : string)
    (rnd : Byte.byte * Byte.byte * Byte.byte) : Result (Db * Profile.t) :=
  match first (fun u => bool_decide (User.id u = user_id)) (users db) with
  | None => Raise (AuthenticationError "User not found")
  | Some user =>
      match first (fun p => bool_decide (Profile.user_id p = user_id))
              (profiles db) with
      | Some existing_profile =>
          Raise (ProfileAlreadyExistsError "User already has a profile")
      | None =>
          if Py.truthy_opt (Schema.pc_slug profile_data)
             && bool_decide
                  (default EmptyString (Schema.pc_slug profile_data)
                     ∈ slugs db)
          then Raise (SlugAlreadyExistsError "Slug is already taken")
          else
            let slug :=
              if negb (Py.truthy_opt (Schema.pc_slug profile_data))
              then Profile.generate_slug None None rnd
              else default EmptyString (Schema.pc_slug profile_data) in
            match ensure_unique (S (length (slugs db))) (slugs db)
                    slug slug 1%N with
            | None => Raise IntegrityError
            | Some slug =>
                let profile :=
                  Profile.mk new_id user_id (Some slug)
                    (Schema.pc_headline profile_data)
                    (Schema.pc_summary profile_data)
                    (Schema.pc_location profile_data)
                    (Schema.pc_visibility profile_data)
                    (Schema.pc_contact profile_data)
                    (Schema.pc_draft_data profile_data)
                    (Schema.pc_profile_photo_url profile_data) 0 in
                match insert profile db with
                | Raise _ =>
                    Raise (ProfileAlreadyExistsError
                      "Profile creation failed due to constraint violation")
                | Ok db => Ok (commit_completeness profile db)
                end
            end
    end
  end.

(** [get_profile_by_id]; [include_relations] only selects eager loading of
    the experiences. *)
Definition get_profile_by_id (db : Db) (profile_id : string)
    (include_relations : bool) : option Profile.t :=
  first (profile_by_id profile_id) (profiles db).

Definition get_profile_by_user_id (db : Db) (user_id : string)
    (include_relations : bool) : option Profile.t :=
  first (fun p => bool_decide (Profile.user_id p = user_id)) (profiles db).

Definition get_profile_by_slug (db : Db) (slug : string)
    (include_relations : bool) : option Profile.t :=
  first (fun p => bool_decide (Profile.slug p = Some slug)) (profiles db).

(** The loop over [profile_data.dict(exclude_unset=True)]: [visibility] is
    a NOT NULL column. *)
Definition apply_update (d : Schema.ProfileUpdate) (p : Profile.t)
    : Result Profile.t :=
  visibility ← ExperienceService.set_required (Schema.pu_visibility d)
                 (Profile.visibility p);
  let contact := default (Profile.contact p) (Schema.pu_contact d) in
  Ok (Profile.mk (Profile.id p) (Profile.user_id p) (Profile.slug p)
        (ExperienceService.set_nullable (Schema.pu_headline d)
           (Profile.headline p))
        (ExperienceService.set_nullable (Schema.pu_summary d)
           (Profile.summary p))
        (ExperienceService.set_nullable (Schema.pu_location d)
           (Profile.location p))
        visibility contact
        (ExperienceService.set_nullable (Schema.pu_draft_data d)
           (Profile.draft_data p))
        (ExperienceService.set_nullable (Schema.pu_profile_photo_url d)
           (Profile.profile_photo_url p))
        (Profile.completeness_score p)).

(** [update_profile]: every [IntegrityError] of the commit is reported as
    [SlugAlreadyExistsError]. *)
Definition update_profile (db : Db) (profile_id user_id : string)
    (profile_data : Schema.ProfileUpdate) : Result (Db * Profile.t) :=
  match first (profile_by_id profile_id) (profiles db) with
  | None => Raise (ProfileNotFoundError "Profile not found")
  | Some profile =>
      if bool_decide (Profile.user_id profile ≠ user_id)
      then Raise (AuthenticationError
             "You don't have permission to update this profile")
      else
        match apply_update profile_data profile with
        | Raise _ => Raise (SlugAlreadyExistsError "Slug is already taken")
        | Ok profile =>
            let db :=
              set_profiles
                (replace_first (profile_by_id profile_id) profile
                   (profiles db)) db in
            Ok (commit_completeness profile db)
        end
  end.

(** [delete_profile]: the relationships cascade the deletion to the
    experiences and projects of the profile. *)
Definition delete_profile (db : Db) (profile_id user_id : string)
    : Result (Db * bool) :=
  match first (profile_by_id profile_id) (profiles db) with
  | None => Ok (db, false)
  | Some profile =>
      if bool_decide (Profile.user_id profile ≠ user_id)
      then Raise (AuthenticationError
             "You don't have permission to delete this profile")
      else
        Ok (mkDb (users db)
              (remove_first (profile_by_id profile_id) (profiles db))
              (List.filter
                 (fun e => negb (experience_of (Profile.id profile) e))
                 (experiences db))
              (List.filter
                 (fun q => negb (project_of (Profile.id profile) q))
                 (projects db)),
            true)
  end.

(** [Profile.completeness_score.desc(), Profile.created_at.desc()];
    [created_at] reads the server-side creation time of a row. *)
Definition by_score_desc_created_at_desc (created_at : Profile.t -> Z)
    (p1 p2 : Profile.t) : bool :=
  (Profile.completeness_score p2 <? Profile.completeness_score p1)
  || ((Profile.completeness_score p1 =? Profile.completeness_score p2)
      && (created_at p2 <=? created_at p1)).

Definition by_score_desc (p1 p2 : Profile.t) : bool :=
  Profile.completeness_score p2 <=? Profile.completeness_score p1.

(** [get_public_profiles]; the route admits [limit] from 1 to 100 and
    [offset] from 0. *)
Definition get_public_profiles (created_at : Profile.t -> Z) (db : Db)
    (limit offset : nat) : list Profile.t :=
  take limit
    (drop offset
       (order_by (by_score_desc_created_at_desc created_at)
          (List.filter Profile.is_public (profiles db)))).

(** [search_profiles]; [ilike] is the operator of the database on a
    non-null column value and a pattern, and a null column matches
    nothing. *)
Definition search_profiles (ilike : string -> string -> bool) (db : Db)
    (query : string) (limit offset : nat) : list Profile.t :=
  let search_term := "%" ++ Py.lower query ++ "%" in
  let matches (column : option string) : bool :=
    match column with
    | Some v => ilike v search_term
    | None => false
    end in
  take limit
    (drop offset
       (order_by by_score_desc
          (List.filter
             (fun p =>
                Profile.is_public p
                && (matches (Profile.headline p)
                    || matches (Profile.summary p)
                    || matches (Profile.location p)))
             (profiles db)))).

(** [update_completeness_score] *)
Definition update_completeness_score (db : Db) (profile_id : string)
    : Result (Db * Z) :=
  match get_profile_by_id db profile_id true with
  | None => Raise (ProfileNotFoundError "Profile not found")
  | Some profile =>
      let r := commit_completeness profile db in
      Ok (r.1, Profile.completeness_score r.2)
  end.

(** [is_slug_available]; an empty [exclude_profile_id] excludes nothing. *)
Definition is_slug_available (db : Db) (slug : string)
    (exclude_profile_id : option string) : bool :=
  let query :=
    List.filter (fun p => bool_decide (Profile.slug p = Some slug))
      (profiles db) in
  let query :=
    if Py.truthy_opt exclude_profile_id
    then List.filter
           (fun p =>
              bool_decide
                (Profile.id p ≠ default EmptyString exclude_profile_id))
           query
    else query in
  bool_decide (head query = None).

(** The loop of [generate_unique_slug], run for at most [fuel] rounds. *)
Fixpoint generate_unique_slug_loop (fuel : nat) (db : Db) (base_slug : string)
    (counter : N) : option string :=
  match fuel with
  | O => None
  | S fuel =>
      let candidate_slug := base_slug ++ "-" ++ pretty counter in
      if is_slug_available db candidate_slug None
      then Some candidate_slug
      else generate_unique_slug_loop fuel db base_slug (counter + 1)%N
  end.

(** [generate_unique_slug] *)
Definition generate_unique_slug (fuel : nat) (db : Db) (base_slug : string)
    : option string :=
  if is_slug_available db base_slug None then Some base_slug
  else generate_unique_slug_loop fuel db base_slug 1%N.

End ProfileService.

(** ** The API routes that validate before they call the service *)

Module Api.

(** [POST /experiences/]: the body is validated into an [ExperienceCreate]
    before the handler runs. *)
Definition create_experience (db : Db) (profile_id current_user_id : string)
    (body : Schema.ExperienceCreateInput) (new_id : string)
    : Result (Db * Experience.t) :=
  experience_data ← Schema.validate_create body;
  ExperienceService.create_experience db profile_id current_user_id
    experience_data new_id.

(** [PUT /experiences/{experience_id}] *)
Definition update_experience (db : Db) (experience_id current_user_id : string)
    (body : Schema.ExperienceUpdate) : Result (Db * Experience.t) :=
  experience_data ← Schema.validate_update body;
  ExperienceService.update_experience db experience_id current_user_id
    experience_data.

(** What a route answers: a body, an [HTTPException] it raises with a
    status code and a detail, or an exception of the service that it does
    not catch. *)
Inductive Response (A : Type) : Type :=
  | Body (a : A)
  | HTTPException (status_code : Z) (detail : string)
  | Uncaught (e : Error).
Arguments Body {A} a.
Arguments HTTPException {A} status_code detail.
Arguments Uncaught {A} e.

(** [GET /profiles/me]: the profile, serialised with its private fields. *)
Definition get_my_profile (db : Db) (current_user_id : string)
    : Response (Profile.t * bool) :=
  match ProfileService.get_profile_by_user_id db current_user_id true with
  | None => HTTPException 404 "Profile not found"
  | Some profile => Body (profile, true)
  end.


(** [GET /profiles/slug/{slug}]: the profile that [to_public_dict]
    serialises. *)
Definition get_profile_by_slug (db : Db) (slug : string)
    : Response Profile.t :=
  match ProfileService.get_profile_by_slug db slug true with
  | None => HTTPException 404 "Profile not found"
  | Some profile =>
      if negb (Profile.is_public profile)
      then HTTPException 404 "Profile not found"
      else Body profile
  end.

(** [POST /profiles/{profile_id}/completeness] *)
Definition update_completeness_score (db : Db) (profile_id : string)
    (current_user_id : string) : Response (Db * Z) :=
  match ProfileService.get_profile_by_id db profile_id false with
  | None => HTTPException 404 "Profile not found"
  | Some profile =>
      if bool_decide (Profile.user_id profile ≠ current_user_id)
      then HTTPException 403
             "You don't have permission to update this profile"
      else
        match ProfileService.update_completeness_score db profile_id with
        | Ok r => Body r
        | Raise (ProfileNotFoundError _) =>
            HTTPException 404 "Profile not found"
        | Raise e => Uncaught e
        end
  end.




(** [GET /projects/profile/{profile_id}] *)
Definition get_profile_projects (db : Db)
    (profile_id current_user_id : string) : Response (list Project.t) :=
  match ProfileService.get_profile_by_id db profile_id false with
  | None =>
      HTTPException 403 "You don't have permission to view this profile"
  | Some profile =>
      if negb (Profile.can_view profile (Some current_user_id))
      then HTTPException 403 "You don't have permission to view this profile"
      else Body (ProjectService.get_profile_projects db profile_id)
  end.

End Api.

(** ** The rules of the specification, in its own words *)

Module Rule.

(** The completeness rule as the specification words it: a headline that is
    present and non-empty, a summary whose length exceeds 100, ten points
    per experience up to thirty, the sum capped at 100. *)
Definition completeness_as_worded (p : Profile.t)
    (experiences : list Experience.t) : Z :=
  let headline_points :=
    match Profile.headline p with
    | Some h => if bool_decide (h ≠ EmptyString) then 10 else 0
    | None => 0
    end in
  let summary_points :=
    match Profile.summary p with
    | Some s => if 100 <? Py.len s then 20 else 0
    | None => 0
    end in
  Z.min 100
    (headline_points + summary_points
     + Z.min 30 (10 * Z.of_nat (length experiences))).

(** The same rule with both texts measured after trimming: [has_headline]
    and [has_summary] say whether the two texts count. *)
Definition completeness_points (has_headline has_summary : bool)
    (experience_count : nat) : Z :=
  Z.min 100
    ((if has_headline then 10 else 0) + (if has_summary then 20 else 0)
     + Z.min 30 (10 * Z.of_nat experience_count)).

(** A slug that ends with a hyphen and six hexadecimal digits. *)
Definition has_hex_suffix (s : string) : bool :=
  match reverse (list_ascii_of_string s) with
  | h5 :: h4 :: h3 :: h2 :: h1 :: h0 :: dash :: _ =>
      forallb Py.is_hex_digit [h0; h1; h2; h3; h4; h5]
      && bool_decide (dash = "-"%char)
  | _ => false
  end.

(** The order of the experience listing: a higher display order first;
    among equal display orders the later start date first. *)
Definition listed_before (e1 e2 : Experience.t) : Prop :=
  Experience.display_order e2 < Experience.display_order e1
  \/ (Experience.display_order e1 = Experience.display_order e2
      /\ date_le (Experience.start_date e2) (Experience.start_date e1)).

(** The order of the project listing: a lower display order first; among
    equal display orders the later creation time first. *)
Definition project_listed_before (p1 p2 : Project.t) : Prop :=
  Project.display_order p1 < Project.display_order p2
  \/ (Project.display_order p1 = Project.display_order p2
      /\ Project.created_at p2 <= Project.created_at p1).

(** The stored completeness score of the profile [profile_id] is the score
    computed from the stored headline, summary and experiences. *)
Definition score_is_fresh (db : Db) (profile_id : string) : Prop :=
  exists p,
    first (profile_by_id profile_id) (profiles db) = Some p
    /\ Profile.completeness_score p
       = Profile.calculate_completeness p
           (List.filter (experience_of profile_id) (experiences db)).

(** The user [user_id] owns the profile that the experience
    [experience_id] belongs to. *)
Definition owns_experience (db : Db) (experience_id user_id : string) : Prop :=
  exists e p,
    first (experience_by_id experience_id) (experiences db) = Some e
    /\ first (profile_by_id (Experience.profile_id e)) (profiles db) = Some p
    /\ Profile.user_id p = user_id.

(** The user [user_id] owns the profile [profile_id]. *)
Definition owns_profile (db : Db) (profile_id user_id : string) : Prop :=
  exists p,
    first (profile_by_id profile_id) (profiles db) = Some p
    /\ Profile.user_id p = user_id.


(** The call [service db experience_id user_id] succeeds, returns [changed]
    and stores it in place of the experience [experience_id]; no other row
    of any table changes. *)
Definition persists
    (service : Db -> string -> string -> Result (Db * Experience.t))
    (db : Db) (experience_id user_id : string) (changed : Experience.t)
    : Prop :=
  exists db',
    service db experience_id user_id = Ok (db', changed)
    /\ users db' = users db /\ profiles db' = profiles db
    /\ projects db' = projects db
    /\ experiences db'
       = (fun x => if experience_by_id experience_id x then changed else x)
           <$> experiences db
    /\ ExperienceService.get_experience_by_id db' experience_id
       = Some changed.

(** Every character of [s] satisfies [ok]. *)
Fixpoint all_chars (ok : ascii -> bool) (s : string) : bool :=
  match s with
  | EmptyString => true
  | String c r => ok c && all_chars ok r
  end.

(** The user [user_id] owns the profile that the project [project_id]
    belongs to. *)
Definition owns_project (db : Db) (project_id user_id : string) : Prop :=
  exists q p,
    first (project_by_id project_id) (projects db) = Some q
    /\ first (profile_by_id (Project.profile_id q)) (profiles db) = Some p
    /\ Profile.user_id p = user_id.


End Rule.

(** ** Sample data *)

Module Sample.

Definition profile (id user_id visibility : string) (headline : option string)
    : Profile.t :=
  Profile.mk id user_id None headline None None visibility ∅ None None 0.

Definition experience (id profile_id : string) (display_order : Z)
    : Experience.t :=
  Experience.mk id profile_id "Acme" None None None None "Engineer" None
    (mkdate 2020 1 15) None false None [] [] display_order.

Definition project (id profile_id : string) (display_order created_at : Z)
    : Project.t :=
  Project.mk id profile_id "Site" None Project.ACTIVE Project.PRODUCTION
    Project.MEDIUM None None None [] [] [] display_order created_at.

(** One user owning a private profile with three experiences and three
    projects, and a second profile owning one row of each table. *)
Definition db : Db :=
  mkDb
    [User.mk "u1" (Some "Ada Lovelace"); User.mk "u2" None;
     User.mk "u3" (Some "Grace Hopper")]
    [profile "p1" "u1" "PRIVATE" (Some "X");
     profile "p2" "u2" "PUBLIC" None]
    [experience "A" "p1" 7; experience "Z" "p2" 9; experience "B" "p1" 7;
     experience "C" "p1" 0]
    [project "B" "p1" 4 100; project "A" "p1" 0 300; project "Z" "p2" 1 50;
     project "C" "p1" 0 200].

(** An update body that marks the position current and gives an end date. *)
Definition current_with_end_date : Schema.ExperienceUpdate :=
  Schema.mkUpdate Schema.Unset Schema.Unset Schema.Unset Schema.Unset
    Schema.Unset Schema.Unset Schema.Unset Schema.Unset
    (Schema.Assign (Some (mkdate 2024 6 1))) (Schema.Assign (Some true))
    Schema.Unset Schema.Unset Schema.Unset Schema.Unset.

(** A creation body; [display_order] says whether and which display order
    was supplied. *)
Definition create_body (is_current : option bool) (end_date : option date)
    (display_order : option Z) : Schema.ExperienceCreateInput :=
  Schema.mkInput "Initech" None None None None "Analyst" (Some "FULL_TIME")
    (mkdate 2021 3 1) end_date is_current None None None display_order.

(** A profile with a headline and a summary of 150 characters, and four
    experiences of it. *)
Definition full_profile : Profile.t :=
  Profile.mk "p1" "u1" None (Some "Engineer")
    (Some (string_of_list_ascii (repeat "a"%char 150))) None "PUBLIC" ∅ None
    None 0.

Definition four_experiences : list Experience.t :=
  [experience "A" "p1" 0; experience "B" "p1" 1; experience "C" "p1" 2;
   experience "D" "p1" 3].

(** A profile creation request; [slug] is the slug supplied, if any. *)
Definition request (slug : option string) : Schema.ProfileCreate :=
  Schema.mkProfileCreate (Some "Engineer") None None "PRIVATE" ∅ None slug
    None.

(** A draw of [secrets.token_bytes(3)]. *)
Definition rnd : Byte.byte * Byte.byte * Byte.byte :=
  (Byte.x0a, Byte.xff, Byte.x00).

(** A validated creation request without a display order. *)
Definition create_data : Schema.ExperienceCreate :=
  Schema.mkCreate "Initech" None None None None "Analyst" None
    (mkdate 2021 3 1) None false None [] [] 0.


(** A profile update with an explicit null for [visibility]. *)
Definition null_visibility : Schema.ProfileUpdate :=
  Schema.mkProfileUpdate Schema.Unset Schema.Unset Schema.Unset
    (Schema.Assign None) None Schema.Unset Schema.Unset.

(** A validated project creation request. *)
Definition project_data : Schema.ProjectCreate :=
  Schema.mkProjectCreate "Shop" None Project.ACTIVE Project.PRODUCTION
    Project.MEDIUM (Some "2024-01") None None ["Go"] [] [].

(** The store after the projects of the profile ["p1"] were put in the
    order A, C, B. *)
Definition ordered_db : Db :=
  set_projects
    [project "B" "p1" 2 100; project "A" "p1" 0 300; project "Z" "p2" 1 50;
     project "C" "p1" 1 200] db.


End Sample.

(** * Properties *)

(** ** Strings *)

Lemma strip_empty : Py.strip EmptyString = EmptyString.
Proof. reflexivity. Qed.

Lemma truthy_str_true (s : string) :
  Py.truthy_str s = true <-> s <> EmptyString.
Proof. destruct s; simpl; split; intros; congruence. Qed.

Lemma truthy_strip (s : string) :
  Py.truthy_str s && Py.truthy_str (Py.strip s) = Py.truthy_str (Py.strip s).
Proof. destruct s; reflexivity. Qed.

Lemma long_strip (s : string) :
  Py.truthy_str s && (100 <? Py.len (Py.strip s)) = (100 <? Py.len (Py.strip s)).
Proof. destruct s; reflexivity. Qed.

(** ** Visibility *)

(** C1. A PUBLIC profile is visible to every viewer, the absent one
    included; a PRIVATE or FRIENDS profile is visible exactly to the viewer
    whose identifier is the profile's [user_id], so never to the absent
    viewer. *)
Theorem can_view_policy (p : Profile.t) (viewer : option string) :
  (Profile.visibility p = "PUBLIC" -> Profile.can_view p viewer = true)
  /\ (Profile.visibility p = "PRIVATE" \/ Profile.visibility p = "FRIENDS" ->
      (Profile.can_view p viewer = true <-> viewer = Some (Profile.user_id p))
      /\ Profile.can_view p None = false).
Proof.
  unfold Profile.can_view. split.
  - intros ->. reflexivity.
  - intros Hv.
    assert (Hpub : Profile.visibility p <> "PUBLIC")
      by (destruct Hv as [-> | ->]; discriminate).
    rewrite (bool_decide_eq_false_2 _ Hpub).
    split.
    + destruct (bool_decide (Profile.visibility p = "PRIVATE"));
        apply bool_decide_eq_true.
    + destruct (bool_decide (Profile.visibility p = "PRIVATE"));
        apply bool_decide_eq_false; discriminate.
Qed.

Lemma can_view_policy_witness :
  Profile.can_view (Sample.profile "p2" "u2" "PUBLIC" None) None = true
  /\ (Profile.can_view (Sample.profile "p1" "u1" "PRIVATE" None) (Some "u2")
        = true <-> Some "u2" = Some "u1").
Proof.
  split.
  - exact (proj1 (can_view_policy (Sample.profile "p2" "u2" "PUBLIC" None)
                    None) eq_refl).
  - exact (proj1 (proj2 (can_view_policy
                           (Sample.profile "p1" "u1" "PRIVATE" None)
                           (Some "u2")) (or_introl eq_refl))).
Defined.

(** ** Completeness *)

Lemma headline_counts (h : string) :
  Py.truthy_str h && Py.truthy_str (Py.strip h) = true
  <-> Py.strip h <> EmptyString.
Proof. rewrite truthy_strip. apply truthy_str_true. Qed.

Lemma experience_count (l : list Experience.t) :
  match l with [] => 0 | _ :: _ => Z.of_nat (length l) end = Z.of_nat (length l).
Proof. destruct l; reflexivity. Qed.

(** The score in closed form. *)
Lemma calculate_completeness_eq (p : Profile.t) (l : list Experience.t) :
  Profile.calculate_completeness p l =
  Rule.completeness_points
    (match Profile.headline p with
     | Some h => Py.truthy_str (Py.strip h) | None => false end)
    (match Profile.summary p with
     | Some s => 100 <? Py.len (Py.strip s) | None => false end)
    (length l).
Proof.
  unfold Profile.calculate_completeness, Rule.completeness_points.
  rewrite experience_count.
  destruct (Profile.headline p) as [h|], (Profile.summary p) as [s|];
    rewrite ?truthy_strip, ?long_strip;
    repeat match goal with |- context [if ?b then _ else _] => destruct b end;
    lia.
Qed.

(** C3, as the code has it. The score is a function of the headline, the
    summary and the number of experiences alone: 10 for a headline that is
    present and not blank (non-empty after trimming), 20 for a summary whose
    trimmed length exceeds 100, 10 per experience up to 30, the sum capped
    at 100. A profile with only the headline "X" scores 10; one with a
    non-blank headline, a summary of trimmed length 150 and four experiences
    scores 60; an empty profile scores 0. *)
Theorem completeness_rule (p : Profile.t) (l : list Experience.t)
    (has_headline has_summary : bool) :
  (has_headline = true <->
     exists h, Profile.headline p = Some h /\ Py.strip h <> EmptyString) ->
  (has_summary = true <->
     exists s, Profile.summary p = Some s /\ 100 < Py.len (Py.strip s)) ->
  Profile.calculate_completeness p l
    = Rule.completeness_points has_headline has_summary (length l)
  /\ 0 <= Profile.calculate_completeness p l <= 60
  /\ (Profile.headline p = Some "X" -> Profile.summary p = None -> l = [] ->
      Profile.calculate_completeness p l = 10)
  /\ (has_headline = true ->
      (exists s, Profile.summary p = Some s /\ Py.len (Py.strip s) = 150) ->
      length l = 4%nat ->
      Profile.calculate_completeness p l = 60)
  /\ (Profile.headline p = None -> Profile.summary p = None -> l = [] ->
      Profile.calculate_completeness p l = 0).
Proof.
  intros Hh Hs.
  assert (Eh : match Profile.headline p with
               | Some h => Py.truthy_str (Py.strip h) | None => false end
               = has_headline).
  { destruct has_headline.
    - destruct (proj1 Hh eq_refl) as (h & -> & Hne).
      by apply truthy_str_true.
    - destruct (Profile.headline p) as [h|]; [|done].
      destruct (Py.truthy_str (Py.strip h)) eqn:E; [|done].
      symmetry. apply Hh. exists h. split; [done|].
      by apply truthy_str_true. }
  assert (Es : match Profile.summary p with
               | Some s => 100 <? Py.len (Py.strip s) | None => false end
               = has_summary).
  { destruct has_summary.
    - destruct (proj1 Hs eq_refl) as (s & -> & Hlt).
      by apply Z.ltb_lt.
    - destruct (Profile.summary p) as [s|]; [|done].
      destruct (100 <? Py.len (Py.strip s)) eqn:E; [|done].
      symmetry. apply Hs. exists s. split; [done|].
      by apply Z.ltb_lt. }
  rewrite calculate_completeness_eq, Eh, Es.
  unfold Rule.completeness_points.
  split; [done|]. split; [destruct has_headline, has_summary; lia|].
  split; [|split].
  - intros H1 H2 ->. rewrite H1 in Eh. rewrite H2 in Es.
    rewrite <- Eh, <- Es. reflexivity.
  - intros -> (s & H1 & H2) ->. rewrite H1, H2 in Es.
    rewrite <- Es. reflexivity.
  - intros H1 H2 ->. rewrite H1 in Eh. rewrite H2 in Es.
    rewrite <- Eh, <- Es. reflexivity.
Qed.

Lemma completeness_rule_witness :
  Profile.calculate_completeness Sample.full_profile Sample.four_experiences
  = 60.
Proof.
  assert (Hh : true = true <->
            exists h, Profile.headline Sample.full_profile = Some h
                      /\ Py.strip h <> EmptyString).
  { split; [intros _|reflexivity].
    exists "Engineer". split; [reflexivity|discriminate]. }
  assert (Hs : true = true <->
            exists s, Profile.summary Sample.full_profile = Some s
                      /\ 100 < Py.len (Py.strip s)).
  { split; [intros _|reflexivity].
    eexists. split; [reflexivity|vm_compute; reflexivity]. }
  destruct (completeness_rule Sample.full_profile Sample.four_experiences
              true true Hh Hs) as (_ & _ & _ & H & _).
  apply H; [reflexivity| |reflexivity].
  eexists. split; [reflexivity|vm_compute; reflexivity].
Defined.

(** C3, as worded, fails on a headline of one space: it is present and
    non-empty, and the code gives it no points. *)
Lemma completeness_blank_headline :
  Profile.calculate_completeness
    (Sample.profile "p1" "u1" "PRIVATE" (Some " ")) [] = 0
  /\ Rule.completeness_as_worded
       (Sample.profile "p1" "u1" "PRIVATE" (Some " ")) [] = 10.
Proof. split; reflexivity. Qed.

(** ** Responsibilities and technologies *)

Lemma set_technologies_same (e : Experience.t) :
  Experience.set_technologies (Experience.technologies e) e = e.
Proof. destruct e; reflexivity. Qed.

Lemma normalise_technologies (e : Experience.t) :
  (if negb (Experience.truthy_list (Experience.technologies e))
   then Experience.set_technologies [] e else e) = e.
Proof. destruct e as [? ? ? ? ? ? ? ? ? ? ? ? ? ? [|x l] ?]; reflexivity. Qed.

(** Adding a blank value changes nothing. *)
Lemma add_technology_blank (t : string) (e : Experience.t) :
  Py.strip t = EmptyString -> Experience.add_technology t e = e.
Proof.
  intros H. unfold Experience.add_technology.
  rewrite normalise_technologies, H. reflexivity.
Qed.

(** Adding a value that the list holds changes nothing. *)
Lemma add_technology_present (t : string) (e : Experience.t) :
  t ∈ Experience.technologies e -> Experience.add_technology t e = e.
Proof.
  intros H. unfold Experience.add_technology.
  rewrite normalise_technologies, (bool_decide_eq_true_2 _ H).
  by rewrite andb_false_r.
Qed.

(** Adding a new value appends its trimmed form. *)
Lemma add_technology_new (t : string) (e : Experience.t) :
  Py.strip t <> EmptyString -> t ∉ Experience.technologies e ->
  Experience.technologies (Experience.add_technology t e)
  = (Experience.technologies e ++ [Py.strip t])%list.
Proof.
  intros H1 H2. unfold Experience.add_technology.
  rewrite normalise_technologies, (bool_decide_eq_false_2 _ H2).
  apply truthy_str_true in H1. rewrite H1. reflexivity.
Qed.

(** A value without surrounding whitespace is stored once however often it
    is added. *)
Lemma add_technology_twice_trimmed (t : string) (e : Experience.t) :
  Py.strip t = t -> t <> EmptyString -> t ∉ Experience.technologies e ->
  Experience.add_technology t (Experience.add_technology t e)
  = Experience.add_technology t e
  /\ Experience.technologies (Experience.add_technology t e)
     = (Experience.technologies e ++ [t])%list.
Proof.
  intros Hs Hne Hnot.
  assert (E : Experience.technologies (Experience.add_technology t e)
              = (Experience.technologies e ++ [t])%list).
  { rewrite add_technology_new; [by rewrite Hs|by rewrite Hs|done]. }
  split; [|done].
  apply add_technology_present. rewrite E. set_solver.
Qed.

(** Removing a value that the list does not hold changes nothing. *)
Lemma remove_technology_absent (t : string) (e : Experience.t) :
  t ∉ Experience.technologies e -> Experience.remove_technology t e = e.
Proof.
  intros H. unfold Experience.remove_technology.
  rewrite (bool_decide_eq_false_2 _ H). by rewrite andb_false_r.
Qed.

(** After a removal the value is gone. *)
Lemma remove_technology_gone (t : string) (e : Experience.t) :
  t ∉ Experience.technologies (Experience.remove_technology t e).
Proof.
  unfold Experience.remove_technology.
  destruct (Experience.truthy_list _ && bool_decide _) eqn:E.
  - simpl. rewrite list_elem_of_filter. tauto.
  - apply andb_false_iff in E as [E|E].
    + destruct (Experience.technologies e); [set_solver|discriminate].
    + by apply bool_decide_eq_false in E.
Qed.

(** C4 at a value with surrounding whitespace: the membership test reads
    the value as given and the list stores it trimmed, so the second call
    appends it again. *)
Theorem add_technology_twice_padded :
  Experience.technologies
    (Experience.add_technology " Go"
       (Experience.add_technology " Go" (Sample.experience "A" "p1" 0)))
  = ["Go"; "Go"]
  /\ Experience.responsibilities
       (Experience.add_responsibility " Go"
          (Experience.add_responsibility " Go" (Sample.experience "A" "p1" 0)))
     = ["Go"; "Go"].
Proof. split; reflexivity. Qed.

(** ** Current position and end date *)

Lemma errors_of_cons_some (e : string) (checks : list (option string)) :
  Schema.errors_of (Some e :: checks) = e :: Schema.errors_of checks.
Proof. reflexivity. Qed.

Lemma errors_of_nonempty (checks : list (option string)) (e : string) :
  Some e ∈ checks -> Schema.errors_of checks <> [].
Proof.
  intros H Hnil.
  assert (He : e ∈ Schema.errors_of checks).
  { unfold Schema.errors_of. apply list_elem_of_omap. by exists (Some e). }
  rewrite Hnil in He. by apply not_elem_of_nil in He.
Qed.

(** What a successful validation of a creation body returns. *)
Lemma validate_create_ok (body : Schema.ExperienceCreateInput)
    (d : Schema.ExperienceCreate) :
  Schema.validate_create body = Ok d ->
  Schema.is_current d = default false (Schema.in_is_current body)
  /\ Schema.end_date d = Schema.in_end_date body
  /\ Schema.display_order d = default 0 (Schema.in_display_order body)
  /\ (Schema.is_current d = true -> Schema.end_date d = None).
Proof.
  unfold Schema.validate_create.
  set (e_end := Schema.validate_end_date _ _).
  set (e_cur := match Schema.in_is_current body with
                | Some v => _ | None => None end).
  set (errs := Schema.errors_of _).
  intros H.
  destruct errs as [|x errs'] eqn:E; [|discriminate].
  injection H as <-. simpl. repeat split.
  intros Hcur.
  destruct (Schema.in_is_current body) as [[|]|]; try discriminate.
  destruct (Schema.in_end_date body) as [d|] eqn:Ed; [|done].
  exfalso.
  destruct e_end as [msg|] eqn:Eend.
  - eapply (errors_of_nonempty _ msg); [|exact E].
    subst e_cur. set_solver.
  - eapply (errors_of_nonempty _ "Current position cannot have an end date");
      [|exact E].
    subst e_cur. simpl. set_solver.
Qed.

(** On creation the combination is rejected by the validators, before the
    service runs. *)
Lemma create_rejects_current_with_end_date (db : Db)
    (profile_id user_id new_id : string) (body : Schema.ExperienceCreateInput) :
  Schema.in_is_current body = Some true ->
  is_Some (Schema.in_end_date body) ->
  exists errors,
    Api.create_experience db profile_id user_id body new_id
    = Raise (ValidationError errors).
Proof.
  intros Hc [d Hd]. unfold Api.create_experience.
  destruct (Schema.validate_create body) as [data|err] eqn:E.
  - apply validate_create_ok in E as (E1 & E2 & _ & E4).
    rewrite E1, Hc, E2, Hd in E4. by specialize (E4 eq_refl).
  - unfold Schema.validate_create in E.
    destruct (Schema.errors_of _) as [|x l]; [discriminate|].
    injection E as <-. by eexists.
Qed.

(** A created experience is never current with an end date. *)
Lemma create_keeps_current_exclusive (db db' : Db)
    (profile_id user_id new_id : string) (body : Schema.ExperienceCreateInput)
    (e : Experience.t) :
  Api.create_experience db profile_id user_id body new_id = Ok (db', e) ->
  Experience.is_current e = true -> Experience.end_date e = None.
Proof.
  unfold Api.create_experience.
  destruct (Schema.validate_create body) as [data|err] eqn:E; [|discriminate].
  apply validate_create_ok in E as (_ & _ & _ & E4).
  simpl. unfold ExperienceService.create_experience.
  destruct (first _ _) as [profile|]; [|discriminate].
  destruct (bool_decide _); [discriminate|].
  destruct (ExperienceService.insert _ db) as [db1|err]; [|discriminate].
  simpl. intros [= _ <-]. exact E4.
Qed.

(** C2 at an update. [ExperienceUpdate] carries no validator for the two
    fields, so the body that marks the position current and gives an end
    date is accepted and the stored row holds both. *)
Theorem update_accepts_current_with_end_date :
  exists db' e,
    Api.update_experience Sample.db "A" "u1" Sample.current_with_end_date
    = Ok (db', e)
    /\ e ∈ experiences db'
    /\ Experience.is_current e = true
    /\ Experience.end_date e = Some (mkdate 2024 6 1).
Proof.
  eexists _, _. split; [vm_compute; reflexivity|].
  split; [apply list_elem_of_here|]. split; reflexivity.
Qed.

(** ** Listing the experiences of a profile *)

Lemma first_none {A : Type} (p : A -> bool) (l : list A) :
  (forall x, x ∈ l -> p x = false) -> first p l = None.
Proof.
  intros H. unfold first.
  destruct (find p l) as [x|] eqn:E; [|done].
  apply find_some in E as [Hin Hp].
  apply list_elem_of_In in Hin. rewrite (H x Hin) in Hp. discriminate.
Qed.

(** C10. For a [profile_id] without a stored profile the listing is empty
    and raises nothing, whoever asks. *)
Theorem list_missing_profile_empty (db : Db) (profile_id : string)
    (viewer : option string) :
  (forall p, p ∈ profiles db -> Profile.id p <> profile_id) ->
  ExperienceService.get_experiences_by_profile db profile_id viewer = Ok [].
Proof.
  intros H. unfold ExperienceService.get_experiences_by_profile.
  rewrite first_none; [done|].
  intros p Hp. apply bool_decide_eq_false. by apply H.
Qed.

Lemma list_missing_profile_empty_witness :
  ExperienceService.get_experiences_by_profile Sample.db "p9" None = Ok [].
Proof.
  apply (list_missing_profile_empty Sample.db "p9" None).
  intros p Hp. unfold Sample.db, profiles in Hp.
  repeat (apply elem_of_cons in Hp as [-> | Hp];
          [vm_compute; discriminate|]).
  by apply not_elem_of_nil in Hp.
Defined.

(** ** ORDER BY returns the selected rows, sorted *)

Section OrderByFacts.
Context {A : Type} (precedes : A -> A -> bool).
Let R (x y : A) : Prop := precedes x y = true.
Hypothesis precedes_total : forall x y, R x y \/ R y x.
Hypothesis precedes_trans : forall x y z, R x y -> R y z -> R x z.

Lemma insert_row_Permutation (x : A) (l : list A) :
  insert_row precedes x l ≡ₚ x :: l.
Proof.
  induction l as [|y r IH]; simpl; [done|].
  destruct (precedes x y); [done|].
  rewrite IH. apply Permutation_swap.
Qed.

Lemma order_by_Permutation (l : list A) : order_by precedes l ≡ₚ l.
Proof.
  induction l as [|x l IH]; simpl; [done|].
  rewrite insert_row_Permutation. by rewrite IH.
Qed.

Lemma insert_row_HdRel (a x : A) (l : list A) :
  R a x -> HdRel R a l -> HdRel R a (insert_row precedes x l).
Proof.
  intros Hax Hal. destruct l as [|y r]; simpl; [by constructor|].
  destruct (precedes x y); constructor; [done|].
  by inversion Hal.
Qed.

Lemma insert_row_Sorted (x : A) (l : list A) :
  Sorted R l -> Sorted R (insert_row precedes x l).
Proof.
  induction 1 as [|y r Hs IH Hhd]; simpl; [by repeat constructor|].
  destruct (precedes x y) eqn:E.
  - constructor; [by constructor|]. by constructor.
  - constructor; [done|]. apply insert_row_HdRel; [|done].
    destruct (precedes_total x y) as [H|H]; [|done].
    unfold R in H. congruence.
Qed.

Lemma order_by_Sorted (l : list A) : Sorted R (order_by precedes l).
Proof.
  induction l as [|x l IH]; simpl; [constructor|].
  by apply insert_row_Sorted.
Qed.

Lemma order_by_StronglySorted (l : list A) :
  StronglySorted R (order_by precedes l).
Proof.
  apply Sorted_StronglySorted; [|apply order_by_Sorted].
  intros x y z. apply precedes_trans.
Qed.

End OrderByFacts.

Lemma date_leb_le (d1 d2 : date) : date_leb d1 d2 = true <-> date_le d1 d2.
Proof.
  unfold date_leb, date_le.
  repeat (rewrite orb_true_iff || rewrite andb_true_iff || rewrite Z.ltb_lt
          || rewrite Z.eqb_eq || rewrite Z.leb_le).
  reflexivity.
Qed.

Lemma listing_order_spec (e1 e2 : Experience.t) :
  ExperienceService.by_display_order_desc_start_date_desc e1 e2 = true
  <-> Rule.listed_before e1 e2.
Proof.
  unfold ExperienceService.by_display_order_desc_start_date_desc,
    Rule.listed_before.
  by rewrite orb_true_iff, andb_true_iff, Z.ltb_lt, Z.eqb_eq, date_leb_le.
Qed.

Lemma listing_order_total (e1 e2 : Experience.t) :
  Rule.listed_before e1 e2 \/ Rule.listed_before e2 e1.
Proof. unfold Rule.listed_before, date_le. lia. Qed.

Lemma listing_order_trans (e1 e2 e3 : Experience.t) :
  Rule.listed_before e1 e2 -> Rule.listed_before e2 e3 ->
  Rule.listed_before e1 e3.
Proof. unfold Rule.listed_before, date_le. lia. Qed.

Lemma StronglySorted_impl {A : Type} (R1 R2 : A -> A -> Prop) (l : list A) :
  (forall x y, R1 x y -> R2 x y) -> StronglySorted R1 l -> StronglySorted R2 l.
Proof.
  intros H. induction 1 as [|x l Hs IH Hall]; constructor; [done|].
  eapply Forall_impl; [exact Hall|]. intros y. apply H.
Qed.

Lemma filter_experience_of (profile_id : string) (rows : list Experience.t)
    (e : Experience.t) :
  e ∈ List.filter (experience_of profile_id) rows
  <-> e ∈ rows /\ Experience.profile_id e = profile_id.
Proof.
  rewrite !list_elem_of_In, filter_In. unfold experience_of.
  by rewrite bool_decide_eq_true.
Qed.

(** The listing of an accessible profile: exactly the profile's rows, in
    listing order. *)
Lemma listing_sorted (db : Db) (profile_id : string) :
  let l := order_by ExperienceService.by_display_order_desc_start_date_desc
             (List.filter (experience_of profile_id) (experiences db)) in
  l ≡ₚ List.filter (experience_of profile_id) (experiences db)
  /\ (forall e, e ∈ l <->
                e ∈ experiences db /\ Experience.profile_id e = profile_id)
  /\ StronglySorted Rule.listed_before l.
Proof.
  intros l.
  assert (Hp : l ≡ₚ List.filter (experience_of profile_id) (experiences db))
    by apply order_by_Permutation.
  split; [done|]. split.
  - intros e. by rewrite Hp, filter_experience_of.
  - eapply StronglySorted_impl; [intros x y; apply listing_order_spec|].
    apply order_by_StronglySorted.
    + intros x y. rewrite !listing_order_spec. apply listing_order_total.
    + intros x y z. rewrite !listing_order_spec. apply listing_order_trans.
Qed.

(** C9. For an existing profile, a caller without view access gets the
    authorization failure, not an empty list; a caller with view access
    gets all experiences of the profile, a higher display order first and,
    among equal display orders, the later start date first. *)
Theorem list_experiences_policy (db : Db) (profile_id : string)
    (viewer : option string) (profile : Profile.t) :
  first (profile_by_id profile_id) (profiles db) = Some profile ->
  (Profile.can_view profile viewer = false ->
   ExperienceService.get_experiences_by_profile db profile_id viewer
   = Raise (AuthenticationError
              "You don't have permission to view this profile"))
  /\ (Profile.can_view profile viewer = true ->
      exists l,
        ExperienceService.get_experiences_by_profile db profile_id viewer
        = Ok l
        /\ l ≡ₚ List.filter (experience_of profile_id) (experiences db)
        /\ (forall e, e ∈ l <->
              e ∈ experiences db /\ Experience.profile_id e = profile_id)
        /\ StronglySorted Rule.listed_before l).
Proof.
  intros Hp. unfold ExperienceService.get_experiences_by_profile.
  rewrite Hp. split; intros ->; simpl; [done|].
  eexists. split; [done|]. apply listing_sorted.
Qed.

Lemma list_experiences_policy_witness :
  ExperienceService.get_experiences_by_profile Sample.db "p1" None
  = Raise (AuthenticationError "You don't have permission to view this profile")
  /\ exists l,
       ExperienceService.get_experiences_by_profile Sample.db "p1" (Some "u1")
       = Ok l
       /\ StronglySorted Rule.listed_before l.
Proof.
  split.
  - apply (list_experiences_policy Sample.db "p1" None
             (Sample.profile "p1" "u1" "PRIVATE" (Some "X")));
      reflexivity.
  - destruct (list_experiences_policy Sample.db "p1" (Some "u1")
                (Sample.profile "p1" "u1" "PRIVATE" (Some "X")) eq_refl)
      as [_ H].
    destruct (H eq_refl) as (l & H1 & _ & _ & H4). by exists l.
Defined.

(** ** Display order of a new experience *)

Lemma order_desc_total (x y : Z) :
  ExperienceService.order_desc x y = true
  \/ ExperienceService.order_desc y x = true.
Proof. unfold ExperienceService.order_desc. lia. Qed.

Lemma order_desc_trans (x y z : Z) :
  ExperienceService.order_desc x y = true ->
  ExperienceService.order_desc y z = true ->
  ExperienceService.order_desc x z = true.
Proof. unfold ExperienceService.order_desc. lia. Qed.

(** [order_by(desc).first()] is [None] on no rows and the greatest value
    otherwise. *)
Lemma max_order_spec (orders : list Z) :
  match head (order_by ExperienceService.order_desc orders) with
  | None => orders = []
  | Some m => m ∈ orders /\ forall x, x ∈ orders -> x <= m
  end.
Proof.
  pose proof (order_by_Permutation ExperienceService.order_desc orders) as Hp.
  pose proof (order_by_StronglySorted ExperienceService.order_desc
                order_desc_total order_desc_trans orders) as Hs.
  destruct (order_by ExperienceService.order_desc orders) as [|m r]; simpl.
  - by apply Permutation_nil in Hp.
  - split.
    + rewrite <- Hp. apply list_elem_of_here.
    + intros x Hx. rewrite <- Hp in Hx.
      apply elem_of_cons in Hx as [->|Hx]; [lia|].
      apply StronglySorted_inv in Hs as [_ Hall].
      rewrite Forall_forall in Hall.
      specialize (Hall x Hx).
      unfold ExperienceService.order_desc in Hall. lia.
Qed.

(** C7, as the code has it. An authorised creation with a fresh key stores
    the new experience. If no display order is supplied, or the supplied one
    is 0, its display order is the greatest display order of the profile's
    experiences plus 1, or 0 when the profile has none; a supplied display
    order other than 0 is taken as it is. *)
Theorem create_display_order (db : Db) (profile_id user_id new_id : string)
    (body : Schema.ExperienceCreateInput) (data : Schema.ExperienceCreate)
    (profile : Profile.t) :
  first (profile_by_id profile_id) (profiles db) = Some profile ->
  Profile.user_id profile = user_id ->
  new_id ∉ Experience.id <$> experiences db ->
  Schema.validate_create body = Ok data ->
  exists db' e,
    Api.create_experience db profile_id user_id body new_id = Ok (db', e)
    /\ experiences db' = (experiences db ++ [e])%list
    /\ Experience.id e = new_id /\ Experience.profile_id e = profile_id
    /\ let orders :=
         Experience.display_order
           <$> List.filter (experience_of profile_id) (experiences db) in
       (Schema.in_display_order body = None
        \/ Schema.in_display_order body = Some 0 ->
        (orders = [] -> Experience.display_order e = 0)
        /\ (forall m, m ∈ orders -> (forall x, x ∈ orders -> x <= m) ->
            Experience.display_order e = m + 1))
       /\ (forall v, Schema.in_display_order body = Some v -> v <> 0 ->
           Experience.display_order e = v).
Proof.
  intros Hp Hu Hfresh Hv.
  unfold Api.create_experience. rewrite Hv. simpl.
  unfold ExperienceService.create_experience. rewrite Hp.
  rewrite bool_decide_eq_false_2 by (intros H; by apply H).
  unfold ExperienceService.insert. simpl.
  rewrite (bool_decide_eq_false_2 _ Hfresh). simpl.
  eexists _, _. split; [reflexivity|]. simpl.
  split; [reflexivity|]. split; [reflexivity|]. split; [reflexivity|].
  apply validate_create_ok in Hv as (_ & _ & Hd & _). rewrite Hd.
  pose proof (max_order_spec
    (Experience.display_order
       <$> List.filter (experience_of profile_id) (experiences db))) as Hmax.
  split.
  - intros Hz.
    assert (E : default 0 (Schema.in_display_order body) = 0)
      by (destruct Hz as [-> | ->]; reflexivity).
    rewrite E. simpl.
    destruct (head _) as [m|].
    + destruct Hmax as [Hin Hle]. split.
      * intros Hnil. rewrite Hnil in Hin. by apply not_elem_of_nil in Hin.
      * intros m' Hin' Hle'. specialize (Hle m' Hin'). specialize (Hle' m Hin).
        lia.
    + split; [done|]. intros m' Hin' _. rewrite Hmax in Hin'.
      by apply not_elem_of_nil in Hin'.
  - intros v -> Hne. simpl.
    destruct (v =? 0) eqn:E; [lia|done].
Qed.

Lemma create_display_order_witness :
  exists db' e,
    Api.create_experience Sample.db "p1" "u1"
      (Sample.create_body None None (Some 3)) "N" = Ok (db', e)
    /\ Experience.display_order e = 3.
Proof.
  assert (Hfresh : "N" ∉ Experience.id <$> experiences Sample.db).
  { apply (bool_decide_unpack _). vm_compute. exact I. }
  destruct (create_display_order Sample.db "p1" "u1" "N"
              (Sample.create_body None None (Some 3)) _
              (Sample.profile "p1" "u1" "PRIVATE" (Some "X"))
              eq_refl eq_refl Hfresh eq_refl)
    as (db' & e & H1 & _ & _ & _ & _ & H2).
  exists db', e. split; [exact H1|].
  apply (H2 3); [reflexivity|discriminate].
Defined.

(** C7, as worded, fails at a supplied 0: the profile's greatest display
    order is 7 and the new experience gets 8. *)
Lemma create_explicit_zero_not_kept :
  exists db' e,
    Api.create_experience Sample.db "p1" "u1"
      (Sample.create_body None None (Some 0)) "N" = Ok (db', e)
    /\ Experience.display_order e = 8.
Proof. eexists _, _. split; [vm_compute; reflexivity|reflexivity]. Qed.

(** ** Reordering experiences *)

Lemma set_display_order_same (e : Experience.t) :
  Experience.set_display_order (Experience.display_order e) e = e.
Proof. by destruct e. Qed.

Lemma set_display_order_twice (v w : Z) (e : Experience.t) :
  Experience.set_display_order v (Experience.set_display_order w e)
  = Experience.set_display_order v e.
Proof. reflexivity. Qed.

Lemma filter_fmap_commute {A : Type} (f : A -> A) (p : A -> bool)
    (l : list A) :
  (forall x, x ∈ l -> p (f x) = p x) ->
  List.filter p (f <$> l) = f <$> List.filter p l.
Proof.
  induction l as [|x l IH]; intros H; [done|].
  rewrite fmap_cons. cbn [List.filter].
  rewrite (H x) by apply list_elem_of_here.
  rewrite IH by (intros y Hy; apply H; by apply list_elem_of_further).
  destruct (p x); by rewrite ?fmap_cons.
Qed.

(** The state of the row object under key [k] after the loop: only its
    display order may differ, it is untouched when [k] is not in the list,
    and it is [n - (index + j)] for the last position [j] of [k]. *)
Lemma reorder_loop_lookup (n : Z) (ids : list string) :
  forall (index : nat) (m : gmap string Experience.t) (k : string)
         (e : Experience.t),
    m !! k = Some e ->
    exists v,
      ExperienceService.reorder_loop n index ids m !! k
      = Some (Experience.set_display_order v e)
      /\ (k ∉ ids -> v = Experience.display_order e)
      /\ (forall j, ids !! j = Some k ->
            (forall j', (j < j')%nat -> ids !! j' <> Some k) ->
            v = n - Z.of_nat (index + j)).
Proof.
  induction ids as [|x rest IH]; intros index m k e Hk; simpl.
  - exists (Experience.display_order e).
    rewrite set_display_order_same. split; [done|]. split; [done|].
    intros j Hj. by rewrite lookup_nil in Hj.
  - destruct (decide (x = k)) as [->|Hne].
    + rewrite Hk.
      destruct (IH (S index)
                  (<[k:=Experience.set_display_order (n - Z.of_nat index) e]> m)
                  k (Experience.set_display_order (n - Z.of_nat index) e))
        as (v & Hv & Hout & Hlast); [apply lookup_insert_eq|].
      exists v. split; [exact Hv|]. split.
      * intros Hnot. exfalso. apply Hnot. apply list_elem_of_here.
      * intros [|j] Hj Hafter.
        -- rewrite Hout; [simpl; f_equal; lia|].
           intros Hin. apply list_elem_of_lookup in Hin as [j' Hj'].
           by apply (Hafter (S j')); [lia|].
        -- rewrite (Hlast j Hj); [lia|].
           intros j' Hlt. apply (Hafter (S j')). lia.
    + assert (Hk' : (match m !! x with
                     | Some e0 =>
                         <[x:=Experience.set_display_order
                                (n - Z.of_nat index) e0]> m
                     | None => m
                     end) !! k = Some e).
      { destruct (m !! x); [by rewrite lookup_insert_ne|done]. }
      destruct (IH (S index) _ k e Hk') as (v & Hv & Hout & Hlast).
      exists v. split; [exact Hv|]. split.
      * intros Hnot. apply Hout. intros Hin. apply Hnot.
        by apply list_elem_of_further.
      * intros [|j] Hj Hafter; [simpl in Hj; congruence|].
        rewrite (Hlast j Hj); [lia|].
        intros j' Hlt. apply (Hafter (S j')). lia.
Qed.

Lemma experience_map_skip (rows : list Experience.t) :
  forall (m : gmap string Experience.t) (k : string),
    k ∉ Experience.id <$> rows ->
    fold_left (fun m e => <[Experience.id e := e]> m) rows m !! k = m !! k.
Proof.
  induction rows as [|x rows IH]; intros m k Hk; simpl; [done|].
  rewrite fmap_cons in Hk. apply not_elem_of_cons in Hk as [Hne Hk].
  rewrite IH by done. by rewrite lookup_insert_ne.
Qed.

(** Under distinct keys the map sends the key of each row to the row. *)
Lemma experience_map_lookup (rows : list Experience.t) (e : Experience.t) :
  NoDup (Experience.id <$> rows) -> e ∈ rows ->
  ExperienceService.experience_map_of rows !! Experience.id e = Some e.
Proof.
  unfold ExperienceService.experience_map_of. generalize (∅ : gmap string Experience.t).
  induction rows as [|x rows IH]; intros m Hnd He; simpl.
  - by apply not_elem_of_nil in He.
  - rewrite fmap_cons in Hnd. apply NoDup_cons in Hnd as [Hx Hnd].
    apply elem_of_cons in He as [->|He].
    + rewrite experience_map_skip by done. apply lookup_insert_eq.
    + by apply IH.
Qed.

(** What the commit after the loop does to a row of the table. *)
Lemma reorder_row (profile_id : string) (ids : list string)
    (table : list Experience.t) (e : Experience.t) :
  NoDup (Experience.id
           <$> List.filter (experience_of profile_id) table) ->
  e ∈ table ->
  let m :=
    ExperienceService.reorder_loop (Z.of_nat (length ids)) 0 ids
      (ExperienceService.experience_map_of
         (List.filter (experience_of profile_id) table)) in
  exists v,
    (if experience_of profile_id e
     then default e (m !! Experience.id e) else e)
    = Experience.set_display_order v e
    /\ (Experience.profile_id e <> profile_id ->
        v = Experience.display_order e)
    /\ (Experience.id e ∉ ids -> v = Experience.display_order e)
    /\ (Experience.profile_id e = profile_id ->
        forall j, ids !! j = Some (Experience.id e) ->
          (forall j', (j < j')%nat -> ids !! j' <> Some (Experience.id e)) ->
          v = Z.of_nat (length ids) - Z.of_nat j).
Proof.
  intros Hnd He m. unfold experience_of.
  destruct (decide (Experience.profile_id e = profile_id)) as [Hp|Hp].
  - rewrite (bool_decide_eq_true_2 _ Hp).
    assert (Hin : e ∈ List.filter (experience_of profile_id) table)
      by (by apply filter_experience_of).
    destruct (reorder_loop_lookup (Z.of_nat (length ids)) ids 0 _ _ e
                (experience_map_lookup _ e Hnd Hin))
      as (v & Hv & Hout & Hlast).
    exists v. subst m. rewrite Hv. simpl.
    split; [done|]. split; [done|]. split; [done|].
    intros _ j Hj Hafter. by rewrite (Hlast j Hj Hafter).
  - rewrite (bool_decide_eq_false_2 _ Hp).
    exists (Experience.display_order e).
    by rewrite set_display_order_same.
Qed.

Lemma NoDup_fmap_filter {A B : Type} (f : A -> B) (p : A -> bool)
    (l : list A) :
  NoDup (f <$> l) -> NoDup (f <$> List.filter p l).
Proof.
  induction l as [|x l IH]; [done|].
  rewrite fmap_cons, NoDup_cons. intros [Hx Hnd]. cbn [List.filter].
  destruct (p x); [|by apply IH].
  rewrite fmap_cons, NoDup_cons. split; [|by apply IH].
  intros Hin. apply Hx.
  apply list_elem_of_fmap in Hin as (y & -> & Hy).
  apply list_elem_of_fmap_2.
  apply list_elem_of_In, filter_In in Hy as [Hy _].
  by apply list_elem_of_In.
Qed.

(** C6, as the code has it. An authorised reorder raises nothing and
    changes nothing but display orders of the profile's experiences. An
    experience of the profile whose id is in the list gets
    [len(ordered_ids) - index], where [index] is the last position of its
    id in the list (its only position when the list repeats no id); rows of
    other profiles and rows whose id is not in the list stay as they are,
    and ids of the list that belong to no row of the profile have no
    effect. *)
Theorem reorder_experiences_spec (db : Db) (profile_id user_id : string)
    (ids : list string) (profile : Profile.t) :
  first (profile_by_id profile_id) (profiles db) = Some profile ->
  Profile.user_id profile = user_id ->
  NoDup (Experience.id <$> experiences db) ->
  exists db' l,
    ExperienceService.reorder_experiences db profile_id user_id ids
    = Ok (db', l)
    /\ users db' = users db /\ profiles db' = profiles db
    /\ projects db' = projects db
    /\ length (experiences db') = length (experiences db)
    /\ l ≡ₚ List.filter (experience_of profile_id) (experiences db')
    /\ forall j e, experiences db !! j = Some e ->
         exists e',
           experiences db' !! j = Some e'
           /\ e' = Experience.set_display_order (Experience.display_order e') e
           /\ (Experience.profile_id e <> profile_id
               \/ Experience.id e ∉ ids -> e' = e)
           /\ (Experience.profile_id e = profile_id ->
               forall i, ids !! i = Some (Experience.id e) ->
                 (forall i', (i < i')%nat ->
                    ids !! i' <> Some (Experience.id e)) ->
                 Experience.display_order e'
                 = Z.of_nat (length ids) - Z.of_nat i).
Proof.
  intros Hp Hu Hnd.
  unfold ExperienceService.reorder_experiences. rewrite Hp.
  rewrite bool_decide_eq_false_2 by (intros H; by apply H).
  eexists _, _. split; [reflexivity|]. simpl.
  split; [done|]. split; [done|]. split; [done|].
  unfold ExperienceService.commit_rows.
  split; [apply length_fmap|]. split; [apply order_by_Permutation|].
  intros j e Hj. rewrite list_lookup_fmap, Hj. simpl.
  destruct (reorder_row profile_id ids (experiences db) e)
    as (v & Hv & Hother & Hout & Hlast).
  { by apply NoDup_fmap_filter. }
  { apply list_elem_of_lookup. by exists j. }
  eexists. split; [reflexivity|]. rewrite Hv.
  split; [reflexivity|]. split.
  - intros [H|H]; [rewrite (Hother H)|rewrite (Hout H)];
      apply set_display_order_same.
  - intros Hprof i Hi Hafter. simpl. by apply Hlast.
Qed.

Lemma reorder_experiences_spec_witness :
  exists db' l,
    ExperienceService.reorder_experiences Sample.db "p1" "u1" ["B"; "Q"; "Z"]
    = Ok (db', l)
    /\ length (experiences db') = length (experiences Sample.db).
Proof.
  assert (Hnd : NoDup (Experience.id <$> experiences Sample.db)).
  { apply (bool_decide_unpack _). vm_compute. exact I. }
  destruct (reorder_experiences_spec Sample.db "p1" "u1" ["B"; "Q"; "Z"]
              (Sample.profile "p1" "u1" "PRIVATE" (Some "X"))
              eq_refl eq_refl Hnd)
    as (db' & l & H & _ & _ & _ & Hlen & _).
  by exists db', l.
Defined.

(** C6, as worded, fails when the list repeats an id: "A" is at position
    0 of a list of length 2, and experience A ends with display order
    2 - 1 = 1, not 2 - 0 = 2. *)
Lemma reorder_repeated_id_last_wins :
  exists db' l,
    ExperienceService.reorder_experiences Sample.db "p1" "u1" ["A"; "A"]
    = Ok (db', l)
    /\ ["A"; "A"] !! 0%nat = Some "A"
    /\ Experience.display_order
         <$> first (experience_by_id "A") (experiences db') = Some 1.
Proof.
  eexists _, _. split; [vm_compute; reflexivity|]. split; reflexivity.
Qed.

(** ** Reordering projects *)

Lemma project_set_display_order_same (p : Project.t) :
  Project.set_display_order (Project.display_order p) p = p.
Proof. by destruct p. Qed.

Lemma NoDup_fmap_eq {A B : Type} (f : A -> B) (l : list A) (x y : A) :
  NoDup (f <$> l) -> x ∈ l -> y ∈ l -> f x = f y -> x = y.
Proof.
  induction l as [|z l IH]; intros Hnd Hx Hy E.
  - by apply not_elem_of_nil in Hx.
  - rewrite fmap_cons in Hnd. apply NoDup_cons in Hnd as [Hz Hnd].
    apply elem_of_cons in Hx as [->|Hx]; apply elem_of_cons in Hy as [->|Hy].
    + done.
    + exfalso. apply Hz. rewrite E. by apply list_elem_of_fmap_2.
    + exfalso. apply Hz. rewrite <- E. by apply list_elem_of_fmap_2.
    + by apply IH.
Qed.

Lemma first_some {A : Type} (p : A -> bool) (l : list A) (x : A) :
  first p l = Some x -> x ∈ l /\ p x = true.
Proof.
  intros H. apply find_some in H as [H1 H2].
  by rewrite list_elem_of_In.
Qed.

Lemma first_none_inv {A : Type} (p : A -> bool) (l : list A) (x : A) :
  first p l = None -> x ∈ l -> p x = false.
Proof.
  intros H Hx. apply (find_none p l H). by apply list_elem_of_In.
Qed.

(** Writing back the row found under a unique key changes that row only. *)
Lemma replace_first_unique (x : string) (new : Project.t)
    (table : list Project.t) :
  NoDup (Project.id <$> table) ->
  replace_first (project_by_id x) new table
  = (fun p => if project_by_id x p then new else p) <$> table.
Proof.
  induction table as [|p table IH]; intros Hnd; [done|].
  rewrite fmap_cons in Hnd. apply NoDup_cons in Hnd as [Hp Hnd].
  rewrite fmap_cons. cbn [replace_first].
  destruct (project_by_id x p) eqn:E; [|by rewrite IH].
  f_equal. symmetry.
  rewrite <- (list_fmap_id table) at 2. apply list_fmap_ext.
  intros i q Hq. unfold project_by_id in *.
  apply bool_decide_eq_true in E.
  rewrite bool_decide_eq_false_2; [done|].
  intros Hqx. apply Hp. rewrite E, <- Hqx.
  apply list_elem_of_fmap_2. apply list_elem_of_lookup. by exists i.
Qed.

(** One round of the project loop, row by row. *)
Lemma project_round (profile_id x : string) (v : Z) (table : list Project.t) :
  NoDup (Project.id <$> table) ->
  match first (project_by_id x) table with
  | Some project =>
      if bool_decide (Project.profile_id project = profile_id)
      then replace_first (project_by_id x)
             (Project.set_display_order v project) table
      else table
  | None => table
  end
  = (fun p =>
       if project_by_id x p && project_of profile_id p
       then Project.set_display_order v p else p) <$> table.
Proof.
  intros Hnd.
  destruct (first (project_by_id x) table) as [project|] eqn:E.
  - apply first_some in E as [Hin Hx].
    assert (Huniq : forall q, q ∈ table -> project_by_id x q = true ->
                              q = project).
    { intros q Hq Hqx. apply (NoDup_fmap_eq Project.id table); try done.
      unfold project_by_id in *.
      apply bool_decide_eq_true in Hx, Hqx. congruence. }
    destruct (bool_decide (Project.profile_id project = profile_id)) eqn:Ep.
    + rewrite replace_first_unique by done.
      apply list_fmap_ext. intros i q Hq.
      destruct (project_by_id x q) eqn:Eq; [|done].
      rewrite (Huniq q); [|apply list_elem_of_lookup; by exists i|done].
      unfold project_of. by rewrite Ep.
    + rewrite <- (list_fmap_id table) at 1. apply list_fmap_ext.
      intros i q Hq. simpl.
      destruct (project_by_id x q) eqn:Eq; [|done].
      rewrite (Huniq q); [|apply list_elem_of_lookup; by exists i|done].
      unfold project_of. by rewrite Ep.
  - rewrite <- (list_fmap_id table) at 1. apply list_fmap_ext.
    intros i q Hq. simpl.
    rewrite (first_none_inv _ _ q E); [done|].
    apply list_elem_of_lookup. by exists i.
Qed.

(** The project loop touches the project table only, and there only display
    orders: a project of the profile whose id is in the list gets
    [index + j] for the last position [j] of its id. *)
Lemma project_loop_spec (profile_id : string) (ids : list string) :
  forall (index : nat) (db : Db),
    NoDup (Project.id <$> projects db) ->
    exists F : Project.t -> Project.t,
      ProjectService.reorder_loop profile_id index ids db
      = set_projects (F <$> projects db) db
      /\ forall p, p ∈ projects db ->
           exists v,
             F p = Project.set_display_order v p
             /\ (Project.profile_id p <> profile_id ->
                 v = Project.display_order p)
             /\ (Project.id p ∉ ids -> v = Project.display_order p)
             /\ (Project.profile_id p = profile_id ->
                 forall j, ids !! j = Some (Project.id p) ->
                   (forall j', (j < j')%nat ->
                      ids !! j' <> Some (Project.id p)) ->
                   v = Z.of_nat (index + j)).
Proof.
  induction ids as [|x rest IH]; intros index db Hnd.
  - exists (fun p => p). split.
    + simpl. rewrite list_fmap_id. by destruct db.
    + intros p _. exists (Project.display_order p).
      rewrite project_set_display_order_same.
      split; [done|]. split; [done|]. split; [done|].
      intros _ j Hj. by rewrite lookup_nil in Hj.
  - set (step := fun p : Project.t =>
                   if project_by_id x p && project_of profile_id p
                   then Project.set_display_order (Z.of_nat index) p else p).
    assert (Hid : forall p, Project.id (step p) = Project.id p)
      by (intros p; unfold step; by destruct (_ && _)).
    assert (Hpr : forall p, Project.profile_id (step p) = Project.profile_id p)
      by (intros p; unfold step; by destruct (_ && _)).
    assert (Hstep :
      match ProjectService.get_project_by_id db x with
      | Some project =>
          if bool_decide (Project.profile_id project = profile_id)
          then set_projects
                 (replace_first (project_by_id x)
                    (Project.set_display_order (Z.of_nat index) project)
                    (projects db)) db
          else db
      | None => db
      end = set_projects (step <$> projects db) db).
    { rewrite <- (project_round profile_id x (Z.of_nat index)) by done.
      unfold ProjectService.get_project_by_id.
      destruct (first _ _) as [project|]; [|by destruct db].
      destruct (bool_decide _); by destruct db. }
    cbn [ProjectService.reorder_loop]. rewrite Hstep.
    destruct (IH (S index) (set_projects (step <$> projects db) db))
      as (F & HF & Hrows).
    { simpl. rewrite <- list_fmap_compose.
      erewrite list_fmap_ext; [exact Hnd|]. intros i p _. apply Hid. }
    exists (fun p => F (step p)). split.
    + rewrite HF. simpl. by rewrite <- list_fmap_compose.
    + intros p Hp.
      destruct (Hrows (step p)) as (v & Hv & Hother & Hout & Hlast).
      { simpl. by apply list_elem_of_fmap_2. }
      rewrite Hid in Hout, Hlast. rewrite Hpr in Hother, Hlast.
      exists v. unfold step in *.
      destruct (project_by_id x p && project_of profile_id p) eqn:E.
      * apply andb_true_iff in E as [Ex Epr].
        apply bool_decide_eq_true in Ex, Epr.
        split; [by rewrite Hv|]. split; [done|]. split.
        -- intros Hnot. exfalso. apply Hnot. rewrite Ex.
           apply list_elem_of_here.
        -- intros _ [|j] Hj Hafter.
           ++ rewrite Hout; [simpl; lia|].
              intros Hin. apply list_elem_of_lookup in Hin as [j' Hj'].
              by apply (Hafter (S j')); [lia|].
           ++ rewrite (Hlast Epr j Hj); [lia|].
              intros j' Hlt. apply (Hafter (S j')). lia.
      * split; [done|]. split; [done|]. split.
        -- intros Hnot. apply Hout. intros Hin. apply Hnot.
           by apply list_elem_of_further.
        -- intros Epr [|j] Hj Hafter.
           ++ exfalso. simpl in Hj. injection Hj as Hx.
              apply andb_false_iff in E as [E|E];
                apply bool_decide_eq_false in E; by apply E.
           ++ rewrite (Hlast Epr j Hj); [lia|].
              intros j' Hlt. apply (Hafter (S j')). lia.
Qed.

(** ** Reorder, then list *)

(** Three rows whose keys are strictly ordered leave ORDER BY one result. *)
Lemma order_by_three {A : Type} (precedes : A -> A -> bool) (l : list A)
    (x y z : A) :
  (forall u v, precedes u v = true \/ precedes v u = true) ->
  (forall u v w, precedes u v = true -> precedes v w = true ->
                 precedes u w = true) ->
  l ≡ₚ [x; y; z] ->
  precedes x y = true -> precedes y z = true ->
  precedes y x = false -> precedes z y = false -> precedes z x = false ->
  order_by precedes l = [x; y; z].
Proof.
  intros Htot Htrans Hl Hxy Hyz Hyx Hzy Hzx.
  apply (StronglySorted_unique_strong (fun u v => precedes u v = true)).
  - intros u v Hu Hv Huv Hvu.
    rewrite order_by_Permutation, Hl in Hu.
    repeat (apply elem_of_cons in Hu as [->|Hu]);
      try (by apply not_elem_of_nil in Hu);
      repeat (apply elem_of_cons in Hv as [->|Hv]);
      try (by apply not_elem_of_nil in Hv);
      congruence.
  - by apply order_by_StronglySorted.
  - assert (Hxz : precedes x z = true) by by apply (Htrans x y z).
    apply SSorted_cons; [apply SSorted_cons; [apply SSorted_cons|]|].
    + apply SSorted_nil.
    + apply Forall_nil_2.
    + by apply Forall_cons_2; [|apply Forall_nil_2].
    + by repeat (apply Forall_cons_2; [done|]).
  - by rewrite order_by_Permutation.
Qed.

Lemma three_rows {A : Type} (f : A -> string) (l : list A) (a b c : string) :
  f <$> l ≡ₚ [a; b; c] ->
  exists x y z, l ≡ₚ [x; y; z] /\ f x = a /\ f y = b /\ f z = c.
Proof.
  intros H. symmetry in H.
  apply Permutation_map_inv in H as (l3 & E & Hp).
  destruct l3 as [|x [|y [|z [|? ?]]]]; try discriminate.
  simpl in E. injection E as Ha Hb Hc. by exists x, y, z.
Qed.

Lemma three_distinct (a b c : string) :
  NoDup [a; b; c] -> a <> b /\ a <> c /\ b <> c.
Proof.
  intros H. apply NoDup_cons in H as [H1 H2].
  apply NoDup_cons in H2 as [H3 _].
  apply not_elem_of_cons in H1 as [Hab H1].
  apply not_elem_of_cons in H1 as [Hac _].
  apply not_elem_of_cons in H3 as [Hbc _].
  done.
Qed.

Lemma by_display_order_desc_total (u v : Experience.t) :
  ExperienceService.by_display_order_desc u v = true
  \/ ExperienceService.by_display_order_desc v u = true.
Proof. unfold ExperienceService.by_display_order_desc. lia. Qed.

Lemma by_display_order_desc_trans (u v w : Experience.t) :
  ExperienceService.by_display_order_desc u v = true ->
  ExperienceService.by_display_order_desc v w = true ->
  ExperienceService.by_display_order_desc u w = true.
Proof. unfold ExperienceService.by_display_order_desc. lia. Qed.

Lemma listing_precedes_total (u v : Experience.t) :
  ExperienceService.by_display_order_desc_start_date_desc u v = true
  \/ ExperienceService.by_display_order_desc_start_date_desc v u = true.
Proof. rewrite !listing_order_spec. apply listing_order_total. Qed.

Lemma listing_precedes_trans (u v w : Experience.t) :
  ExperienceService.by_display_order_desc_start_date_desc u v = true ->
  ExperienceService.by_display_order_desc_start_date_desc v w = true ->
  ExperienceService.by_display_order_desc_start_date_desc u w = true.
Proof. rewrite !listing_order_spec. apply listing_order_trans. Qed.

Lemma listing_precedes_gt (u v : Experience.t) :
  Experience.display_order v < Experience.display_order u ->
  ExperienceService.by_display_order_desc_start_date_desc u v = true
  /\ ExperienceService.by_display_order_desc_start_date_desc v u = false.
Proof.
  intros H. split.
  - apply listing_order_spec. by left.
  - apply not_true_is_false. rewrite listing_order_spec.
    unfold Rule.listed_before. lia.
Qed.

Lemma project_precedes_spec (p q : Project.t) :
  ProjectService.by_display_order_asc_created_at_desc p q = true
  <-> Rule.project_listed_before p q.
Proof.
  unfold ProjectService.by_display_order_asc_created_at_desc,
    Rule.project_listed_before.
  by rewrite orb_true_iff, andb_true_iff, Z.ltb_lt, Z.eqb_eq, Z.leb_le.
Qed.

Lemma project_precedes_total (p q : Project.t) :
  ProjectService.by_display_order_asc_created_at_desc p q = true
  \/ ProjectService.by_display_order_asc_created_at_desc q p = true.
Proof.
  rewrite !project_precedes_spec. unfold Rule.project_listed_before. lia.
Qed.

Lemma project_precedes_trans (p q r : Project.t) :
  ProjectService.by_display_order_asc_created_at_desc p q = true ->
  ProjectService.by_display_order_asc_created_at_desc q r = true ->
  ProjectService.by_display_order_asc_created_at_desc p r = true.
Proof.
  rewrite !project_precedes_spec. unfold Rule.project_listed_before. lia.
Qed.

Lemma project_precedes_lt (p q : Project.t) :
  Project.display_order p < Project.display_order q ->
  ProjectService.by_display_order_asc_created_at_desc p q = true
  /\ ProjectService.by_display_order_asc_created_at_desc q p = false.
Proof.
  intros H. split.
  - apply project_precedes_spec. by left.
  - apply not_true_is_false. rewrite project_precedes_spec.
    unfold Rule.project_listed_before. lia.
Qed.

(** The owner may view the profile whatever its visibility. *)
Lemma owner_can_view (p : Profile.t) :
  Profile.can_view p (Some (Profile.user_id p)) = true.
Proof.
  unfold Profile.can_view.
  repeat destruct (bool_decide (Profile.visibility p = _)); try done;
    by apply bool_decide_eq_true.
Qed.

(** The positions of the three ids in the requested order. *)
Lemma requested_positions (a b c : string) :
  NoDup [a; b; c] ->
  (forall j', (0 < j')%nat -> [c; a; b] !! j' <> Some c)
  /\ (forall j', (1 < j')%nat -> [c; a; b] !! j' <> Some a)
  /\ (forall j', (2 < j')%nat -> [c; a; b] !! j' <> Some b).
Proof.
  intros Hnd. apply three_distinct in Hnd as (Hab & Hac & Hbc).
  repeat split; intros [|[|[|j']]] Hlt; simpl; rewrite ?lookup_nil;
    try (exfalso; lia); congruence.
Qed.

(** The profile's rows after the experience reorder with [[c; a; b]]. *)
Lemma reordered_experience_rows (db : Db) (profile_id : string)
    (a b c : string) :
  Experience.id <$> List.filter (experience_of profile_id) (experiences db)
    ≡ₚ [a; b; c] ->
  NoDup [a; b; c] ->
  exists ra rb rc,
    List.filter (experience_of profile_id)
      (ExperienceService.commit_rows profile_id
         (ExperienceService.reorder_loop 3 0 [c; a; b]
            (ExperienceService.experience_map_of
               (List.filter (experience_of profile_id) (experiences db))))
         (experiences db))
    ≡ₚ [Experience.set_display_order 3 rc;
        Experience.set_display_order 2 ra;
        Experience.set_display_order 1 rb]
    /\ Experience.id ra = a /\ Experience.id rb = b /\ Experience.id rc = c.
Proof.
  intros Hids Hnd.
  assert (Hrows : NoDup (Experience.id
            <$> List.filter (experience_of profile_id) (experiences db)))
    by (by rewrite Hids).
  destruct (requested_positions a b c Hnd) as (Hc & Ha & Hb).
  destruct (three_rows _ _ a b c Hids) as (ra & rb & rc & Hperm & Ea & Eb & Ec).
  exists ra, rb, rc.
  pose proof (fun e => reorder_row profile_id [c; a; b] (experiences db) e Hrows)
    as Hrow.
  cbn zeta in Hrow. change (Z.of_nat (length [c; a; b])) with 3 in Hrow.
  unfold ExperienceService.commit_rows.
  set (F := fun e : Experience.t =>
              if experience_of profile_id e
              then default e
                     (ExperienceService.reorder_loop 3 0 [c; a; b]
                        (ExperienceService.experience_map_of
                           (List.filter (experience_of profile_id)
                              (experiences db))) !! Experience.id e)
              else e) in *.
  assert (Hin : forall r, r ∈ [ra; rb; rc] ->
            r ∈ experiences db /\ Experience.profile_id r = profile_id).
  { intros r Hr. rewrite <- Hperm in Hr. by apply filter_experience_of. }
  destruct (Hin ra) as [Hra Hpa]; [by repeat constructor|].
  destruct (Hin rb) as [Hrb Hpb]; [by repeat constructor|].
  destruct (Hin rc) as [Hrc Hpc]; [by repeat constructor|].
  assert (Fa : F ra = Experience.set_display_order 2 ra).
  { destruct (Hrow ra Hra) as (v & Hv & _ & _ & Hlast).
    unfold F. rewrite Hv.
    rewrite (Hlast Hpa 1%nat); [done|by rewrite Ea|by rewrite Ea]. }
  assert (Fb : F rb = Experience.set_display_order 1 rb).
  { destruct (Hrow rb Hrb) as (v & Hv & _ & _ & Hlast).
    unfold F. rewrite Hv.
    rewrite (Hlast Hpb 2%nat); [done|by rewrite Eb|by rewrite Eb]. }
  assert (Fc : F rc = Experience.set_display_order 3 rc).
  { destruct (Hrow rc Hrc) as (v & Hv & _ & _ & Hlast).
    unfold F. rewrite Hv.
    rewrite (Hlast Hpc 0%nat); [done|by rewrite Ec|by rewrite Ec]. }
  split; [|done].
  rewrite filter_fmap_commute.
  - rewrite Hperm. simpl. rewrite Fa, Fb, Fc.
    symmetry.
    apply (Permutation_cons_append
             [Experience.set_display_order 2 ra;
              Experience.set_display_order 1 rb]).
  - intros e He. destruct (Hrow e He) as (v & Hv & _).
    unfold F. by rewrite Hv.
Qed.

Lemma experiences_reordered_and_listed (db : Db) (profile_id user_id : string)
    (a b c : string) (profile : Profile.t) :
  first (profile_by_id profile_id) (profiles db) = Some profile ->
  Profile.user_id profile = user_id ->
  Experience.id <$> List.filter (experience_of profile_id) (experiences db)
    ≡ₚ [a; b; c] ->
  NoDup [a; b; c] ->
  exists db' l,
    ExperienceService.reorder_experiences db profile_id user_id [c; a; b]
    = Ok (db', l)
    /\ ExperienceService.get_experiences_by_profile db' profile_id
         (Some user_id) = Ok l
    /\ Experience.id <$> l = [c; a; b]
    /\ Experience.display_order <$> l = [3; 2; 1].
Proof.
  intros Hp Hu Hids Hnd.
  destruct (reordered_experience_rows db profile_id a b c Hids Hnd)
    as (ra & rb & rc & Hrows & Ea & Eb & Ec).
  exists (set_experiences
            (ExperienceService.commit_rows profile_id
               (ExperienceService.reorder_loop 3 0 [c; a; b]
                  (ExperienceService.experience_map_of
                     (List.filter (experience_of profile_id)
                        (experiences db))))
               (experiences db)) db),
    [Experience.set_display_order 3 rc; Experience.set_display_order 2 ra;
     Experience.set_display_order 1 rb].
  split; [|split; [|split]].
  - unfold ExperienceService.reorder_experiences. rewrite Hp.
    rewrite bool_decide_eq_false_2 by (intros H; by apply H).
    cbn [experiences set_experiences].
    change (Z.of_nat (length [c; a; b])) with 3.
    do 2 f_equal.
    apply order_by_three;
      [apply by_display_order_desc_total|apply by_display_order_desc_trans
      |exact Hrows|done..].
  - unfold ExperienceService.get_experiences_by_profile.
    cbn [profiles experiences set_experiences]. rewrite Hp, <- Hu.
    rewrite owner_can_view. cbn [negb]. f_equal.
    apply order_by_three;
      [apply listing_precedes_total|apply listing_precedes_trans
      |exact Hrows|..];
      by apply listing_precedes_gt.
  - simpl. by rewrite Ea, Eb, Ec.
  - done.
Qed.

Lemma filter_project_of (profile_id : string) (rows : list Project.t)
    (p : Project.t) :
  p ∈ List.filter (project_of profile_id) rows
  <-> p ∈ rows /\ Project.profile_id p = profile_id.
Proof.
  rewrite !list_elem_of_In, filter_In. unfold project_of.
  by rewrite bool_decide_eq_true.
Qed.

Lemma projects_reordered_and_listed (db : Db) (profile_id user_id : string)
    (a b c : string) (profile : Profile.t) :
  first (profile_by_id profile_id) (profiles db) = Some profile ->
  Profile.user_id profile = user_id ->
  Project.id <$> List.filter (project_of profile_id) (projects db)
    ≡ₚ [a; b; c] ->
  NoDup [a; b; c] ->
  NoDup (Project.id <$> projects db) ->
  exists db' l,
    ProjectService.reorder_projects db profile_id user_id [c; a; b]
    = Ok (db', l)
    /\ ProjectService.get_profile_projects db' profile_id = l
    /\ Project.id <$> l = [c; a; b]
    /\ Project.display_order <$> l = [0; 1; 2].
Proof.
  intros Hp Hu Hids Hnd Hkey.
  destruct (requested_positions a b c Hnd) as (Hc & Ha & Hb).
  destruct (three_rows _ _ a b c Hids) as (ra & rb & rc & Hperm & Ea & Eb & Ec).
  destruct (project_loop_spec profile_id [c; a; b] 0 db Hkey)
    as (F & HF & Hrow).
  assert (Hin : forall r, r ∈ [ra; rb; rc] ->
            r ∈ projects db /\ Project.profile_id r = profile_id).
  { intros r Hr. rewrite <- Hperm in Hr. by apply filter_project_of. }
  destruct (Hin ra) as [Hra Hpa]; [by repeat constructor|].
  destruct (Hin rb) as [Hrb Hpb]; [by repeat constructor|].
  destruct (Hin rc) as [Hrc Hpc]; [by repeat constructor|].
  assert (Fa : F ra = Project.set_display_order 1 ra).
  { destruct (Hrow ra Hra) as (v & Hv & _ & _ & Hlast). rewrite Hv.
    rewrite (Hlast Hpa 1%nat); [done|by rewrite Ea|by rewrite Ea]. }
  assert (Fb : F rb = Project.set_display_order 2 rb).
  { destruct (Hrow rb Hrb) as (v & Hv & _ & _ & Hlast). rewrite Hv.
    rewrite (Hlast Hpb 2%nat); [done|by rewrite Eb|by rewrite Eb]. }
  assert (Fc : F rc = Project.set_display_order 0 rc).
  { destruct (Hrow rc Hrc) as (v & Hv & _ & _ & Hlast). rewrite Hv.
    rewrite (Hlast Hpc 0%nat); [done|by rewrite Ec|by rewrite Ec]. }
  assert (Hlist :
    ProjectService.get_profile_projects
      (ProjectService.reorder_loop profile_id 0 [c; a; b] db) profile_id
    = [Project.set_display_order 0 rc; Project.set_display_order 1 ra;
       Project.set_display_order 2 rb]).
  { rewrite HF. unfold ProjectService.get_profile_projects.
    cbn [projects set_projects].
    apply order_by_three;
      [apply project_precedes_total|apply project_precedes_trans| |..];
      try (by apply project_precedes_lt).
    rewrite filter_fmap_commute.
    - rewrite Hperm. simpl. rewrite Fa, Fb, Fc. symmetry.
      apply (Permutation_cons_append
               [Project.set_display_order 1 ra;
                Project.set_display_order 2 rb]).
    - intros p Hin'. destruct (Hrow p Hin') as (v & Hv & _).
      by rewrite Hv. }
  eexists _, _. split; [|split; [reflexivity|]].
  - unfold ProjectService.reorder_projects. rewrite Hp.
    rewrite bool_decide_eq_false_2 by (intros H; by apply H).
    reflexivity.
  - rewrite Hlist. simpl. by rewrite Ea, Eb, Ec.
Qed.

(** C5. A profile owns exactly the experiences and the projects with the
    distinct ids a, b, c, stored in any order and with any display orders.
    The owner's experience reorder with [[c; a; b]] stores 3, 2, 1 and the
    experience listing that follows returns c, a, b; the owner's project
    reorder with [[c; a; b]] stores 0, 1, 2 and the project listing that
    follows returns c, a, b as well. *)
Theorem reorder_then_list (db : Db) (profile_id user_id : string)
    (a b c : string) (profile : Profile.t) :
  first (profile_by_id profile_id) (profiles db) = Some profile ->
  Profile.user_id profile = user_id ->
  Experience.id <$> List.filter (experience_of profile_id) (experiences db)
    ≡ₚ [a; b; c] ->
  Project.id <$> List.filter (project_of profile_id) (projects db)
    ≡ₚ [a; b; c] ->
  NoDup [a; b; c] ->
  NoDup (Project.id <$> projects db) ->
  (exists db' l,
     ExperienceService.reorder_experiences db profile_id user_id [c; a; b]
     = Ok (db', l)
     /\ ExperienceService.get_experiences_by_profile db' profile_id
          (Some user_id) = Ok l
     /\ Experience.id <$> l = [c; a; b]
     /\ Experience.display_order <$> l = [3; 2; 1])
  /\ (exists db' l,
        ProjectService.reorder_projects db profile_id user_id [c; a; b]
        = Ok (db', l)
        /\ ProjectService.get_profile_projects db' profile_id = l
        /\ Project.id <$> l = [c; a; b]
        /\ Project.display_order <$> l = [0; 1; 2]).
Proof.
  intros Hp Hu He Hq Hnd Hkey. split.
  - by apply (experiences_reordered_and_listed db profile_id user_id a b c profile).
  - by apply (projects_reordered_and_listed db profile_id user_id a b c profile).
Qed.

Lemma reorder_then_list_witness :
  (exists db' l,
     ExperienceService.reorder_experiences Sample.db "p1" "u1" ["C"; "A"; "B"]
     = Ok (db', l)
     /\ ExperienceService.get_experiences_by_profile db' "p1" (Some "u1")
        = Ok l
     /\ Experience.id <$> l = ["C"; "A"; "B"]
     /\ Experience.display_order <$> l = [3; 2; 1])
  /\ (exists db' l,
        ProjectService.reorder_projects Sample.db "p1" "u1" ["C"; "A"; "B"]
        = Ok (db', l)
        /\ ProjectService.get_profile_projects db' "p1" = l
        /\ Project.id <$> l = ["C"; "A"; "B"]
        /\ Project.display_order <$> l = [0; 1; 2]).
Proof.
  apply (reorder_then_list Sample.db "p1" "u1" "A" "B" "C"
           (Sample.profile "p1" "u1" "PRIVATE" (Some "X"))).
  - reflexivity.
  - reflexivity.
  - vm_compute. reflexivity.
  - vm_compute.
    apply perm_swap.
  - apply (bool_decide_unpack _). vm_compute. exact I.
  - apply (bool_decide_unpack _). vm_compute. exact I.
Defined.

(** ** Slugs *)

Lemma hex_of_byte_digits (b : Byte.byte) :
  exists c1 c2,
    Py.hex_of_byte b = String c1 (String c2 EmptyString)
    /\ Py.is_hex_digit c1 = true /\ Py.is_hex_digit c2 = true.
Proof. destruct b; by eexists _, _. Qed.

Lemma list_ascii_of_string_app (s1 s2 : string) :
  list_ascii_of_string (s1 ++ s2)
  = (list_ascii_of_string s1 ++ list_ascii_of_string s2)%list.
Proof. induction s1 as [|c s1 IH]; simpl; [done|by rewrite IH]. Qed.

Lemma string_length_app (s1 s2 : string) :
  String.length (s1 ++ s2) = (String.length s1 + String.length s2)%nat.
Proof. induction s1 as [|c s1 IH]; simpl; [done|by rewrite IH]. Qed.

(** A base followed by a hyphen and the token has the suffix shape. *)
Lemma token_suffix (base : string) (rnd : Byte.byte * Byte.byte * Byte.byte) :
  String.length (Py.token_hex3 rnd) = 6%nat
  /\ Rule.has_hex_suffix (base ++ "-" ++ Py.token_hex3 rnd) = true.
Proof.
  destruct rnd as [[b0 b1] b2]. unfold Py.token_hex3.
  destruct (hex_of_byte_digits b0) as (c1 & c2 & -> & H1 & H2).
  destruct (hex_of_byte_digits b1) as (c3 & c4 & -> & H3 & H4).
  destruct (hex_of_byte_digits b2) as (c5 & c6 & -> & H5 & H6).
  split; [done|].
  unfold Rule.has_hex_suffix.
  rewrite list_ascii_of_string_app, reverse_app. simpl.
  by rewrite H1, H2, H3, H4, H5, H6.
Qed.

(** The uniqueness loop returns at once on a free slug. *)
Lemma ensure_unique_free (fuel : nat) (taken : list string)
    (original slug : string) (counter : N) :
  slug ∉ taken ->
  ProfileService.ensure_unique (S fuel) taken original slug counter
  = Some slug.
Proof. intros H. simpl. by rewrite (bool_decide_eq_false_2 _ H). Qed.

(** If the loop runs out of rounds, every slug it tried is in use. *)
Lemma ensure_unique_none (taken : list string) (original : string) :
  forall (fuel : nat) (slug : string) (counter : N),
    ProfileService.ensure_unique (S fuel) taken original slug counter = None ->
    slug ∈ taken
    /\ forall k, (k < fuel)%nat ->
         original ++ "-" ++ pretty (counter + N.of_nat k)%N ∈ taken.
Proof.
  induction fuel as [|fuel IH]; intros slug counter H.
  - simpl in H. destruct (bool_decide (slug ∈ taken)) eqn:E; [|done].
    apply bool_decide_eq_true in E. split; [done|]. intros k Hk. lia.
  - cbn [ProfileService.ensure_unique] in H.
    destruct (bool_decide (slug ∈ taken)) eqn:E; [|done].
    apply bool_decide_eq_true in E. split; [done|].
    apply IH in H as [H0 Hrest].
    intros [|k] Hk.
    + by rewrite N.add_0_r.
    + replace (counter + N.of_nat (S k))%N
        with (counter + 1 + N.of_nat k)%N by lia.
      apply Hrest. lia.
Qed.

(** A slug that the loop returns is free. *)
Lemma ensure_unique_some (taken : list string) (original : string) :
  forall (fuel : nat) (slug : string) (counter : N) (s : string),
    ProfileService.ensure_unique fuel taken original slug counter = Some s ->
    s ∉ taken.
Proof.
  induction fuel as [|fuel IH]; intros slug counter s; [done|].
  cbn [ProfileService.ensure_unique].
  destruct (bool_decide (slug ∈ taken)) eqn:E; [apply IH|].
  intros [= <-]. by apply bool_decide_eq_false in E.
Qed.

(** The uniqueness loop ends within one round more than there are slugs in
    use. *)
Lemma ensure_unique_total (taken : list string) (original : string) :
  exists slug,
    ProfileService.ensure_unique (S (length taken)) taken original original 1
    = Some slug
    /\ slug ∉ taken.
Proof.
  destruct (ProfileService.ensure_unique (S (length taken)) taken original
              original 1) as [slug|] eqn:E.
  - exists slug. split; [done|]. by apply ensure_unique_some in E.
  - exfalso. apply ensure_unique_none in E as [H0 Hrest].
    set (cand := fun k : nat => original ++ "-" ++ pretty (1 + N.of_nat k)%N).
    assert (Hnd : NoDup (original :: (cand <$> seq 0 (length taken)))).
    { apply NoDup_cons. split.
      - intros Hin. apply list_elem_of_fmap in Hin as (k & Hk & _).
        apply (f_equal String.length) in Hk. unfold cand in Hk.
        rewrite string_length_app in Hk. simpl in Hk. lia.
      - apply NoDup_fmap_2; [|apply NoDup_seq].
        intros j k Hjk. unfold cand in Hjk.
        apply (inj (String.append original)) in Hjk.
        injection Hjk as Hjk.
        apply (inj (String.append EmptyString)) in Hjk.
        apply (inj (pretty : N -> string)) in Hjk. lia. }
    assert (Hsub : forall x, x ∈ original :: (cand <$> seq 0 (length taken)) ->
                             x ∈ taken).
    { intros x Hx. apply elem_of_cons in Hx as [->|Hx]; [done|].
      apply list_elem_of_fmap in Hx as (k & -> & Hk).
      apply elem_of_seq in Hk. apply Hrest. lia. }
    pose proof (submseteq_length _ _ (NoDup_submseteq _ _ Hnd Hsub)) as Hlen.
    simpl in Hlen. rewrite length_fmap, length_seq in Hlen. lia.
Qed.

Lemma replace_first_last {A : Type} (p : A -> bool) (new y : A) (l : list A) :
  (forall x, x ∈ l -> p x = false) -> p y = true ->
  replace_first p new (l ++ [y])%list = (l ++ [new])%list.
Proof.
  induction l as [|x l IH]; intros Hl Hy; simpl.
  - by rewrite Hy.
  - rewrite (Hl x) by apply list_elem_of_here.
    rewrite IH; [done| |done].
    intros z Hz. apply Hl. by apply list_elem_of_further.
Qed.

(** A creation that passes the checks stores the profile under the slug
    that the uniqueness loop returns. *)
Lemma create_profile_stores (db : Db) (user_id new_id : string)
    (profile_data : Schema.ProfileCreate)
    (rnd : Byte.byte * Byte.byte * Byte.byte) (user : User.t) :
  first (fun u => bool_decide (User.id u = user_id)) (users db) = Some user ->
  (forall p, p ∈ profiles db -> Profile.user_id p <> user_id) ->
  new_id ∉ Profile.id <$> profiles db ->
  (Py.truthy_opt (Schema.pc_slug profile_data) = true ->
   default EmptyString (Schema.pc_slug profile_data)
     ∉ ProfileService.slugs db) ->
  let slug :=
    if negb (Py.truthy_opt (Schema.pc_slug profile_data))
    then Profile.generate_slug None None rnd
    else default EmptyString (Schema.pc_slug profile_data) in
  exists db' p s,
    ProfileService.ensure_unique (S (length (ProfileService.slugs db)))
      (ProfileService.slugs db) slug slug 1 = Some s
    /\ ProfileService.create_profile db user_id profile_data new_id rnd
       = Ok (db', p)
    /\ Profile.slug p = Some s /\ Profile.user_id p = user_id
    /\ p ∈ profiles db'.
Proof.
  intros Hu Hnone Hfresh Hfree slug.
  destruct (ensure_unique_total (ProfileService.slugs db) slug)
    as (s & Hs & Hsfree).
  unfold ProfileService.create_profile. rewrite Hu.
  rewrite first_none
    by (intros p Hp; apply bool_decide_eq_false; by apply Hnone).
  assert (Hcheck :
    Py.truthy_opt (Schema.pc_slug profile_data)
    && bool_decide (default EmptyString (Schema.pc_slug profile_data)
                      ∈ ProfileService.slugs db) = false).
  { destruct (Py.truthy_opt (Schema.pc_slug profile_data)); [|done].
    simpl. apply bool_decide_eq_false. by apply Hfree. }
  rewrite Hcheck. fold slug. rewrite Hs.
  unfold ProfileService.insert. cbn [Profile.id Profile.user_id Profile.slug].
  rewrite (bool_decide_eq_false_2 _ Hfresh).
  rewrite (bool_decide_eq_false_2 (user_id ∈ Profile.user_id <$> profiles db)).
  2:{ intros Hin. apply list_elem_of_fmap in Hin as (p & Hp & Hin).
      by apply (Hnone p Hin). }
  rewrite (bool_decide_eq_false_2 _ Hsfree).
  cbn [orb]. unfold commit_completeness.
  eexists _, _, s. split; [done|]. split; [reflexivity|].
  split; [reflexivity|]. split; [reflexivity|].
  cbn [profiles set_profiles Profile.id Profile.update_completeness
       Profile.set_completeness_score].
  rewrite replace_first_last.
  - apply elem_of_app. right. apply list_elem_of_here.
  - intros p Hp. apply bool_decide_eq_false. intros Hid. apply Hfresh.
    rewrite <- Hid. by apply list_elem_of_fmap_2.
  - by apply bool_decide_eq_true.
Qed.

(** With no slug in the request the stored slug comes from [generate_slug]
    on the unflushed object, whose fallback gives "none" and no suffix. *)
Lemma create_profile_generated_slug (db : Db) (user_id new_id : string)
    (profile_data : Schema.ProfileCreate)
    (rnd : Byte.byte * Byte.byte * Byte.byte) (user : User.t) :
  first (fun u => bool_decide (User.id u = user_id)) (users db) = Some user ->
  (forall p, p ∈ profiles db -> Profile.user_id p <> user_id) ->
  new_id ∉ Profile.id <$> profiles db ->
  Py.truthy_opt (Schema.pc_slug profile_data) = false ->
  exists db' p s,
    ProfileService.create_profile db user_id profile_data new_id rnd
    = Ok (db', p)
    /\ Profile.slug p = Some s /\ (s ∉ ProfileService.slugs db)
    /\ (("none" ∉ ProfileService.slugs db) -> s = "none").
Proof.
  intros Hu Hnone Hfresh Hslug.
  destruct (create_profile_stores db user_id new_id profile_data rnd user
              Hu Hnone Hfresh) as (db' & p & s & Hs & Hc & Hp & _).
  { by rewrite Hslug. }
  rewrite Hslug in Hs. cbn [negb] in Hs.
  change (Profile.generate_slug None None rnd) with "none" in Hs.
  exists db', p, s. split; [done|]. split; [done|]. split.
  - by apply ensure_unique_some in Hs.
  - intros Hfree. rewrite ensure_unique_free in Hs by done. congruence.
Qed.

(** C8, as the code has it. [generate_slug] appends a hyphen and the six
    hexadecimal digits of the random token when the owner's display name is
    available; in the fallback, with no owner or no display name, it returns
    the lower-cased identifier with nothing appended. A slug supplied in the
    request is stored as it is, or the creation fails with [SlugTaken] when
    the slug is in use. *)
Theorem slug_suffix_policy (self_id : option string) (owner : User.t)
    (rnd : Byte.byte * Byte.byte * Byte.byte)
    (db : Db) (user_id new_id : string) (profile_data : Schema.ProfileCreate)
    (user : User.t) (s : string) :
  (forall name, User.name owner = Some name -> name <> EmptyString ->
     Profile.generate_slug self_id (Some owner) rnd
     = Profile.slug_of_name name ++ "-" ++ Py.token_hex3 rnd
     /\ String.length (Py.token_hex3 rnd) = 6%nat
     /\ Rule.has_hex_suffix (Profile.generate_slug self_id (Some owner) rnd)
        = true)
  /\ (Py.truthy_opt (User.name owner) = false ->
      Profile.generate_slug self_id (Some owner) rnd
      = Py.lower (Py.str_opt self_id))
  /\ Profile.generate_slug self_id None rnd = Py.lower (Py.str_opt self_id)
  /\ (first (fun u => bool_decide (User.id u = user_id)) (users db)
        = Some user ->
      (forall p, p ∈ profiles db -> Profile.user_id p <> user_id) ->
      new_id ∉ Profile.id <$> profiles db ->
      Schema.pc_slug profile_data = Some s -> s <> EmptyString ->
      (s ∉ ProfileService.slugs db ->
       exists db' p,
         ProfileService.create_profile db user_id profile_data new_id rnd
         = Ok (db', p)
         /\ Profile.slug p = Some s /\ p ∈ profiles db')
      /\ (s ∈ ProfileService.slugs db ->
          ProfileService.create_profile db user_id profile_data new_id rnd
          = Raise (SlugAlreadyExistsError "Slug is already taken"))).
Proof.
  split; [|split; [|split]].
  - intros name Hname Hne. unfold Profile.generate_slug. rewrite Hname.
    apply truthy_str_true in Hne. simpl. rewrite Hne. simpl.
    split; [done|]. apply token_suffix.
  - intros Hname. unfold Profile.generate_slug. by rewrite Hname.
  - reflexivity.
  - intros Hu Hnone Hfresh Hslug Hne.
    apply truthy_str_true in Hne. split.
    + intros Hfree.
      destruct (create_profile_stores db user_id new_id profile_data rnd user
                  Hu Hnone Hfresh) as (db' & p & s' & Hs & Hc & Hp & _ & Hin).
      { by rewrite Hslug. }
      rewrite Hslug in Hs. cbn [Py.truthy_opt from_option] in Hs.
      rewrite Hne in Hs. cbn [negb id] in Hs.
      rewrite ensure_unique_free in Hs by done.
      exists db', p. split; [done|]. split; [congruence|done].
    + intros Htaken. unfold ProfileService.create_profile. rewrite Hu.
      rewrite first_none
        by (intros p Hp; apply bool_decide_eq_false; by apply Hnone).
      rewrite Hslug. simpl. rewrite Hne.
      by rewrite (bool_decide_eq_true_2 _ Htaken).
Qed.

Lemma slug_suffix_policy_witness :
  Profile.generate_slug None (Some (User.mk "u1" (Some "Ada Lovelace")))
    Sample.rnd = "ada-lovelace-0aff00"
  /\ exists db' p,
       ProfileService.create_profile Sample.db "u3"
         (Sample.request (Some "grace")) "p3" Sample.rnd = Ok (db', p)
       /\ Profile.slug p = Some "grace" /\ p ∈ profiles db'.
Proof.
  destruct (slug_suffix_policy None (User.mk "u1" (Some "Ada Lovelace"))
              Sample.rnd Sample.db "u3" "p3" (Sample.request (Some "grace"))
              (User.mk "u3" (Some "Grace Hopper")) "grace")
    as (Hnamed & _ & _ & Hexplicit).
  split.
  - destruct (Hnamed "Ada Lovelace" eq_refl) as (H & _); [discriminate|].
    exact H.
  - apply Hexplicit.
    + reflexivity.
    + intros p Hp. unfold Sample.db, profiles in Hp.
      repeat (apply elem_of_cons in Hp as [-> | Hp];
              [vm_compute; discriminate|]).
      by apply not_elem_of_nil in Hp.
    + apply (bool_decide_unpack _). vm_compute. exact I.
    + reflexivity.
    + discriminate.
    + apply (bool_decide_unpack _). vm_compute. exact I.
Defined.

(** C8, as worded, fails in the fallback: for an owner without a display
    name the slug is the lower-cased identifier, whatever the random draw,
    and it carries no suffix. *)
Lemma generate_slug_fallback_no_suffix :
  Profile.generate_slug (Some "01ARZ3NDEKTSV4RRFFQ69G5FAV")
    (Some (User.mk "u2" None)) Sample.rnd
  = "01arz3ndektsv4rrffq69g5fav"
  /\ Rule.has_hex_suffix
       (Profile.generate_slug (Some "01ARZ3NDEKTSV4RRFFQ69G5FAV")
          (Some (User.mk "u2" None)) Sample.rnd)
     = false.
Proof. split; reflexivity. Qed.

(** The creation of a profile without a slug in the request, on the sample
    store: the stored slug is "none". *)
Example create_profile_without_slug :
  exists db' p,
    ProfileService.create_profile Sample.db "u3" (Sample.request None) "p3"
      Sample.rnd = Ok (db', p)
    /\ Profile.slug p = Some "none"
    /\ Profile.completeness_score p = 10.
Proof. eexists _, _. split; [vm_compute; reflexivity|]. split; reflexivity. Qed.

(** * Further properties of the models and services *)

(** ** Durations *)

(** X1. The duration counts the months from the start month to the end month,
    both included, where the end is the end date or, without one, today; an
    end on or before the start gives 1, and the duration is never below 1. *)
Theorem duration_months_inclusive (today : date) (e : Experience.t) :
  1 <= month (Experience.start_date e) <= 12 ->
  1 <= month (default today (Experience.end_date e)) <= 12 ->
  exists m,
    Experience.duration_months today e = Some m
    /\ 1 <= m
    /\ (date_le (Experience.start_date e)
          (default today (Experience.end_date e)) ->
        m = (year (default today (Experience.end_date e))
             - year (Experience.start_date e)) * 12
            + (month (default today (Experience.end_date e))
               - month (Experience.start_date e)) + 1)
    /\ (date_le (default today (Experience.end_date e))
          (Experience.start_date e) -> m = 1).
Proof.
  intros Hs He. eexists. split; [reflexivity|].
  unfold date_le. cbv zeta. repeat split; lia.
Qed.

Lemma duration_months_inclusive_witness :
  exists m,
    Experience.duration_months (mkdate 2024 5 1)
      (Sample.experience "A" "p1" 0) = Some m
    /\ m = 53.
Proof.
  destruct (duration_months_inclusive (mkdate 2024 5 1)
              (Sample.experience "A" "p1" 0)) as (m & Hm & _ & H & _).
  - simpl. lia.
  - simpl. lia.
  - exists m. split; [exact Hm|]. rewrite H; [reflexivity|].
    unfold date_le. simpl. lia.
Defined.

(** X2. Of two experiences that started on the same day, the one that ends
    later never has the shorter duration. *)
Theorem duration_months_monotone (today : date) (e1 e2 : Experience.t)
    (m1 m2 : Z) :
  Experience.start_date e1 = Experience.start_date e2 ->
  1 <= month (default today (Experience.end_date e1)) <= 12 ->
  1 <= month (default today (Experience.end_date e2)) <= 12 ->
  date_le (default today (Experience.end_date e1))
    (default today (Experience.end_date e2)) ->
  Experience.duration_months today e1 = Some m1 ->
  Experience.duration_months today e2 = Some m2 ->
  m1 <= m2.
Proof.
  unfold Experience.duration_months, date_le. intros -> H1 H2 Hle.
  cbv zeta. intros [= <-] [= <-]. lia.
Qed.

Lemma duration_months_monotone_witness :
  Experience.duration_months (mkdate 2024 5 1)
    (Experience.mk "A" "p1" "Acme" None None None None "Engineer" None
       (mkdate 2020 1 15) (Some (mkdate 2021 3 1)) false None [] [] 0)
  = Some 15
  /\ Experience.duration_months (mkdate 2024 5 1)
       (Sample.experience "A" "p1" 0) = Some 53
  /\ 15 <= 53.
Proof.
  split; [reflexivity|]. split; [reflexivity|].
  apply (duration_months_monotone (mkdate 2024 5 1)
           (Experience.mk "A" "p1" "Acme" None None None None "Engineer" None
              (mkdate 2020 1 15) (Some (mkdate 2021 3 1)) false None [] [] 0)
           (Sample.experience "A" "p1" 0)).
  - reflexivity.
  - simpl. lia.
  - simpl. lia.
  - unfold date_le. simpl. lia.
  - reflexivity.
  - reflexivity.
Defined.

(** X3. The text of a duration of [m] months: below a year the months alone;
    from a year on the whole years, followed by the remaining months when
    there are any; "year" and "month" are singular exactly for 1. So 1
    month reads "1 month", 13 months "1 year 1 month", 24 months
    "2 years". *)
Theorem duration_text_format (today : date) (e : Experience.t) (m : Z) :
  Experience.duration_months today e = Some m ->
  (m < 12 ->
   Experience.duration_text today e
   = pretty m ++ " " ++ (if m =? 1 then "month" else "months"))
  /\ (forall y r, m = 12 * y + r -> 1 <= y -> 0 <= r < 12 ->
      Experience.duration_text today e
      = if r =? 0
        then pretty y ++ " " ++ (if y =? 1 then "year" else "years")
        else pretty y ++ " " ++ (if y =? 1 then "year" else "years")
             ++ " " ++ pretty r ++ " "
             ++ (if r =? 1 then "month" else "months"))
  /\ (m = 1 -> Experience.duration_text today e = "1 month")
  /\ (m = 13 -> Experience.duration_text today e = "1 year 1 month")
  /\ (m = 24 -> Experience.duration_text today e = "2 years").
Proof.
  intros Hm.
  assert (Hpos : 1 <= m).
  { unfold Experience.duration_months in Hm. injection Hm as <-. lia. }
  unfold Experience.duration_text. rewrite Hm.
  replace (m =? 0) with false by lia.
  split; [|split; [|split; [|split]]].
  - intros Hlt. by replace (m <? 12) with true by lia.
  - intros y r -> Hy Hr.
    replace (12 * y + r <? 12) with false by lia.
    replace ((12 * y + r) / 12) with y by (apply Z.div_unique with r; lia).
    replace ((12 * y + r) mod 12) with r by (apply Z.mod_unique with y; lia).
    reflexivity.
  - by intros ->.
  - by intros ->.
  - by intros ->.
Qed.

Lemma duration_text_format_witness :
  Experience.duration_text (mkdate 2024 5 1) (Sample.experience "A" "p1" 0)
  = "4 years 5 months".
Proof.
  destruct (duration_text_format (mkdate 2024 5 1)
              (Sample.experience "A" "p1" 0) 53 eq_refl) as (_ & H & _).
  rewrite (H 4 5); [reflexivity|lia|lia|lia].
Defined.

(** ** Trimming *)

Lemma lstrip_head (c : ascii) (r : string) :
  Py.is_space c = false -> Py.lstrip (String c r) = String c r.
Proof. intros H. simpl. by rewrite H. Qed.

Lemma rstrip_head (c : ascii) (r : string) :
  Py.is_space c = false -> exists r', Py.rstrip (String c r) = String c r'.
Proof.
  intros H. simpl. destruct (Py.rstrip r); [rewrite H|]; by eexists.
Qed.

Lemma lstrip_shape (s : string) :
  Py.lstrip s = EmptyString
  \/ exists c r, Py.lstrip s = String c r /\ Py.is_space c = false.
Proof.
  induction s as [|c s IH]; simpl; [by left|].
  destruct (Py.is_space c) eqn:E; [exact IH|].
  right. by exists c, s.
Qed.

Lemma rstrip_idempotent (s : string) : Py.rstrip (Py.rstrip s) = Py.rstrip s.
Proof.
  induction s as [|c s IH]; [done|]. simpl.
  destruct (Py.rstrip s) as [|c' r'] eqn:E.
  - destruct (Py.is_space c) eqn:Ec; [done|]. simpl. by rewrite Ec.
  - cbn [Py.rstrip]. cbn [Py.rstrip] in IH.
    destruct (Py.rstrip r') as [|? ?] eqn:E'.
    + destruct (Py.is_space c'); [discriminate|]. by rewrite IH.
    + by rewrite IH.
Qed.

(** Trimming a trimmed string changes nothing. *)
Lemma strip_idempotent (s : string) : Py.strip (Py.strip s) = Py.strip s.
Proof.
  unfold Py.strip.
  destruct (lstrip_shape s) as [->|(c & r & -> & Hc)]; [done|].
  destruct (rstrip_head c r Hc) as (r' & Hr).
  rewrite Hr, (lstrip_head c r' Hc), <- Hr. apply rstrip_idempotent.
Qed.

(** ** The list operations of an experience *)

Lemma filter_absent (t : string) (l : list string) :
  t ∉ l -> filter (fun x => x ≠ t) l = l.
Proof.
  induction l as [|x l IH]; intros H; [done|].
  apply not_elem_of_cons in H as [Hne Hl].
  rewrite filter_cons_True by done. by rewrite IH.
Qed.

Lemma remove_technology_filter (t : string) (e : Experience.t) :
  Experience.remove_technology t e
  = Experience.set_technologies
      (filter (fun x => x ≠ t) (Experience.technologies e)) e.
Proof.
  destruct (decide (t ∈ Experience.technologies e)) as [Hin|Hout].
  - unfold Experience.remove_technology.
    rewrite (bool_decide_eq_true_2 _ Hin).
    destruct (Experience.technologies e) eqn:E; [|done].
    by apply not_elem_of_nil in Hin.
  - rewrite remove_technology_absent, filter_absent by done.
    by rewrite set_technologies_same.
Qed.

(** X4. Removing a technology deletes every occurrence of the value and
    leaves the other entries, their order and all other fields as they
    were; removing right after adding a new value that carries no
    surrounding whitespace gives the experience back. *)
Theorem remove_technology_spec (t : string) (e : Experience.t) :
  Experience.remove_technology t e
  = Experience.set_technologies
      (filter (fun x => x ≠ t) (Experience.technologies e)) e
  /\ (t ∉ Experience.technologies (Experience.remove_technology t e))
  /\ (forall x, x ≠ t ->
        (x ∈ Experience.technologies (Experience.remove_technology t e)
         <-> x ∈ Experience.technologies e))
  /\ (Py.strip t = t -> t ≠ EmptyString -> t ∉ Experience.technologies e ->
      Experience.remove_technology t (Experience.add_technology t e) = e).
Proof.
  split; [apply remove_technology_filter|].
  split; [apply remove_technology_gone|]. split.
  - intros x Hx. rewrite remove_technology_filter. simpl.
    rewrite list_elem_of_filter. tauto.
  - intros Hs Hne Hout.
    rewrite remove_technology_filter.
    destruct (add_technology_twice_trimmed t e Hs Hne Hout) as [_ E].
    rewrite E, filter_app, filter_absent by done.
    rewrite filter_cons_False, filter_nil by (intros H; by apply H).
    rewrite app_nil_r.
    unfold Experience.add_technology. rewrite normalise_technologies.
    destruct (_ && _); [|apply set_technologies_same].
    destruct e; reflexivity.
Qed.

Lemma remove_technology_spec_witness :
  Experience.remove_technology "Go"
    (Experience.add_technology "Go" (Sample.experience "A" "p1" 0))
  = Sample.experience "A" "p1" 0.
Proof.
  apply (remove_technology_spec "Go" (Sample.experience "A" "p1" 0)).
  - reflexivity.
  - discriminate.
  - apply not_elem_of_nil.
Defined.

(** X5. Adding a technology keeps the entries of the list in place and appends
    at most one entry, the trimmed value, which is never blank; so a list
    whose entries are all trimmed and non-empty stays such a list. *)
Theorem add_technology_extends (t : string) (e : Experience.t) :
  (exists suffix,
     Experience.add_technology t e
     = Experience.set_technologies
         (Experience.technologies e ++ suffix)%list e
     /\ (suffix = []
         \/ (suffix = [Py.strip t] /\ Py.strip t ≠ EmptyString
             /\ t ∉ Experience.technologies e)))
  /\ (Forall (fun x => Py.strip x = x /\ x ≠ EmptyString)
        (Experience.technologies e) ->
      Forall (fun x => Py.strip x = x /\ x ≠ EmptyString)
        (Experience.technologies (Experience.add_technology t e))).
Proof.
  assert (H : exists suffix,
     Experience.add_technology t e
     = Experience.set_technologies
         (Experience.technologies e ++ suffix)%list e
     /\ (suffix = []
         \/ (suffix = [Py.strip t] /\ Py.strip t ≠ EmptyString
             /\ t ∉ Experience.technologies e))).
  { unfold Experience.add_technology. rewrite normalise_technologies.
    destruct (Py.truthy_str (Py.strip t)) eqn:Et;
      destruct (bool_decide (t ∈ Experience.technologies e)) eqn:Ein; simpl.
    - exists []. rewrite app_nil_r, set_technologies_same. by split; [|left].
    - exists [Py.strip t]. split; [done|]. right.
      apply truthy_str_true in Et. apply bool_decide_eq_false in Ein. done.
    - exists []. rewrite app_nil_r, set_technologies_same. by split; [|left].
    - exists []. rewrite app_nil_r, set_technologies_same. by split; [|left]. }
  split; [exact H|].
  intros Hclean. destruct H as (suffix & -> & Hsuffix). simpl.
  apply Forall_app. split; [done|].
  destruct Hsuffix as [->|(-> & Hne & _)]; [done|].
  apply Forall_singleton. split; [apply strip_idempotent|done].
Qed.

Lemma add_technology_extends_witness :
  Forall (fun x => Py.strip x = x /\ x ≠ EmptyString)
    (Experience.technologies
       (Experience.add_technology "  Rust "
          (Experience.add_technology "Go" (Sample.experience "A" "p1" 0)))).
Proof.
  apply (add_technology_extends "  Rust "
           (Experience.add_technology "Go" (Sample.experience "A" "p1" 0))).
  apply Forall_singleton. split; [reflexivity|discriminate].
Defined.

(** ** Tables with unique keys *)

Lemma replace_first_keyed {A : Type} (key : A -> string) (k : string)
    (new : A) (rows : list A) :
  NoDup (key <$> rows) ->
  replace_first (fun x => bool_decide (key x = k)) new rows
  = (fun x => if bool_decide (key x = k) then new else x) <$> rows.
Proof.
  induction rows as [|x rows IH]; intros Hnd; [done|].
  rewrite fmap_cons in Hnd. apply NoDup_cons in Hnd as [Hx Hnd].
  rewrite fmap_cons. cbn [replace_first].
  destruct (bool_decide (key x = k)) eqn:E; [|by rewrite IH].
  f_equal. symmetry.
  rewrite <- (list_fmap_id rows) at 2. apply list_fmap_ext.
  intros i y Hy. apply bool_decide_eq_true in E.
  rewrite bool_decide_eq_false_2; [done|].
  intros Hyk. apply Hx. rewrite E, <- Hyk.
  apply list_elem_of_fmap_2. apply list_elem_of_lookup. by exists i.
Qed.

Lemma filter_all {A : Type} (p : A -> bool) (rows : list A) :
  (forall x, x ∈ rows -> p x = true) -> List.filter p rows = rows.
Proof.
  induction rows as [|x rows IH]; intros H; [done|]. cbn [List.filter].
  rewrite (H x) by apply list_elem_of_here.
  rewrite IH; [done|]. intros y Hy. apply H. by apply list_elem_of_further.
Qed.

Lemma remove_first_keyed {A : Type} (key : A -> string) (k : string)
    (rows : list A) :
  NoDup (key <$> rows) ->
  remove_first (fun x => bool_decide (key x = k)) rows
  = List.filter (fun x => negb (bool_decide (key x = k))) rows.
Proof.
  induction rows as [|x rows IH]; intros Hnd; [done|].
  rewrite fmap_cons in Hnd. apply NoDup_cons in Hnd as [Hx Hnd].
  cbn [remove_first List.filter].
  destruct (bool_decide (key x = k)) eqn:E; cbn [negb]; [|by rewrite IH].
  apply bool_decide_eq_true in E. symmetry. apply filter_all.
  intros y Hy. apply negb_true_iff, bool_decide_eq_false.
  intros Hyk. apply Hx. rewrite E, <- Hyk. by apply list_elem_of_fmap_2.
Qed.

Lemma first_replace_first {A : Type} (p : A -> bool) (new x : A)
    (rows : list A) :
  first p rows = Some x -> p new = true ->
  first p (replace_first p new rows) = Some new.
Proof.
  unfold first. induction rows as [|y rows IH]; intros H Hnew; [done|].
  simpl in *. destruct (p y) eqn:E; simpl.
  - by rewrite Hnew.
  - rewrite E. by apply IH.
Qed.

Lemma first_keyed {A : Type} (key : A -> string) (rows : list A) (x : A) :
  NoDup (key <$> rows) -> x ∈ rows ->
  first (fun y => bool_decide (key y = key x)) rows = Some x.
Proof.
  intros Hnd Hx.
  destruct (first _ rows) as [y|] eqn:E.
  - apply first_some in E as [Hy Hk]. apply bool_decide_eq_true in Hk.
    f_equal. by apply (NoDup_fmap_eq key rows).
  - apply (first_none_inv _ _ x) in E; [|done].
    by apply bool_decide_eq_false in E.
Qed.

(** ** The completeness score after a commit *)

Lemma calculate_completeness_ignores_score (v : Z) (p : Profile.t)
    (l : list Experience.t) :
  Profile.calculate_completeness (Profile.set_completeness_score v p) l
  = Profile.calculate_completeness p l.
Proof. reflexivity. Qed.

Lemma commit_completeness_frame (profile : Profile.t) (db : Db) :
  users (commit_completeness profile db).1 = users db
  /\ experiences (commit_completeness profile db).1 = experiences db
  /\ projects (commit_completeness profile db).1 = projects db.
Proof. done. Qed.

Lemma commit_completeness_fresh (profile : Profile.t) (db : Db)
    (profile_id : string) :
  first (profile_by_id profile_id) (profiles db) = Some profile ->
  Rule.score_is_fresh (commit_completeness profile db).1 profile_id.
Proof.
  intros H. pose proof (first_some _ _ _ H) as [_ Hid].
  apply bool_decide_eq_true in Hid. subst profile_id.
  eexists. split.
  - unfold commit_completeness. cbn [fst profiles set_profiles].
    cbn [Profile.update_completeness Profile.set_completeness_score
         Profile.id].
    eapply first_replace_first; [exact H|]. by apply bool_decide_eq_true.
  - reflexivity.
Qed.

(** ** Validation of the dates of a new experience *)

(** X6. A creation body whose end date is on or before the start date is
    rejected by the validators; every experience that a creation returns
    has its end date, if any, strictly after its start date. *)
Theorem create_date_rule (db : Db) (profile_id user_id new_id : string)
    (body : Schema.ExperienceCreateInput) :
  (forall e, Schema.in_end_date body = Some e ->
     date_le e (Schema.in_start_date body) ->
     exists errors,
       Api.create_experience db profile_id user_id body new_id
       = Raise (ValidationError errors))
  /\ (forall db' x,
        Api.create_experience db profile_id user_id body new_id
        = Ok (db', x) ->
        Experience.is_date_valid x = true).
Proof.
  split.
  - intros e He Hle. unfold Api.create_experience.
    assert (Herr : Schema.validate_end_date (Schema.in_end_date body)
                     (Schema.in_start_date body)
                   = Some "End date must be after start date").
    { rewrite He. simpl. by rewrite (proj2 (date_leb_le _ _) Hle). }
    unfold Schema.validate_create. rewrite Herr.
    destruct (Schema.errors_of _) as [|x l] eqn:E; [|by eexists].
    exfalso.
    eapply (errors_of_nonempty _ "End date must be after start date");
      [|exact E].
    set_solver.
  - intros db' x. unfold Api.create_experience.
    destruct (Schema.validate_create body) as [data|err] eqn:E;
      [|discriminate].
    assert (Hvalid : match Schema.end_date data with
                     | Some e => date_leb e (Schema.start_date data) = false
                     | None => True
                     end).
    { unfold Schema.validate_create in E.
      destruct (Schema.errors_of _) as [|y l] eqn:Eerr; [|discriminate].
      injection E as <-. simpl.
      destruct (Schema.in_end_date body) as [e|] eqn:Ee; [|done].
      destruct (date_leb e (Schema.in_start_date body)) eqn:El; [|done].
      exfalso.
      eapply (errors_of_nonempty _ "End date must be after start date");
        [|exact Eerr].
      cbn [Schema.validate_end_date]. rewrite El. set_solver. }
    simpl. unfold ExperienceService.create_experience.
    destruct (first _ _) as [profile|]; [|discriminate].
    destruct (bool_decide _); [discriminate|].
    destruct (ExperienceService.insert _ db) as [db1|err]; [|discriminate].
    simpl. intros [= _ <-]. unfold Experience.is_date_valid. simpl.
    destruct (Schema.end_date data); [by rewrite Hvalid|done].
Qed.

Lemma create_date_rule_witness :
  exists errors,
    Api.create_experience Sample.db "p1" "u1"
      (Sample.create_body None (Some (mkdate 2021 3 1)) None) "N"
    = Raise (ValidationError errors).
Proof.
  apply (proj1 (create_date_rule Sample.db "p1" "u1" "N"
                  (Sample.create_body None (Some (mkdate 2021 3 1)) None))
           (mkdate 2021 3 1)).
  - reflexivity.
  - unfold date_le. simpl. lia.
Defined.

(** ** Ownership *)

(** X7. No experience operation that writes succeeds for a caller who does not
    own the profile concerned: creation, update, deletion, reorder and the
    four list operations return only when the caller's id is the profile's
    [user_id]. *)
Theorem experience_writes_owner_only (db : Db) (user_id : string) :
  (forall profile_id data new_id r,
     ExperienceService.create_experience db profile_id user_id data new_id
     = Ok r -> Rule.owns_profile db profile_id user_id)
  /\ (forall experience_id data r,
        ExperienceService.update_experience db experience_id user_id data
        = Ok r -> Rule.owns_experience db experience_id user_id)
  /\ (forall experience_id db',
        ExperienceService.delete_experience db experience_id user_id
        = Ok (db', true) -> Rule.owns_experience db experience_id user_id)
  /\ (forall profile_id ids r,
        ExperienceService.reorder_experiences db profile_id user_id ids
        = Ok r -> Rule.owns_profile db profile_id user_id)
  /\ (forall experience_id t r,
        ExperienceService.add_responsibility db experience_id user_id t = Ok r
        \/ ExperienceService.remove_responsibility db experience_id user_id t
           = Ok r
        \/ ExperienceService.add_technology db experience_id user_id t = Ok r
        \/ ExperienceService.remove_technology db experience_id user_id t
           = Ok r ->
        Rule.owns_experience db experience_id user_id).
Proof.
  assert (Hchange : forall change experience_id r,
            ExperienceService.change_list change db experience_id user_id
            = Ok r -> Rule.owns_experience db experience_id user_id).
  { intros change experience_id r. unfold ExperienceService.change_list.
    destruct (first (experience_by_id _) _) as [e|] eqn:Ee; [|discriminate].
    destruct (first (profile_by_id _) _) as [p|] eqn:Ep; [|discriminate].
    case_bool_decide as Hu; [discriminate|]. intros _.
    exists e, p. repeat split; try done;
      by destruct (decide (Profile.user_id p = user_id)). }
  repeat split.
  - intros profile_id data new_id r.
    unfold ExperienceService.create_experience.
    destruct (first _ _) as [p|] eqn:Ep; [|discriminate].
    case_bool_decide as Hu; [discriminate|]. intros _.
    exists p. split; [done|]. by destruct (decide (Profile.user_id p = user_id)).
  - intros experience_id data r.
    unfold ExperienceService.update_experience.
    destruct (first (experience_by_id _) _) as [e|] eqn:Ee; [|discriminate].
    destruct (first (profile_by_id _) _) as [p|] eqn:Ep; [|discriminate].
    case_bool_decide as Hu; [discriminate|]. intros _.
    exists e, p. repeat split; try done;
      by destruct (decide (Profile.user_id p = user_id)).
  - intros experience_id db'.
    unfold ExperienceService.delete_experience.
    destruct (first (experience_by_id _) _) as [e|] eqn:Ee; [|discriminate].
    destruct (first (profile_by_id _) _) as [p|] eqn:Ep; [|discriminate].
    case_bool_decide as Hu; [discriminate|]. intros _.
    exists e, p. repeat split; try done;
      by destruct (decide (Profile.user_id p = user_id)).
  - intros profile_id ids r.
    unfold ExperienceService.reorder_experiences.
    destruct (first _ _) as [p|] eqn:Ep; [|discriminate].
    case_bool_decide as Hu; [discriminate|]. intros _.
    exists p. split; [done|]. by destruct (decide (Profile.user_id p = user_id)).
  - intros experience_id t r [H|[H|[H|H]]]; by eapply Hchange.
Qed.

Lemma experience_writes_owner_only_witness :
  Rule.owns_profile Sample.db "p1" "u1".
Proof.
  destruct (experience_writes_owner_only Sample.db "u1")
    as (_ & _ & _ & H & _).
  eapply (H "p1" ["A"]). vm_compute. reflexivity.
Defined.

(** ** Updating an experience *)






(** ** Deleting an experience *)

(** X9. Deleting an unknown id reports [False] and leaves the store as it is.
    A deletion by the owner removes the row of the experience and no other
    row, after which the id is unknown, and stores a fresh completeness
    score for the profile. *)
Theorem delete_experience_spec (db : Db) (experience_id user_id : string) :
  (first (experience_by_id experience_id) (experiences db) = None ->
   ExperienceService.delete_experience db experience_id user_id
   = Ok (db, false))
  /\ (forall e p,
        first (experience_by_id experience_id) (experiences db) = Some e ->
        first (profile_by_id (Experience.profile_id e)) (profiles db)
        = Some p ->
        Profile.user_id p = user_id ->
        NoDup (Experience.id <$> experiences db) ->
        exists db',
          ExperienceService.delete_experience db experience_id user_id
          = Ok (db', true)
          /\ experiences db'
             = List.filter (fun x => negb (experience_by_id experience_id x))
                 (experiences db)
          /\ ExperienceService.get_experience_by_id db' experience_id = None
          /\ projects db' = projects db /\ users db' = users db
          /\ Rule.score_is_fresh db' (Experience.profile_id e)).
Proof.
  unfold ExperienceService.delete_experience. split.
  - by intros ->.
  - intros e p He Hp Hu Hnd. rewrite He, Hp.
    rewrite bool_decide_eq_false_2 by (intros H; by apply H).
    eexists. split; [reflexivity|].
    assert (Hrows :
      remove_first (experience_by_id experience_id) (experiences db)
      = List.filter (fun x => negb (experience_by_id experience_id x))
          (experiences db)).
    { unfold experience_by_id. by apply remove_first_keyed. }
    unfold commit_completeness, ExperienceService.get_experience_by_id.
    simpl. rewrite Hrows.
    split; [done|]. split.
    { apply first_none. intros x Hx.
      apply list_elem_of_In, filter_In in Hx as [_ Hx].
      by apply negb_true_iff in Hx. }
    split; [done|]. split; [done|].
    rewrite <- Hrows.
    apply (commit_completeness_fresh p
             (set_experiences
                (remove_first (experience_by_id experience_id)
                   (experiences db)) db)).
    exact Hp.
Qed.

Lemma delete_experience_spec_witness :
  exists db',
    ExperienceService.delete_experience Sample.db "B" "u1" = Ok (db', true)
    /\ ExperienceService.get_experience_by_id db' "B" = None.
Proof.
  assert (Hnd : NoDup (Experience.id <$> experiences Sample.db)).
  { apply (bool_decide_unpack _). vm_compute. exact I. }
  destruct (proj2 (delete_experience_spec Sample.db "B" "u1")
              (Sample.experience "B" "p1" 7)
              (Sample.profile "p1" "u1" "PRIVATE" (Some "X"))
              eq_refl eq_refl eq_refl Hnd)
    as (db' & H & _ & Hgone & _).
  by exists db'.
Defined.

(** ** The completeness score after a creation *)

(** X10. A successful creation appends the new experience to the table and
    stores a fresh completeness score for the profile: the stored score is
    the one computed from the stored headline, summary and experiences, the
    new one included. *)
Theorem create_experience_score (db db' : Db) (profile_id user_id new_id : string)
    (data : Schema.ExperienceCreate) (e : Experience.t) :
  ExperienceService.create_experience db profile_id user_id data new_id
  = Ok (db', e) ->
  experiences db' = (experiences db ++ [e])%list
  /\ Rule.score_is_fresh db' profile_id
  /\ projects db' = projects db /\ users db' = users db.
Proof.
  unfold ExperienceService.create_experience.
  destruct (first _ _) as [p|] eqn:Hp; [|discriminate].
  destruct (bool_decide _); [discriminate|].
  unfold ExperienceService.insert.
  destruct (bool_decide _); [discriminate|].
  unfold mbind, Result_bind. intros [= <- <-].
  split; [reflexivity|]. split; [|split; reflexivity].
  eapply (commit_completeness_fresh p (set_experiences _ db)).
  exact Hp.
Qed.

Lemma create_experience_score_witness :
  exists db' e,
    ExperienceService.create_experience Sample.db "p1" "u1"
      Sample.create_data "N" = Ok (db', e)
    /\ Rule.score_is_fresh db' "p1".
Proof.
  eexists _, _. split; [vm_compute; reflexivity|].
  eapply (create_experience_score Sample.db _ "p1" "u1" "N"
            Sample.create_data).
  vm_compute. reflexivity.
Defined.

(** ** The list operations of the service *)

Lemma list_methods_keep_id (t : string) (e : Experience.t) :
  Experience.id (Experience.add_responsibility t e) = Experience.id e
  /\ Experience.id (Experience.remove_responsibility t e) = Experience.id e
  /\ Experience.id (Experience.add_technology t e) = Experience.id e
  /\ Experience.id (Experience.remove_technology t e) = Experience.id e.
Proof.
  unfold Experience.add_responsibility, Experience.remove_responsibility,
    Experience.add_technology, Experience.remove_technology.
  repeat split;
    repeat match goal with
           | |- context [if ?b then _ else _] => destruct b
           end; reflexivity.
Qed.

Lemma change_list_persists (change : Experience.t -> Experience.t) (db : Db)
    (experience_id user_id : string) (e : Experience.t) (p : Profile.t) :
  Experience.id (change e) = Experience.id e ->
  first (experience_by_id experience_id) (experiences db) = Some e ->
  first (profile_by_id (Experience.profile_id e)) (profiles db) = Some p ->
  Profile.user_id p = user_id ->
  NoDup (Experience.id <$> experiences db) ->
  Rule.persists (ExperienceService.change_list change) db experience_id
    user_id (change e).
Proof.
  intros Hid He Hp Hu Hnd.
  pose proof (first_some _ _ _ He) as [_ Hk].
  unfold Rule.persists, ExperienceService.change_list. rewrite He, Hp.
  rewrite bool_decide_eq_false_2 by (intros H; by apply H).
  eexists. split; [reflexivity|]. simpl.
  split; [done|]. split; [done|]. split; [done|]. split.
  - unfold experience_by_id. by apply replace_first_keyed.
  - unfold ExperienceService.get_experience_by_id. simpl.
    eapply first_replace_first; [exact He|].
    unfold experience_by_id in *. by rewrite Hid.
Qed.

(** X11. The four list operations of the service, called by the owner, store
    what the method of the model returns in place of the experience and
    return it; they change no other row and leave the profile, and so its
    completeness score, as it was. *)
Theorem list_operations_persist (db : Db) (experience_id user_id : string)
    (t : string) (e : Experience.t) (p : Profile.t) :
  first (experience_by_id experience_id) (experiences db) = Some e ->
  first (profile_by_id (Experience.profile_id e)) (profiles db) = Some p ->
  Profile.user_id p = user_id ->
  NoDup (Experience.id <$> experiences db) ->
  Rule.persists (fun db i u => ExperienceService.add_responsibility db i u t)
    db experience_id user_id (Experience.add_responsibility t e)
  /\ Rule.persists
       (fun db i u => ExperienceService.remove_responsibility db i u t)
       db experience_id user_id (Experience.remove_responsibility t e)
  /\ Rule.persists (fun db i u => ExperienceService.add_technology db i u t)
       db experience_id user_id (Experience.add_technology t e)
  /\ Rule.persists
       (fun db i u => ExperienceService.remove_technology db i u t)
       db experience_id user_id (Experience.remove_technology t e).
Proof.
  intros He Hp Hu Hnd.
  destruct (list_methods_keep_id t e) as (H1 & H2 & H3 & H4).
  repeat split.
  - exact (change_list_persists (Experience.add_responsibility t) db experience_id
             user_id e p H1 He Hp Hu Hnd).
  - exact (change_list_persists (Experience.remove_responsibility t) db experience_id
             user_id e p H2 He Hp Hu Hnd).
  - exact (change_list_persists (Experience.add_technology t) db experience_id
             user_id e p H3 He Hp Hu Hnd).
  - exact (change_list_persists (Experience.remove_technology t) db experience_id
             user_id e p H4 He Hp Hu Hnd).
Qed.

Lemma list_operations_persist_witness :
  Rule.persists
    (fun db i u => ExperienceService.add_technology db i u "Go")
    Sample.db "A" "u1"
    (Experience.add_technology "Go" (Sample.experience "A" "p1" 7)).
Proof.
  assert (Hnd : NoDup (Experience.id <$> experiences Sample.db)).
  { apply (bool_decide_unpack _). vm_compute. exact I. }
  apply (list_operations_persist Sample.db "A" "u1" "Go"
           (Sample.experience "A" "p1" 7)
           (Sample.profile "p1" "u1" "PRIVATE" (Some "X"))
           eq_refl eq_refl eq_refl Hnd).
Defined.

(** ** Updating a profile *)

Lemma replace_first_twice {A : Type} (p : A -> bool) (new1 new2 : A)
    (rows : list A) :
  p new1 = true ->
  replace_first p new2 (replace_first p new1 rows) = replace_first p new2 rows.
Proof.
  intros H. induction rows as [|x rows IH]; [done|]. simpl.
  destruct (p x) eqn:E; simpl.
  - by rewrite H.
  - by rewrite E, IH.
Qed.




(** X13. An explicit null for [visibility] passes the validators and fails at
    the commit; the service reports it as a taken slug, although no update
    can set a slug. *)
Theorem update_profile_null_required (db : Db) (profile_id user_id : string)
    (data : Schema.ProfileUpdate) (p : Profile.t) :
  first (profile_by_id profile_id) (profiles db) = Some p ->
  Profile.user_id p = user_id ->
  Schema.pu_visibility data = Schema.Assign None ->
  ProfileService.update_profile db profile_id user_id data
  = Raise (SlugAlreadyExistsError "Slug is already taken")
  /\ (Schema.pu_headline data = Schema.Unset ->
      Schema.pu_location data = Schema.Unset ->
      Schema.validate_profile_update data = Ok data).
Proof.
  intros Hp Hu Hnull. split.
  - unfold ProfileService.update_profile. rewrite Hp.
    rewrite bool_decide_eq_false_2 by (intros H; by apply H).
    unfold ProfileService.apply_update. by rewrite Hnull.
  - intros H1 H2. unfold Schema.validate_profile_update.
    by rewrite H1, H2, Hnull.
Qed.

Lemma update_profile_null_required_witness :
  ProfileService.update_profile Sample.db "p1" "u1" Sample.null_visibility
  = Raise (SlugAlreadyExistsError "Slug is already taken").
Proof.
  apply (update_profile_null_required Sample.db "p1" "u1"
           Sample.null_visibility
           (Sample.profile "p1" "u1" "PRIVATE" (Some "X")));
    reflexivity.
Defined.

(** ** Deleting a profile *)

(** X14. Deleting an unknown profile reports [False] and leaves the store as it
    is. A deletion by the owner removes the profile together with all its
    experiences and projects and nothing else: afterwards the profile is
    unknown, no experience and no project refers to it, both listings for
    it are empty, and the rows of other profiles are all still there. *)
Theorem delete_profile_cascade (db : Db) (profile_id user_id : string) :
  (first (profile_by_id profile_id) (profiles db) = None ->
   ProfileService.delete_profile db profile_id user_id = Ok (db, false))
  /\ (forall p,
        first (profile_by_id profile_id) (profiles db) = Some p ->
        Profile.user_id p = user_id ->
        NoDup (Profile.id <$> profiles db) ->
        exists db',
          ProfileService.delete_profile db profile_id user_id
          = Ok (db', true)
          /\ users db' = users db
          /\ profiles db'
             = List.filter (fun x => negb (profile_by_id profile_id x))
                 (profiles db)
          /\ (forall b, ProfileService.get_profile_by_id db' profile_id b
                        = None)
          /\ (forall e, e ∈ experiences db' <->
                e ∈ experiences db /\ Experience.profile_id e ≠ profile_id)
          /\ (forall q, q ∈ projects db' <->
                q ∈ projects db /\ Project.profile_id q ≠ profile_id)
          /\ (forall viewer,
                ExperienceService.get_experiences_by_profile db' profile_id
                  viewer = Ok [])
          /\ ProjectService.get_profile_projects db' profile_id = []).
Proof.
  unfold ProfileService.delete_profile. split.
  - by intros ->.
  - intros p Hp Hu Hnd. rewrite Hp.
    pose proof (first_some _ _ _ Hp) as [_ Hid].
    apply bool_decide_eq_true in Hid.
    rewrite bool_decide_eq_false_2 by (intros H; by apply H).
    rewrite Hid.
    assert (Hrows :
      remove_first (profile_by_id profile_id) (profiles db)
      = List.filter (fun x => negb (profile_by_id profile_id x))
          (profiles db)).
    { unfold profile_by_id. by apply remove_first_keyed. }
    assert (Hgone : first (profile_by_id profile_id)
                      (remove_first (profile_by_id profile_id) (profiles db))
                    = None).
    { rewrite Hrows. apply first_none. intros x Hx.
      apply list_elem_of_In, filter_In in Hx as [_ Hx].
      by apply negb_true_iff in Hx. }
    eexists. split; [reflexivity|]. simpl.
    split; [done|]. split; [done|]. split; [by intros b|]. split.
    { intros e. rewrite list_elem_of_In, filter_In, <- list_elem_of_In.
      unfold experience_of. rewrite negb_true_iff, bool_decide_eq_false.
      tauto. }
    split.
    { intros q. rewrite list_elem_of_In, filter_In, <- list_elem_of_In.
      unfold project_of. rewrite negb_true_iff, bool_decide_eq_false.
      tauto. }
    split.
    { intros viewer. unfold ExperienceService.get_experiences_by_profile.
      simpl. by rewrite Hgone. }
    unfold ProjectService.get_profile_projects. simpl.
    replace (List.filter (project_of profile_id)
               (List.filter (fun q => negb (project_of profile_id q))
                  (projects db))) with (@nil Project.t); [done|].
    symmetry. induction (projects db) as [|q l IH]; [done|]. simpl.
    destruct (project_of profile_id q) eqn:E; simpl; [done|].
    by rewrite E.
Qed.

Lemma delete_profile_cascade_witness :
  exists db',
    ProfileService.delete_profile Sample.db "p1" "u1" = Ok (db', true)
    /\ ExperienceService.get_experiences_by_profile db' "p1" (Some "u1")
       = Ok [].
Proof.
  assert (Hnd : NoDup (Profile.id <$> profiles Sample.db)).
  { apply (bool_decide_unpack _). vm_compute. exact I. }
  destruct (proj2 (delete_profile_cascade Sample.db "p1" "u1")
              (Sample.profile "p1" "u1" "PRIVATE" (Some "X"))
              eq_refl eq_refl Hnd)
    as (db' & H & _ & _ & _ & _ & _ & Hlist & _).
  exists db'. split; [exact H|apply Hlist].
Defined.

(** ** Recomputing the completeness score *)

(** X15. For a stored profile the recomputation returns the score computed from
    the stored headline, summary and experiences, between 0 and 60, and
    stores it; recomputing again returns the same score and leaves the
    store as it is. For an unknown profile it raises
    [ProfileNotFoundError]. *)
Theorem update_completeness_score_spec (db : Db) (profile_id : string) :
  (first (profile_by_id profile_id) (profiles db) = None ->
   ProfileService.update_completeness_score db profile_id
   = Raise (ProfileNotFoundError "Profile not found"))
  /\ (forall p,
        first (profile_by_id profile_id) (profiles db) = Some p ->
        exists db',
          ProfileService.update_completeness_score db profile_id
          = Ok (db',
                Profile.calculate_completeness p
                  (List.filter (experience_of profile_id) (experiences db)))
          /\ 0 <= Profile.calculate_completeness p
                    (List.filter (experience_of profile_id) (experiences db))
               <= 60
          /\ Rule.score_is_fresh db' profile_id
          /\ experiences db' = experiences db /\ projects db' = projects db
          /\ ProfileService.update_completeness_score db' profile_id
             = Ok (db',
                   Profile.calculate_completeness p
                     (List.filter (experience_of profile_id)
                        (experiences db)))).
Proof.
  unfold ProfileService.update_completeness_score,
    ProfileService.get_profile_by_id.
  split; [by intros ->|].
  intros p Hp. rewrite Hp.
  pose proof (first_some _ _ _ Hp) as [_ Hid].
  apply bool_decide_eq_true in Hid. subst profile_id.
  exists (commit_completeness p db).1. split; [reflexivity|].
  split.
  { rewrite calculate_completeness_eq. unfold Rule.completeness_points.
    repeat match goal with
           | |- context [if ?b then _ else _] => destruct b
           end; lia. }
  split; [by apply commit_completeness_fresh|].
  split; [done|]. split; [done|].
  unfold commit_completeness. cbn [fst snd profiles set_profiles experiences].
  cbn [Profile.update_completeness Profile.id Profile.set_completeness_score].
  erewrite first_replace_first; [|exact Hp|by apply bool_decide_eq_true].
  cbn [Profile.id Profile.set_completeness_score Profile.completeness_score].
  rewrite replace_first_twice by (by apply bool_decide_eq_true).
  reflexivity.
Qed.

Lemma update_completeness_score_spec_witness :
  exists db',
    ProfileService.update_completeness_score Sample.db "p1" = Ok (db', 40).
Proof.
  destruct (proj2 (update_completeness_score_spec Sample.db "p1")
              (Sample.profile "p1" "u1" "PRIVATE" (Some "X")) eq_refl)
    as (db' & H & _).
  exists db'. exact H.
Defined.

(** ** Generated slugs are valid slugs *)

Lemma all_chars_app (ok : ascii -> bool) (s1 s2 : string) :
  Rule.all_chars ok (s1 ++ s2)
  = Rule.all_chars ok s1 && Rule.all_chars ok s2.
Proof.
  induction s1 as [|c s1 IH]; simpl; [done|].
  by rewrite IH, andb_assoc.
Qed.

Lemma all_chars_impl (ok1 ok2 : ascii -> bool) (s : string) :
  (forall c, ok1 c = true -> ok2 c = true) ->
  Rule.all_chars ok1 s = true -> Rule.all_chars ok2 s = true.
Proof.
  intros H. induction s as [|c s IH]; simpl; [done|].
  rewrite !andb_true_iff. intros [H1 H2]. split; [by apply H|by apply IH].
Qed.

Lemma lower_char_not_upper (c : ascii) :
  Py.slug_char (Py.lower_char c) = true ->
  Schema.explicit_slug_char (Py.lower_char c) || Py.is_space (Py.lower_char c)
  = true.
Proof.
  destruct c as [[|] [|] [|] [|] [|] [|] [|] [|]]; vm_compute; congruence.
Qed.

Lemma all_chars_lower_filter (s : string) :
  Rule.all_chars (fun c => Schema.explicit_slug_char c || Py.is_space c)
    (Py.sub_non_slug (Py.lower s)) = true.
Proof.
  induction s as [|c s IH]; simpl; [done|].
  destruct (Py.slug_char (Py.lower_char c)) eqn:E; [|done].
  simpl. by rewrite lower_char_not_upper, IH.
Qed.

Lemma all_chars_lstrip (ok : ascii -> bool) (s : string) :
  Rule.all_chars ok s = true -> Rule.all_chars ok (Py.lstrip s) = true.
Proof.
  induction s as [|c s IH]; simpl; [done|].
  rewrite andb_true_iff. intros [H1 H2].
  destruct (Py.is_space c); [by apply IH|]. simpl. by rewrite H1, H2.
Qed.

Lemma all_chars_rstrip (ok : ascii -> bool) (s : string) :
  Rule.all_chars ok s = true -> Rule.all_chars ok (Py.rstrip s) = true.
Proof.
  induction s as [|c s IH]; simpl; [done|].
  rewrite andb_true_iff. intros [H1 H2]. specialize (IH H2).
  destruct (Py.rstrip s) as [|c' r'].
  - destruct (Py.is_space c); simpl; [done|by rewrite H1].
  - simpl in *. by rewrite H1, IH.
Qed.

Lemma all_chars_sub_spaces (b : bool) (s : string) :
  Rule.all_chars (fun c => Schema.explicit_slug_char c || Py.is_space c) s
  = true ->
  Rule.all_chars Schema.explicit_slug_char (Py.sub_spaces_from b s) = true.
Proof.
  revert b. induction s as [|c s IH]; intros b; simpl; [done|].
  rewrite andb_true_iff. intros [H1 H2].
  destruct (Py.is_space c) eqn:E.
  - destruct b; simpl; by apply IH.
  - rewrite orb_false_r in H1. simpl. rewrite H1. by apply IH.
Qed.

(** The name part of a generated slug has only lower-case letters, digits
    and hyphens. *)
Lemma slug_of_name_chars (name : string) :
  Rule.all_chars Schema.explicit_slug_char (Profile.slug_of_name name) = true.
Proof.
  unfold Profile.slug_of_name, Py.sub_spaces, Py.strip.
  apply all_chars_sub_spaces, all_chars_rstrip, all_chars_lstrip.
  apply all_chars_lower_filter.
Qed.

Lemma hex_digit_slug_char (c : ascii) :
  Py.is_hex_digit c = true -> Schema.explicit_slug_char c = true.
Proof.
  destruct c as [[|] [|] [|] [|] [|] [|] [|] [|]]; vm_compute; congruence.
Qed.

Lemma token_chars (rnd : Byte.byte * Byte.byte * Byte.byte) :
  Rule.all_chars Schema.explicit_slug_char (Py.token_hex3 rnd) = true.
Proof.
  destruct rnd as [[b0 b1] b2]. unfold Py.token_hex3.
  destruct (hex_of_byte_digits b0) as (c1 & c2 & -> & H1 & H2).
  destruct (hex_of_byte_digits b1) as (c3 & c4 & -> & H3 & H4).
  destruct (hex_of_byte_digits b2) as (c5 & c6 & -> & H5 & H6).
  simpl.
  by rewrite !hex_digit_slug_char.
Qed.

Lemma slug_pattern_rest_all (s : string) :
  Rule.all_chars Schema.explicit_slug_char s = true ->
  Schema.slug_pattern_rest s = true.
Proof.
  induction s as [|c s IH]; simpl; [done|].
  rewrite andb_true_iff. intros [-> H]. by apply IH.
Qed.

(** A string accepted as a slug has at least three characters, all of them
    lower-case letters, digits or hyphens, except that the last one may be a
    line feed. *)
Lemma validate_slug_accepts (s : string) :
  Schema.validate_slug (Some s) = None <->
  3 <= Py.len s
  /\ exists body,
       (s = body \/ s = body ++ String "010"%char EmptyString)
       /\ body ≠ EmptyString
       /\ Rule.all_chars Schema.explicit_slug_char body = true.
Proof.
  assert (Hrest : forall r,
    Schema.slug_pattern_rest r = true <->
    exists body,
      (r = body \/ r = body ++ String "010"%char EmptyString)
      /\ Rule.all_chars Schema.explicit_slug_char body = true).
  { induction r as [|c r IH]; simpl.
    - split; [intros _; by exists EmptyString; split; [left|]|done].
    - destruct (Schema.explicit_slug_char c) eqn:E.
      + rewrite IH. split.
        * intros (body & [->| ->] & Hb); exists (String c body); simpl;
            rewrite E; split; auto.
        * intros ([|c' body] & Hs & Hb).
          -- destruct Hs as [Hs|Hs]; [discriminate|].
             simpl in Hs. injection Hs as -> ->. discriminate.
          -- simpl in Hb. apply andb_true_iff in Hb as [_ Hb].
             exists body. split; [|done].
             destruct Hs as [Hs|Hs]; simpl in Hs; injection Hs as _ ->; auto.
      + rewrite andb_true_iff, !bool_decide_eq_true. split.
        * intros [-> ->]. exists EmptyString. split; [by right|done].
        * intros ([|c' body] & Hs & Hb).
          -- destruct Hs as [Hs|Hs]; [discriminate|].
             simpl in Hs. by injection Hs as -> ->.
          -- simpl in Hb. apply andb_true_iff in Hb as [Hc _].
             destruct Hs as [Hs|Hs]; simpl in Hs; injection Hs as -> _;
               congruence. }
  unfold Schema.validate_slug, Schema.slug_pattern.
  destruct s as [|c r].
  - simpl. split; [done|]. intros [H _]. unfold Py.len in H. simpl in H. lia.
  - destruct (Schema.explicit_slug_char c) eqn:E; simpl.
    + destruct (Schema.slug_pattern_rest r) eqn:Er; simpl.
      * apply Hrest in Er as (body & Hs & Hb).
        destruct (Z.ltb_spec (Py.len (String c r)) 3) as [Hlt|Hge].
        -- split; [done|]. intros [H _]. lia.
        -- split; [intros _|done]. split; [done|].
           exists (String c body). simpl. rewrite E, Hb.
           split; [|done]. destruct Hs as [->| ->]; auto.
      * split; [done|]. intros (_ & [|c' body] & Hs & Hne & Hb); [done|].
        simpl in Hb. apply andb_true_iff in Hb as [_ Hb].
        assert (Schema.slug_pattern_rest r = true); [|congruence].
        apply Hrest. exists body. split; [|done].
        destruct Hs as [Hs|Hs]; simpl in Hs; injection Hs as _ ->; auto.
    + split; [done|]. intros (_ & [|c' body] & Hs & Hne & Hb); [done|].
      simpl in Hb. apply andb_true_iff in Hb as [Hc _].
      destruct Hs as [Hs|Hs]; simpl in Hs; injection Hs as -> _; congruence.
Qed.

(** X16. Every slug that [generate_slug] builds from a display name passes
    [validate_slug], the validator of slugs supplied in a request. *)
Theorem generated_slug_is_valid (self_id : option string) (owner : User.t)
    (name : string) (rnd : Byte.byte * Byte.byte * Byte.byte) :
  User.name owner = Some name -> name ≠ EmptyString ->
  Schema.validate_slug (Some (Profile.generate_slug self_id (Some owner) rnd))
  = None
  /\ Rule.all_chars Schema.explicit_slug_char
       (Profile.generate_slug self_id (Some owner) rnd) = true
  /\ 7 <= Py.len (Profile.generate_slug self_id (Some owner) rnd).
Proof.
  intros Hname Hne.
  assert (E : Profile.generate_slug self_id (Some owner) rnd
              = Profile.slug_of_name name ++ "-" ++ Py.token_hex3 rnd).
  { unfold Profile.generate_slug. rewrite Hname.
    apply truthy_str_true in Hne. simpl. by rewrite Hne. }
  assert (Hall : Rule.all_chars Schema.explicit_slug_char
                   (Profile.generate_slug self_id (Some owner) rnd) = true).
  { rewrite E, !all_chars_app, slug_of_name_chars, token_chars. done. }
  assert (Hlen : 7 <= Py.len (Profile.generate_slug self_id (Some owner) rnd)).
  { rewrite E. unfold Py.len. rewrite !string_length_app.
    rewrite (proj1 (token_suffix EmptyString rnd)). simpl. lia. }
  split; [|done].
  apply validate_slug_accepts. split; [lia|].
  exists (Profile.generate_slug self_id (Some owner) rnd).
  split; [by left|]. split; [|done].
  intros H0. rewrite H0 in Hlen. unfold Py.len in Hlen. simpl in Hlen. lia.
Qed.

Lemma generated_slug_is_valid_witness :
  Schema.validate_slug
    (Some (Profile.generate_slug None
             (Some (User.mk "u1" (Some "Ada Lovelace"))) Sample.rnd))
  = None.
Proof.
  apply (generated_slug_is_valid None (User.mk "u1" (Some "Ada Lovelace"))
           "Ada Lovelace" Sample.rnd); [reflexivity|discriminate].
Defined.

(** X17. The validator of supplied slugs accepts exactly the strings of at
    least three characters made of lower-case letters, digits and hyphens,
    where the last character may also be a line feed. *)
Theorem validate_slug_spec (s : string) :
  (Schema.validate_slug (Some s) = None <->
   3 <= Py.len s
   /\ exists body,
        (s = body \/ s = body ++ String "010"%char EmptyString)
        /\ body ≠ EmptyString
        /\ Rule.all_chars Schema.explicit_slug_char body = true)
  /\ (Schema.validate_slug (Some s) = None -> Py.truthy_str s = true)
  /\ Schema.validate_slug None = None.
Proof.
  split; [apply validate_slug_accepts|]. split; [|done].
  intros H. apply validate_slug_accepts in H as [Hlen _].
  destruct s; [|done]. unfold Py.len in Hlen. simpl in Hlen. lia.
Qed.

Lemma validate_slug_spec_witness :
  Py.truthy_str "ada-99" = true.
Proof.
  apply (proj1 (proj2 (validate_slug_spec "ada-99"))). reflexivity.
Defined.

(** ** Free slugs *)

Lemma slugs_elem (db : Db) (s : string) :
  s ∈ ProfileService.slugs db
  <-> exists p, p ∈ profiles db /\ Profile.slug p = Some s.
Proof. unfold ProfileService.slugs. apply list_elem_of_omap. Qed.

Lemma head_filter_none {A : Type} (f : A -> bool) (l : list A) :
  head (List.filter f l) = None <-> forall x, x ∈ l -> f x = false.
Proof.
  induction l as [|x l IH]; simpl.
  - split; [intros _ x Hx; by apply not_elem_of_nil in Hx|done].
  - destruct (f x) eqn:E; simpl.
    + split; [done|]. intros H. specialize (H x (list_elem_of_here _ _)).
      congruence.
    + rewrite IH. split.
      * intros H y Hy. apply elem_of_cons in Hy as [->|Hy]; auto.
      * intros H y Hy. apply H. by apply list_elem_of_further.
Qed.

Lemma is_slug_available_free (db : Db) (s : string) :
  ProfileService.is_slug_available db s None = true
  <-> s ∉ ProfileService.slugs db.
Proof.
  unfold ProfileService.is_slug_available. simpl.
  rewrite bool_decide_eq_true, head_filter_none, slugs_elem. split.
  - intros H (p & Hp & Hs). specialize (H p Hp).
    by apply bool_decide_eq_false in H.
  - intros H p Hp. apply bool_decide_eq_false. intros Hs. apply H. eauto.
Qed.

(** X18. A slug is available when no profile has it; with a profile to exclude,
    when no other profile has it. An empty id to exclude excludes
    nothing. *)
Theorem is_slug_available_spec (db : Db) (s x : string) :
  (ProfileService.is_slug_available db s None = true <->
   forall p, p ∈ profiles db -> Profile.slug p ≠ Some s)
  /\ (x ≠ EmptyString ->
      (ProfileService.is_slug_available db s (Some x) = true <->
       forall p, p ∈ profiles db -> Profile.slug p = Some s ->
                 Profile.id p = x))
  /\ ProfileService.is_slug_available db s (Some EmptyString)
     = ProfileService.is_slug_available db s None.
Proof.
  split; [|split; [|done]].
  - rewrite is_slug_available_free, slugs_elem. split.
    + intros H p Hp Hs. apply H. eauto.
    + intros H (p & Hp & Hs). by apply (H p).
  - intros Hx. apply truthy_str_true in Hx.
    unfold ProfileService.is_slug_available. simpl. rewrite Hx.
    rewrite bool_decide_eq_true, head_filter_none. split.
    + intros H p Hp Hs.
      destruct (decide (Profile.id p = x)) as [|Hne]; [done|].
      assert (Hin : p ∈ List.filter
                      (fun p => bool_decide (Profile.slug p = Some s))
                      (profiles db)).
      { apply list_elem_of_In, filter_In. split; [by apply list_elem_of_In|].
        by apply bool_decide_eq_true. }
      specialize (H p Hin). apply bool_decide_eq_false in H. by destruct H.
    + intros H p Hp. apply list_elem_of_In, filter_In in Hp as [Hp Hs].
      apply list_elem_of_In in Hp. apply bool_decide_eq_true in Hs.
      apply bool_decide_eq_false. intros Hne. apply Hne. by apply H.
Qed.

Lemma is_slug_available_spec_witness :
  ProfileService.is_slug_available Sample.db "ada" (Some "p1") = true.
Proof.
  apply (proj1 (proj2 (is_slug_available_spec Sample.db "ada" "p1")));
    [discriminate|].
  intros p Hp. unfold Sample.db, profiles in Hp.
  repeat (apply elem_of_cons in Hp as [-> | Hp]; [discriminate|]).
  by apply not_elem_of_nil in Hp.
Defined.

(** More candidates than slugs in use cannot all be in use. *)
Lemma slug_candidates_bound (taken : list string) (base : string) (n : nat) :
  base ∈ taken ->
  (forall k, (k < n)%nat -> base ++ "-" ++ pretty (1 + N.of_nat k)%N ∈ taken) ->
  (n < length taken)%nat.
Proof.
  intros H0 Hrest.
  set (cand := fun k : nat => base ++ "-" ++ pretty (1 + N.of_nat k)%N).
  assert (Hnd : NoDup (base :: (cand <$> seq 0 n))).
  { apply NoDup_cons. split.
    - intros Hin. apply list_elem_of_fmap in Hin as (k & Hk & _).
      apply (f_equal String.length) in Hk. unfold cand in Hk.
      rewrite string_length_app in Hk. simpl in Hk. lia.
    - apply NoDup_fmap_2; [|apply NoDup_seq].
      intros j k Hjk. unfold cand in Hjk.
      apply (inj (String.append base)) in Hjk.
      injection Hjk as Hjk.
      apply (inj (String.append EmptyString)) in Hjk.
      apply (inj (pretty : N -> string)) in Hjk. lia. }
  assert (Hsub : forall x, x ∈ base :: (cand <$> seq 0 n) -> x ∈ taken).
  { intros x Hx. apply elem_of_cons in Hx as [->|Hx]; [done|].
    apply list_elem_of_fmap in Hx as (k & -> & Hk).
    apply elem_of_seq in Hk. apply Hrest. lia. }
  pose proof (submseteq_length _ _ (NoDup_submseteq _ _ Hnd Hsub)) as Hlen.
  simpl in Hlen. rewrite length_fmap, length_seq in Hlen. lia.
Qed.

Lemma generate_unique_slug_loop_spec (db : Db) (base : string) :
  forall (fuel : nat) (counter : N),
    match ProfileService.generate_unique_slug_loop fuel db base counter with
    | Some s =>
        exists k, (counter <= k)%N /\ s = base ++ "-" ++ pretty k
          /\ ProfileService.is_slug_available db s None = true
          /\ forall j, (counter <= j < k)%N ->
               ProfileService.is_slug_available db
                 (base ++ "-" ++ pretty j) None = false
    | None =>
        forall k, (k < fuel)%nat ->
          ProfileService.is_slug_available db
            (base ++ "-" ++ pretty (counter + N.of_nat k)%N) None = false
    end.
Proof.
  induction fuel as [|fuel IH]; intros counter; simpl.
  - intros k Hk. exfalso. lia.
  - destruct (ProfileService.is_slug_available db
                (base ++ "-" ++ pretty counter) None) eqn:E.
    + exists counter. split; [lia|]. split; [done|]. split; [done|].
      intros j Hj. exfalso. lia.
    + specialize (IH (counter + 1)%N).
      destruct (ProfileService.generate_unique_slug_loop fuel db base
                  (counter + 1)%N) as [s|].
      * destruct IH as (k & Hk & -> & Hfree & Hbefore).
        exists k. split; [lia|]. split; [done|]. split; [done|].
        intros j Hj. destruct (decide (j = counter)) as [->|Hne]; [done|].
        apply Hbefore. lia.
      * intros [|k] Hk.
        -- by rewrite N.add_0_r.
        -- replace (counter + N.of_nat (S k))%N
             with (counter + 1 + N.of_nat k)%N by lia.
           apply IH. lia.
Qed.

Lemma slugs_length (db : Db) :
  (length (ProfileService.slugs db) <= length (profiles db))%nat.
Proof.
  unfold ProfileService.slugs. generalize (profiles db).
  induction l as [|p l IH]; [done|].
  change (omap Profile.slug (p :: l))
    with (match Profile.slug p with
          | Some y => y :: omap Profile.slug l
          | None => omap Profile.slug l
          end).
  destruct (Profile.slug p); simpl; lia.
Qed.

(** X19. Given as many rounds as there are profiles, [generate_unique_slug]
    returns an available slug: the base itself when it is free, and
    otherwise the base with the least counter from 1 on that makes it
    free. *)
Theorem generate_unique_slug_spec (db : Db) (base : string) :
  exists s,
    ProfileService.generate_unique_slug (length (profiles db)) db base
    = Some s
    /\ ProfileService.is_slug_available db s None = true
    /\ (ProfileService.is_slug_available db base None = true -> s = base)
    /\ (ProfileService.is_slug_available db base None = false ->
        exists k, (1 <= k)%N /\ s = base ++ "-" ++ pretty k
          /\ forall j, (1 <= j < k)%N ->
               ProfileService.is_slug_available db
                 (base ++ "-" ++ pretty j) None = false).
Proof.
  unfold ProfileService.generate_unique_slug.
  destruct (ProfileService.is_slug_available db base None) eqn:E.
  - exists base. by repeat split.
  - pose proof (generate_unique_slug_loop_spec db base
                  (length (profiles db)) 1) as H.
    destruct (ProfileService.generate_unique_slug_loop _ db base 1)
      as [s|].
    + destruct H as (k & Hk & -> & Hfree & Hbefore).
      eexists. split; [done|]. split; [done|]. split; [done|].
      intros _. by exists k.
    + exfalso.
      pose proof (slugs_length db) as Hlen.
      assert (Hbase : base ∈ ProfileService.slugs db).
      { destruct (decide (base ∈ ProfileService.slugs db)) as [|Hn]; [done|].
        apply is_slug_available_free in Hn. congruence. }
      pose proof (slug_candidates_bound (ProfileService.slugs db) base
                    (length (profiles db)) Hbase) as Hbound.
      assert ((length (profiles db) < length (ProfileService.slugs db))%nat);
        [|lia].
      apply Hbound. intros k Hk. specialize (H k Hk).
      destruct (decide (base ++ "-" ++ pretty (1 + N.of_nat k)%N
                          ∈ ProfileService.slugs db)) as [|Hn]; [done|].
      apply is_slug_available_free in Hn. congruence.
Qed.

(** ** Listing in the requested order *)

Lemma StronglySorted_seq (j n : nat) : StronglySorted le (seq j n).
Proof.
  revert j. induction n as [|n IH]; intros j; simpl; constructor; [apply IH|].
  apply Forall_forall. intros x Hx. apply elem_of_seq in Hx. lia.
Qed.

(** A list sorted by the position of each row's key in a duplicate-free
    list of all its keys lists the keys in that order. *)
Lemma listed_in_requested_order {A : Type} (idf : A -> string)
    (pos : A -> nat) (ids : list string) (l : list A) :
  NoDup ids ->
  idf <$> l ≡ₚ ids ->
  (forall x, x ∈ l -> ids !! pos x = Some (idf x)) ->
  StronglySorted (fun x y => (pos x <= pos y)%nat) l ->
  idf <$> l = ids.
Proof.
  intros Hnd Hperm Hpos Hsorted.
  assert (Hlen : length l = length ids).
  { apply Permutation_length in Hperm. by rewrite length_fmap in Hperm. }
  assert (Hkeys : pos <$> l = seq 0 (length ids)).
  { apply (StronglySorted_unique_strong le).
    - intros; lia.
    - eapply (StronglySorted_fmap pos); [|exact Hsorted]. by intros x y H.
    - apply StronglySorted_seq.
    - apply NoDup_Permutation.
      + apply NoDup_fmap_2_strong.
        * intros x y Hx Hy E.
          apply (NoDup_fmap_eq idf l); try done.
          -- by rewrite Hperm.
          -- pose proof (Hpos x Hx) as H1. pose proof (Hpos y Hy) as H2.
             congruence.
        * apply (NoDup_fmap_1 idf). by rewrite Hperm.
      + apply NoDup_seq.
      + intros j. rewrite elem_of_seq. split.
        * intros Hj. apply list_elem_of_fmap in Hj as (x & -> & Hx).
          apply Hpos, lookup_lt_Some in Hx. lia.
        * intros [_ Hj]. simpl in Hj.
          destruct (lookup_lt_is_Some_2 ids j Hj) as [k Hk].
          assert (Hin : k ∈ idf <$> l).
          { rewrite Hperm. apply list_elem_of_lookup. by exists j. }
          apply list_elem_of_fmap in Hin as (x & -> & Hx).
          apply list_elem_of_fmap. exists x. split; [|done].
          apply (NoDup_lookup ids j (pos x) (idf x)); [done..|by apply Hpos]. }
  apply (list_eq_same_length _ _ (length ids)); [done|by rewrite length_fmap|].
  intros i k k' Hi Hk Hk'.
  apply list_lookup_fmap_Some in Hk as (x & -> & Hx).
  assert (Hp : (pos <$> l) !! i = Some (pos x))
    by (by rewrite list_lookup_fmap, Hx).
  rewrite Hkeys in Hp. apply lookup_seq in Hp as [Hp _]. simpl in Hp.
  assert (Hin : x ∈ l) by (apply list_elem_of_lookup; by exists i).
  apply Hpos in Hin. rewrite Hp in Hin. congruence.
Qed.

(** X20. The owner reorders the projects of a profile with a list that names
    each of them once. The listing that the call returns, and every later
    listing, has the projects in the order of the list, and the project at
    position [j] has display order [j]; the projects of other profiles
    stay as they are. *)
Theorem reorder_projects_complete (db : Db) (profile_id user_id : string)
    (ids : list string) (profile : Profile.t) :
  first (profile_by_id profile_id) (profiles db) = Some profile ->
  Profile.user_id profile = user_id ->
  NoDup (Project.id <$> projects db) ->
  Project.id <$> List.filter (project_of profile_id) (projects db) ≡ₚ ids ->
  exists db' l,
    ProjectService.reorder_projects db profile_id user_id ids = Ok (db', l)
    /\ Project.id <$> l = ids
    /\ (forall j q, l !! j = Some q -> Project.display_order q = Z.of_nat j)
    /\ ProjectService.get_profile_projects db' profile_id = l
    /\ (forall q, q ∈ projects db -> Project.profile_id q <> profile_id ->
        q ∈ projects db')
    /\ users db' = users db /\ profiles db' = profiles db
    /\ experiences db' = experiences db.
Proof.
  intros Hp Hu Hnd Hids.
  unfold ProjectService.reorder_projects. rewrite Hp.
  rewrite bool_decide_eq_false_2 by (intros H; by apply H).
  destruct (project_loop_spec profile_id ids 0 db Hnd) as (F & HF & Hrows).
  rewrite HF. eexists _, _. split; [reflexivity|].
  assert (Hndi : NoDup ids).
  { rewrite <- Hids. by apply NoDup_fmap_filter. }
  set (rows := List.filter (project_of profile_id) (projects db)).
  assert (Hkeep : forall p, p ∈ projects db ->
            Project.id (F p) = Project.id p
            /\ Project.profile_id (F p) = Project.profile_id p).
  { intros p Hin. destruct (Hrows p Hin) as (v & -> & _). by destruct p. }
  assert (Hfilter :
    List.filter (project_of profile_id) (F <$> projects db) = F <$> rows).
  { apply filter_fmap_commute. intros p Hin. unfold project_of.
    by rewrite (proj2 (Hkeep p Hin)). }
  unfold ProjectService.get_profile_projects.
  cbn [projects set_projects users profiles experiences]. rewrite Hfilter.
  set (l := order_by ProjectService.by_display_order_asc_created_at_desc
              (F <$> rows)).
  assert (Hperm : l ≡ₚ F <$> rows) by apply order_by_Permutation.
  assert (Hl : forall q, q ∈ l ->
            ids !! Z.to_nat (Project.display_order q) = Some (Project.id q)
            /\ 0 <= Project.display_order q).
  { intros q Hq. rewrite Hperm in Hq.
    apply list_elem_of_fmap in Hq as (p & -> & Hin).
    apply filter_project_of in Hin as [Hin Hpr].
    destruct (Hrows p Hin) as (v & Hv & _ & _ & Hlast).
    assert (Hk : Project.id p ∈ ids).
    { rewrite <- Hids. apply list_elem_of_fmap_2.
      by apply filter_project_of. }
    apply list_elem_of_lookup in Hk as [j Hj].
    rewrite (Hlast Hpr j Hj) in Hv.
    - rewrite Hv. destruct p; simpl in *. rewrite Nat2Z.id. split; [done|lia].
    - intros j' Hlt Hj'. pose proof (NoDup_lookup ids j j' _ Hndi Hj Hj'). lia. }
  assert (Hidl : Project.id <$> l = ids).
  { apply (listed_in_requested_order Project.id
             (fun q => Z.to_nat (Project.display_order q))); [done| |by (intros q Hq; apply Hl)|].
    - rewrite Hperm, <- Hids, <- list_fmap_compose.
      apply Permutation_refl'. apply list_fmap_ext.
      intros i p Hi. simpl. apply Hkeep.
      assert (p ∈ rows) as Hin by (apply list_elem_of_lookup; by exists i).
      by apply filter_project_of in Hin as [Hin _].
    - eapply StronglySorted_impl;
        [|apply (order_by_StronglySorted
                   ProjectService.by_display_order_asc_created_at_desc
                   project_precedes_total project_precedes_trans)].
      intros x y Hxy. apply project_precedes_spec in Hxy.
      unfold Rule.project_listed_before in Hxy. simpl in Hxy. lia. }
  split; [done|]. split.
  { intros j q Hj.
    assert (Hq : q ∈ l) by (apply list_elem_of_lookup; by exists j).
    destruct (Hl q Hq) as [Hpos Hnn].
    assert (Hj' : ids !! j = Some (Project.id q)).
    { rewrite <- Hidl. by apply list_lookup_fmap_Some_2. }
    pose proof (NoDup_lookup ids _ _ _ Hndi Hpos Hj'). lia. }
  split; [done|]. split; [|done].
  intros q Hin Hne. destruct (Hrows q Hin) as (v & Hv & Hother & _).
  rewrite (Hother Hne), project_set_display_order_same in Hv.
  rewrite <- Hv. by apply list_elem_of_fmap_2.
Qed.

(** Two arrangements of the same rows that agree on the keys are equal when
    the keys are distinct. *)
Lemma same_keys_same_rows {A : Type} (idf : A -> string) (l1 l2 : list A) :
  l1 ≡ₚ l2 -> NoDup (idf <$> l1) -> idf <$> l1 = idf <$> l2 -> l1 = l2.
Proof.
  intros Hperm Hnd Hids.
  apply (list_eq_same_length _ _ (length l1));
    [symmetry; by apply Permutation_length|done|].
  intros i x y Hi Hx Hy.
  apply (NoDup_fmap_eq idf l1); [done| | |].
  - apply list_elem_of_lookup. by exists i.
  - rewrite Hperm. apply list_elem_of_lookup. by exists i.
  - assert (H1 : (idf <$> l1) !! i = Some (idf x))
      by by apply list_lookup_fmap_Some_2.
    assert (H2 : (idf <$> l2) !! i = Some (idf y))
      by by apply list_lookup_fmap_Some_2.
    congruence.
Qed.

(** X21. The owner reorders the experiences of a profile with a list that names
    each of them once. The list that the call returns has the experiences
    in the order of the list, the experience at position [j] has display
    order [len(ids) - j], and the listing of the profile afterwards is the
    same list, although it sorts by start date within a display order. *)
Theorem reorder_experiences_complete (db : Db) (profile_id user_id : string)
    (ids : list string) (profile : Profile.t) :
  first (profile_by_id profile_id) (profiles db) = Some profile ->
  Profile.user_id profile = user_id ->
  Experience.id <$> List.filter (experience_of profile_id) (experiences db)
    ≡ₚ ids ->
  NoDup ids ->
  exists db' l,
    ExperienceService.reorder_experiences db profile_id user_id ids
    = Ok (db', l)
    /\ Experience.id <$> l = ids
    /\ (forall j e, l !! j = Some e ->
        Experience.display_order e = Z.of_nat (length ids) - Z.of_nat j)
    /\ ExperienceService.get_experiences_by_profile db' profile_id
         (Some user_id) = Ok l.
Proof.
  intros Hp Hu Hids Hndi.
  unfold ExperienceService.reorder_experiences. rewrite Hp.
  rewrite bool_decide_eq_false_2 by (intros H; by apply H).
  eexists _, _. split; [reflexivity|].
  cbn [experiences set_experiences profiles].
  unfold ExperienceService.commit_rows.
  set (rows := List.filter (experience_of profile_id) (experiences db)) in *.
  assert (Hnd : NoDup (Experience.id <$> rows)) by (by rewrite Hids).
  set (m := ExperienceService.reorder_loop (Z.of_nat (length ids)) 0 ids
              (ExperienceService.experience_map_of rows)).
  set (F := fun e : Experience.t =>
              if experience_of profile_id e
              then default e (m !! Experience.id e) else e).
  pose proof (fun e => reorder_row profile_id ids (experiences db) e Hnd)
    as Hrow.
  cbn zeta in Hrow. fold rows m in Hrow.
  assert (Hkeep : forall e, e ∈ experiences db ->
            Experience.id (F e) = Experience.id e
            /\ Experience.profile_id (F e) = Experience.profile_id e).
  { intros e Hin. destruct (Hrow e Hin) as (v & Hv & _).
    unfold F. rewrite Hv. by destruct e. }
  assert (Hfilter :
    List.filter (experience_of profile_id) (F <$> experiences db)
    = F <$> rows).
  { apply filter_fmap_commute. intros e Hin. unfold experience_of.
    by rewrite (proj2 (Hkeep e Hin)). }
  rewrite Hfilter.
  assert (Hrows' : forall q, q ∈ F <$> rows ->
            ids !! Z.to_nat (Z.of_nat (length ids) - Experience.display_order q)
            = Some (Experience.id q)
            /\ Experience.display_order q <= Z.of_nat (length ids)).
  { intros q Hq.
    apply list_elem_of_fmap in Hq as (e & -> & Hin).
    apply filter_experience_of in Hin as [Hin Hpr].
    destruct (Hrow e Hin) as (v & Hv & _ & _ & Hlast).
    assert (Hk : Experience.id e ∈ ids).
    { rewrite <- Hids. apply list_elem_of_fmap_2.
      by apply filter_experience_of. }
    apply list_elem_of_lookup in Hk as [j Hj].
    unfold F. rewrite Hv. rewrite (Hlast Hpr j Hj).
    - destruct e; simpl in *.
      replace (Z.of_nat (length ids) - (Z.of_nat (length ids) - Z.of_nat j))
        with (Z.of_nat j) by lia.
      rewrite Nat2Z.id. split; [done|lia].
    - intros j' Hlt Hj'. pose proof (NoDup_lookup ids j j' _ Hndi Hj Hj'). lia. }
  assert (Hkeys : Experience.id <$> (F <$> rows) ≡ₚ ids).
  { rewrite <- Hids, <- list_fmap_compose.
    apply Permutation_refl'. apply list_fmap_ext.
    intros i e Hi. simpl. apply Hkeep.
    assert (e ∈ rows) as Hin by (apply list_elem_of_lookup; by exists i).
    by apply filter_experience_of in Hin as [Hin _]. }
  set (l := order_by ExperienceService.by_display_order_desc (F <$> rows)).
  assert (Hperm : l ≡ₚ F <$> rows) by apply order_by_Permutation.
  assert (Hidl : Experience.id <$> l = ids).
  { apply (listed_in_requested_order Experience.id
             (fun q => Z.to_nat (Z.of_nat (length ids)
                                 - Experience.display_order q))); [done| | |].
    - by rewrite Hperm.
    - intros q Hq. rewrite Hperm in Hq. by apply Hrows'.
    - eapply StronglySorted_impl;
        [|apply (order_by_StronglySorted
                   ExperienceService.by_display_order_desc
                   by_display_order_desc_total by_display_order_desc_trans)].
      intros x y Hxy. unfold ExperienceService.by_display_order_desc in Hxy.
      simpl in Hxy. lia. }
  split; [done|]. split.
  { intros j q Hj.
    assert (Hq : q ∈ F <$> rows)
      by (rewrite <- Hperm; apply list_elem_of_lookup; by exists j).
    destruct (Hrows' q Hq) as [Hpos Hle].
    assert (Hj' : ids !! j = Some (Experience.id q)).
    { rewrite <- Hidl. by apply list_lookup_fmap_Some_2. }
    pose proof (NoDup_lookup ids _ _ _ Hndi Hpos Hj'). lia. }
  unfold ExperienceService.get_experiences_by_profile.
  cbn [experiences set_experiences profiles]. rewrite Hp, <- Hu.
  rewrite owner_can_view. cbn [negb]. f_equal. rewrite Hfilter.
  set (l2 := order_by
               ExperienceService.by_display_order_desc_start_date_desc
               (F <$> rows)).
  assert (Hperm2 : l2 ≡ₚ F <$> rows) by apply order_by_Permutation.
  apply (same_keys_same_rows Experience.id).
  - by rewrite Hperm, Hperm2.
  - rewrite Hperm2, Hkeys. done.
  - rewrite Hidl.
    apply (listed_in_requested_order Experience.id
             (fun q => Z.to_nat (Z.of_nat (length ids)
                                 - Experience.display_order q))); [done| | |].
    + by rewrite Hperm2.
    + intros q Hq. rewrite Hperm2 in Hq. by apply Hrows'.
    + eapply StronglySorted_impl;
        [|apply (order_by_StronglySorted
                   ExperienceService.by_display_order_desc_start_date_desc
                   listing_precedes_total listing_precedes_trans)].
      intros x y Hxy. apply listing_order_spec in Hxy.
      unfold Rule.listed_before in Hxy. simpl in Hxy. lia.
Qed.

Lemma reorder_projects_complete_witness :
  exists db' l,
    ProjectService.reorder_projects Sample.db "p1" "u1" ["A"; "C"; "B"]
    = Ok (db', l)
    /\ Project.id <$> l = ["A"; "C"; "B"].
Proof.
  destruct (reorder_projects_complete Sample.db "p1" "u1" ["A"; "C"; "B"]
              (Sample.profile "p1" "u1" "PRIVATE" (Some "X")))
    as (db' & l & H1 & H2 & _).
  - reflexivity.
  - reflexivity.
  - apply (bool_decide_unpack _). vm_compute. exact I.
  - apply (bool_decide_unpack _). vm_compute. exact I.
  - by exists db', l.
Defined.

Lemma reorder_experiences_complete_witness :
  exists db' l,
    ExperienceService.reorder_experiences Sample.db "p1" "u1" ["B"; "C"; "A"]
    = Ok (db', l)
    /\ Experience.id <$> l = ["B"; "C"; "A"]
    /\ ExperienceService.get_experiences_by_profile db' "p1" (Some "u1")
       = Ok l.
Proof.
  destruct (reorder_experiences_complete Sample.db "p1" "u1" ["B"; "C"; "A"]
              (Sample.profile "p1" "u1" "PRIVATE" (Some "X")))
    as (db' & l & H1 & H2 & _ & H4).
  - reflexivity.
  - reflexivity.
  - apply (bool_decide_unpack _). vm_compute. exact I.
  - apply (bool_decide_unpack _). vm_compute. exact I.
  - by exists db', l.
Defined.

(** ** Projects *)

Lemma insert_row_before_last {A : Type} (precedes : A -> A -> bool)
    (x q : A) (r : list A) :
  precedes x q = true ->
  insert_row precedes x (r ++ [q])%list
  = (insert_row precedes x r ++ [q])%list.
Proof.
  intros H. induction r as [|y r IH]; simpl; [by rewrite H|].
  destruct (precedes x y); [done|]. by rewrite IH.
Qed.

(** A row that every other row precedes is sorted to the end. *)
Lemma order_by_snoc {A : Type} (precedes : A -> A -> bool) (l : list A)
    (q : A) :
  (forall x, x ∈ l -> precedes x q = true) ->
  order_by precedes (l ++ [q])%list = (order_by precedes l ++ [q])%list.
Proof.
  induction l as [|x l IH]; intros H; [done|].
  change (order_by precedes ((x :: l) ++ [q])%list)
    with (insert_row precedes x (order_by precedes (l ++ [q])%list)).
  rewrite IH by (intros y Hy; apply H; by apply list_elem_of_further).
  apply insert_row_before_last. apply H, list_elem_of_here.
Qed.

Lemma filter_snoc {A : Type} (p : A -> bool) (l : list A) (q : A) :
  List.filter p (l ++ [q])%list
  = (List.filter p l ++ (if p q then [q] else []))%list.
Proof. by rewrite List.filter_app. Qed.

Lemma first_snoc {A : Type} (p : A -> bool) (l : list A) (q : A) :
  (forall x, x ∈ l -> p x = false) -> p q = true ->
  first p (l ++ [q])%list = Some q.
Proof.
  intros Hl Hq. induction l as [|x l IH]; simpl.
  - unfold first. simpl. by rewrite Hq.
  - unfold first in *. simpl. rewrite (Hl x) by apply list_elem_of_here.
    apply IH. intros y Hy. apply Hl. by apply list_elem_of_further.
Qed.

(** X22. A successful creation appends one project to the table and changes
    nothing else. The display order of the new project is the number of
    projects that the profile had; when that is above the display order of
    each of them, as after a complete reorder, the new project is listed
    last and the others keep their places. *)
Theorem create_project_listed_last (db db' : Db)
    (profile_id user_id new_id : string) (data : Schema.ProjectCreate)
    (now : Z) (q : Project.t) :
  ProjectService.create_project db profile_id user_id data new_id now
  = Ok (db', q) ->
  projects db' = (projects db ++ [q])%list
  /\ users db' = users db /\ profiles db' = profiles db
  /\ experiences db' = experiences db
  /\ Project.id q = new_id /\ Project.profile_id q = profile_id
  /\ Project.display_order q
     = Z.of_nat (length (ProjectService.get_profile_projects db profile_id))
  /\ ProjectService.get_project_by_id db' new_id = Some q
  /\ ((forall p, p ∈ ProjectService.get_profile_projects db profile_id ->
         Project.display_order p < Project.display_order q) ->
      ProjectService.get_profile_projects db' profile_id
      = (ProjectService.get_profile_projects db profile_id ++ [q])%list).
Proof.
  unfold ProjectService.create_project.
  destruct (first _ _) as [profile|]; [|discriminate].
  case_bool_decide as Hu; [discriminate|].
  unfold ProjectService.insert. cbn [Project.id].
  case_bool_decide as Hfresh; [discriminate|].
  unfold mbind, Result_bind. intros [= <- <-].
  cbn [projects users profiles experiences set_projects Project.id
       Project.profile_id Project.display_order].
  set (q := Project.mk _ _ _ _ _ _ _ _ _ _ _ _ _ _ _).
  assert (Hlen : length (ProjectService.get_profile_projects db profile_id)
                 = length (List.filter (project_of profile_id) (projects db))).
  { apply Permutation_length, order_by_Permutation. }
  repeat (split; [done|]). split; [by rewrite Hlen|]. split.
  - unfold ProjectService.get_project_by_id. cbn [projects set_projects].
    apply first_snoc.
    + intros x Hx. apply bool_decide_eq_false. intros E. apply Hfresh.
      rewrite <- E. by apply list_elem_of_fmap_2.
    + by apply bool_decide_eq_true.
  - intros Hbelow. unfold ProjectService.get_profile_projects in *.
    cbn [projects set_projects]. rewrite filter_snoc.
    replace (project_of profile_id q) with true
      by (symmetry; by apply bool_decide_eq_true).
    apply order_by_snoc. intros x Hx.
    apply project_precedes_lt. apply Hbelow.
    by rewrite order_by_Permutation.
Qed.

Lemma create_project_listed_last_witness :
  exists db' q,
    ProjectService.create_project Sample.ordered_db "p1" "u1"
      Sample.project_data "D" 400 = Ok (db', q)
    /\ Project.display_order q = 3
    /\ Project.id <$> ProjectService.get_profile_projects db' "p1"
       = ["A"; "C"; "B"; "D"].
Proof.
  eexists _, _. split; [reflexivity|].
  destruct (create_project_listed_last Sample.ordered_db _ "p1" "u1" "D"
              Sample.project_data 400 _ eq_refl)
    as (_ & _ & _ & _ & _ & _ & Hord & _ & Hlist).
  split; [exact Hord|]. rewrite Hlist; [reflexivity|].
  intros p Hp. vm_compute in Hp.
  repeat (apply elem_of_cons in Hp as [-> | Hp]; [reflexivity|]).
  by apply not_elem_of_nil in Hp.
Defined.

Section OrderByMore.
Context {A : Type} (precedes : A -> A -> bool).
Let R (x y : A) : Prop := precedes x y = true.
Hypothesis precedes_total : forall x y, R x y \/ R y x.
Hypothesis precedes_trans : forall x y z, R x y -> R y z -> R x z.

Lemma insert_row_head (x : A) (l : list A) :
  Forall (R x) l -> insert_row precedes x l = x :: l.
Proof.
  destruct l as [|y r]; [done|]. intros H.
  apply Forall_cons in H as [H _]. simpl. unfold R in H. by rewrite H.
Qed.

Lemma filter_insert_row (p : A -> bool) (x : A) (l : list A) :
  StronglySorted R l ->
  List.filter p (insert_row precedes x l)
  = if p x then insert_row precedes x (List.filter p l) else List.filter p l.
Proof.
  induction 1 as [|y r Hs IH Hall]; simpl.
  - by destruct (p x).
  - destruct (precedes x y) eqn:E; simpl.
    + destruct (p x) eqn:Ex; [|done].
      rewrite insert_row_head; [done|].
      assert (Hx : Forall (R x) (y :: r)).
      { apply Forall_cons. split; [done|].
        eapply Forall_impl; [exact Hall|]. intros z Hz.
        by apply (precedes_trans x y z). }
      destruct (p y).
      * apply Forall_cons in Hx as [Hy Hr]. apply Forall_cons. split; [done|].
        apply Forall_forall. intros z Hz.
        apply list_elem_of_In, filter_In in Hz as [Hz _].
        rewrite Forall_forall in Hr. by apply Hr, list_elem_of_In.
      * apply Forall_cons in Hx as [_ Hr].
        apply Forall_forall. intros z Hz.
        apply list_elem_of_In, filter_In in Hz as [Hz _].
        rewrite Forall_forall in Hr. by apply Hr, list_elem_of_In.
    + rewrite IH. destruct (p y), (p x); simpl; by rewrite ?E.
Qed.

(** Selecting rows commutes with ORDER BY: the rows that stay keep their
    relative order. *)
Lemma filter_order_by (p : A -> bool) (l : list A) :
  List.filter p (order_by precedes l) = order_by precedes (List.filter p l).
Proof.
  induction l as [|x l IH]; [done|].
  change (order_by precedes (x :: l))
    with (insert_row precedes x (order_by precedes l)).
  rewrite filter_insert_row
    by (by apply order_by_StronglySorted). 
  rewrite IH. simpl. by destruct (p x).
Qed.

End OrderByMore.



(** X23. For a caller who does not own the profile, creating and reordering
    projects raise the same [ProjectNotFoundError] whether the profile
    exists or not. For a caller who does not own the project, update and
    deletion raise a [ProjectNotFoundError] whose message tells a missing
    project from one of another user. *)
Theorem project_writes_refuse_strangers (db : Db) (user_id : string) :
  (forall profile_id,
     ~ Rule.owns_profile db profile_id user_id ->
     (forall data new_id now,
        ProjectService.create_project db profile_id user_id data new_id now
        = Raise (ProjectNotFoundError "Profile not found or access denied"))
     /\ (forall ids,
           ProjectService.reorder_projects db profile_id user_id ids
           = Raise (ProjectNotFoundError
                      "Profile not found or access denied")))
  /\ (forall project_id,
        ~ Rule.owns_project db project_id user_id ->
        let msg :=
          match ProjectService.get_project_by_id db project_id with
          | None => "Project not found"
          | Some _ => "Project not found or access denied"
          end in
        (forall data,
           ProjectService.update_project db project_id user_id data
           = Raise (ProjectNotFoundError msg))
        /\ ProjectService.delete_project db project_id user_id
           = Raise (ProjectNotFoundError msg)).
Proof.
  split.
  - intros profile_id Hno.
    unfold ProjectService.create_project, ProjectService.reorder_projects.
    destruct (first _ _) as [p|] eqn:Ep; [|done].
    case_bool_decide as Hu; [done|].
    exfalso. apply Hno. exists p. split; [done|].
    by destruct (decide (Profile.user_id p = user_id)).
  - intros project_id Hno.
    unfold ProjectService.update_project, ProjectService.delete_project,
      ProjectService.get_project_by_id.
    destruct (first (project_by_id _) _) as [q|] eqn:Eq; [|done].
    destruct (first (profile_by_id _) _) as [p|] eqn:Ep; [|done].
    case_bool_decide as Hu; [done|].
    exfalso. apply Hno. exists q, p. repeat split; try done;
      by destruct (decide (Profile.user_id p = user_id)).
Qed.

Lemma project_writes_refuse_strangers_witness :
  ProjectService.delete_project Sample.db "Z" "u1"
  = Raise (ProjectNotFoundError "Project not found or access denied")
  /\ ProjectService.delete_project Sample.db "Q" "u1"
     = Raise (ProjectNotFoundError "Project not found").
Proof.
  destruct (project_writes_refuse_strangers Sample.db "u1") as [_ H].
  split.
  - apply (H "Z"). intros (q & p & Hq & Hp & Hu).
    vm_compute in Hq. injection Hq as <-.
    vm_compute in Hp. injection Hp as <-. discriminate.
  - apply (H "Q"). intros (q & p & Hq & _). discriminate.
Defined.

Lemma filter_comm {A : Type} (p q : A -> bool) (l : list A) :
  List.filter p (List.filter q l) = List.filter q (List.filter p l).
Proof.
  induction l as [|x l IH]; [done|]. cbn [List.filter].
  destruct (p x) eqn:Ep, (q x) eqn:Eq; cbn [List.filter];
    rewrite ?Ep, ?Eq, IH; done.
Qed.

(** X24. A deletion by the owner removes the row of the project and no other
    row of any table; afterwards the id is unknown, and the listing of
    every profile is the former listing without that project, the others
    in their former order. *)
Theorem delete_project_spec (db : Db) (project_id user_id : string)
    (q : Project.t) (p : Profile.t) :
  ProjectService.get_project_by_id db project_id = Some q ->
  first (profile_by_id (Project.profile_id q)) (profiles db) = Some p ->
  Profile.user_id p = user_id ->
  NoDup (Project.id <$> projects db) ->
  exists db',
    ProjectService.delete_project db project_id user_id = Ok db'
    /\ projects db'
       = List.filter (fun x => negb (project_by_id project_id x))
           (projects db)
    /\ ProjectService.get_project_by_id db' project_id = None
    /\ users db' = users db /\ profiles db' = profiles db
    /\ experiences db' = experiences db
    /\ forall profile_id,
         ProjectService.get_profile_projects db' profile_id
         = List.filter (fun x => negb (project_by_id project_id x))
             (ProjectService.get_profile_projects db profile_id).
Proof.
  intros Hq Hp Hu Hnd. unfold ProjectService.delete_project.
  rewrite Hq, Hp.
  rewrite bool_decide_eq_false_2 by (intros H; by apply H).
  eexists. split; [reflexivity|].
  assert (Hrows :
    remove_first (project_by_id project_id) (projects db)
    = List.filter (fun x => negb (project_by_id project_id x))
        (projects db)).
  { unfold project_by_id. by apply remove_first_keyed. }
  unfold ProjectService.get_project_by_id,
    ProjectService.get_profile_projects.
  cbn [projects users profiles experiences set_projects]. rewrite Hrows.
  split; [done|]. split.
  { apply first_none. intros x Hx.
    apply list_elem_of_In, filter_In in Hx as [_ Hx].
    by apply negb_true_iff in Hx. }
  repeat (split; [done|]).
  intros profile_id.
  rewrite (filter_order_by _ project_precedes_total project_precedes_trans).
  f_equal. apply filter_comm.
Qed.

Lemma delete_project_spec_witness :
  exists db',
    ProjectService.delete_project Sample.db "A" "u1" = Ok db'
    /\ Project.id <$> ProjectService.get_profile_projects db' "p1"
       = ["C"; "B"].
Proof.
  assert (Hnd : NoDup (Project.id <$> projects Sample.db)).
  { apply (bool_decide_unpack _). vm_compute. exact I. }
  destruct (delete_project_spec Sample.db "A" "u1"
              (Sample.project "A" "p1" 0 300)
              (Sample.profile "p1" "u1" "PRIVATE" (Some "X"))
              eq_refl eq_refl eq_refl Hnd)
    as (db' & H & _ & _ & _ & _ & _ & Hlist).
  exists db'. split; [exact H|]. by rewrite Hlist.
Defined.





(** ** Creating a profile *)

(** X26. A created profile is stored under the new id, for the calling user
    and under a slug that no profile had. The three lookups, by id, by
    user and by slug, return it, the slug is no longer available, its
    stored score is the one computed from its fields, and a second
    creation for the same user is refused. *)
Theorem create_profile_round_trip (db db' : Db) (user_id new_id : string)
    (data : Schema.ProfileCreate) (rnd : Byte.byte * Byte.byte * Byte.byte)
    (p : Profile.t) :
  ProfileService.create_profile db user_id data new_id rnd = Ok (db', p) ->
  exists s,
    Profile.slug p = Some s /\ Profile.id p = new_id
    /\ Profile.user_id p = user_id
    /\ (s ∉ ProfileService.slugs db)
    /\ profiles db' = (profiles db ++ [p])%list
    /\ users db' = users db /\ experiences db' = experiences db
    /\ projects db' = projects db
    /\ ProfileService.get_profile_by_id db' new_id false = Some p
    /\ ProfileService.get_profile_by_user_id db' user_id false = Some p
    /\ ProfileService.get_profile_by_slug db' s false = Some p
    /\ ProfileService.is_slug_available db' s None = false
    /\ Profile.completeness_score p
       = Profile.calculate_completeness p
           (List.filter (experience_of new_id) (experiences db))
    /\ forall data2 id2 rnd2,
         ProfileService.create_profile db' user_id data2 id2 rnd2
         = Raise (ProfileAlreadyExistsError "User already has a profile").
Proof.
  unfold ProfileService.create_profile.
  destruct (first _ (users db)) as [user|] eqn:Eu; [|discriminate].
  destruct (first _ (profiles db)) as [?|] eqn:Enone; [discriminate|].
  destruct (_ && _); [discriminate|].
  destruct (ProfileService.ensure_unique _ _ _ _ _) as [s|] eqn:Es;
    [|discriminate].
  apply ensure_unique_some in Es.
  unfold ProfileService.insert. cbn [Profile.id Profile.user_id Profile.slug].
  case_bool_decide as Hid; [discriminate|].
  case_bool_decide as Huid; [discriminate|].
  rewrite (bool_decide_eq_false_2 _ Es). cbn [orb].
  unfold commit_completeness.
  cbn [profiles set_profiles Profile.id Profile.update_completeness
       Profile.set_completeness_score experiences].
  assert (Hids : forall x, x ∈ profiles db -> profile_by_id new_id x = false).
  { intros x Hx. apply bool_decide_eq_false. intros E. apply Hid.
    rewrite <- E. by apply list_elem_of_fmap_2. }
  rewrite replace_first_last; [|done|by apply bool_decide_eq_true].
  intros [= <- <-].
  cbn [profiles users experiences projects Profile.slug Profile.id
       Profile.user_id Profile.completeness_score].
  exists s. repeat (split; [done|]).
  unfold ProfileService.get_profile_by_id,
    ProfileService.get_profile_by_user_id,
    ProfileService.get_profile_by_slug.
  cbn [profiles].
  assert (Hslug : forall x, x ∈ profiles db -> Profile.slug x <> Some s).
  { intros x Hx E. apply Es. apply slugs_elem. eauto. }
  split; [apply first_snoc; [done|by apply bool_decide_eq_true]|].
  split.
  { apply first_snoc; [|by apply bool_decide_eq_true].
    intros x Hx. by apply (first_none_inv _ _ x Enone). }
  split.
  { apply first_snoc; [|by apply bool_decide_eq_true].
    intros x Hx. apply bool_decide_eq_false. by apply Hslug. }
  split.
  { apply not_true_is_false. rewrite is_slug_available_free.
    intros H. apply H. apply slugs_elem. eexists. split.
    - cbn [profiles]. apply elem_of_app. right. apply list_elem_of_here.
    - done. }
  split; [done|].
  intros data2 id2 rnd2. cbn [users profiles set_profiles]. rewrite Eu.
  rewrite (first_snoc _ (profiles db) _); [done| |by apply bool_decide_eq_true].
  intros x Hx. by apply (first_none_inv _ _ x Enone).
Qed.

Lemma create_profile_round_trip_witness :
  exists db' p,
    ProfileService.create_profile Sample.db "u3" (Sample.request (Some "grace"))
      "p3" Sample.rnd = Ok (db', p)
    /\ ProfileService.get_profile_by_slug db' "grace" false = Some p
    /\ ProfileService.get_profile_by_user_id db' "u3" false = Some p.
Proof.
  eexists _, _. split; [reflexivity|].
  destruct (create_profile_round_trip Sample.db _ "u3" "p3"
              (Sample.request (Some "grace")) Sample.rnd _ eq_refl)
    as (s & Hs & _ & _ & _ & _ & _ & _ & _ & _ & Hu & Hg & _).
  injection Hs as <-. by split.
Defined.

(** X27. With a fresh id a creation fails for one of three reasons only: the
    user is unknown, the user has a profile, or the slug supplied is in
    use. Otherwise it succeeds: the uniqueness loop ends and the insert
    meets no constraint. *)
Theorem create_profile_outcome (db : Db) (user_id new_id : string)
    (data : Schema.ProfileCreate) (rnd : Byte.byte * Byte.byte * Byte.byte) :
  new_id ∉ Profile.id <$> profiles db ->
  (exists db' p,
     ProfileService.create_profile db user_id data new_id rnd = Ok (db', p))
  \/ (ProfileService.create_profile db user_id data new_id rnd
      = Raise (AuthenticationError "User not found")
      /\ forall u, u ∈ users db -> User.id u <> user_id)
  \/ (ProfileService.create_profile db user_id data new_id rnd
      = Raise (ProfileAlreadyExistsError "User already has a profile")
      /\ exists p, p ∈ profiles db /\ Profile.user_id p = user_id)
  \/ (ProfileService.create_profile db user_id data new_id rnd
      = Raise (SlugAlreadyExistsError "Slug is already taken")
      /\ exists s, Schema.pc_slug data = Some s
           /\ s ∈ ProfileService.slugs db).
Proof.
  intros Hfresh.
  destruct (first (fun u => bool_decide (User.id u = user_id)) (users db))
    as [user|] eqn:Eu.
  2:{ right. left. unfold ProfileService.create_profile. rewrite Eu.
      split; [done|]. intros u Hu.
      apply (first_none_inv _ _ u Eu) in Hu.
      by apply bool_decide_eq_false in Hu. }
  destruct (first (fun p => bool_decide (Profile.user_id p = user_id))
              (profiles db)) as [p|] eqn:Ep.
  { right. right. left. unfold ProfileService.create_profile.
    rewrite Eu, Ep. split; [done|]. exists p.
    apply first_some in Ep as [Hin Hp]. by apply bool_decide_eq_true in Hp. }
  destruct (Py.truthy_opt (Schema.pc_slug data)
            && bool_decide (default EmptyString (Schema.pc_slug data)
                              ∈ ProfileService.slugs db)) eqn:Es.
  { right. right. right. unfold ProfileService.create_profile.
    rewrite Eu, Ep, Es. split; [done|].
    apply andb_true_iff in Es as [Ht Hin]. apply bool_decide_eq_true in Hin.
    destruct (Schema.pc_slug data) as [s|]; [|done]. by exists s. }
  left.
  destruct (create_profile_stores db user_id new_id data rnd user Eu)
    as (db' & p & s & _ & H & _); [|done| |by exists db', p].
  - intros p Hp. apply (first_none_inv _ _ p Ep) in Hp.
    by apply bool_decide_eq_false in Hp.
  - intros Ht. rewrite Ht in Es. simpl in Es.
    by apply bool_decide_eq_false in Es.
Qed.

Lemma create_profile_outcome_witness :
  exists db' p,
    ProfileService.create_profile Sample.db "u3" (Sample.request None) "p3"
      Sample.rnd = Ok (db', p).
Proof.
  assert (Hfresh : "p3" ∉ Profile.id <$> profiles Sample.db).
  { apply (bool_decide_unpack _). vm_compute. exact I. }
  destruct (create_profile_outcome Sample.db "u3" "p3" (Sample.request None)
              Sample.rnd Hfresh) as [H|[[H _]|[[H _]|[H _]]]];
    [exact H|discriminate..].
Defined.

(** ** The public listings *)

Lemma StronglySorted_take_drop {A : Type} (R : A -> A -> Prop) (l : list A)
    (limit offset : nat) :
  StronglySorted R l -> StronglySorted R (take limit (drop offset l)).
Proof.
  intros H. rewrite <- (take_drop offset l) in H.
  apply StronglySorted_app_1_r in H.
  rewrite <- (take_drop limit (drop offset l)) in H.
  by apply StronglySorted_app_1_l in H.
Qed.

Lemma by_score_total (created_at : Profile.t -> Z) (p q : Profile.t) :
  ProfileService.by_score_desc_created_at_desc created_at p q = true
  \/ ProfileService.by_score_desc_created_at_desc created_at q p = true.
Proof.
  unfold ProfileService.by_score_desc_created_at_desc.
  rewrite !orb_true_iff, !andb_true_iff, !Z.ltb_lt, !Z.eqb_eq, !Z.leb_le. lia.
Qed.

Lemma by_score_trans (created_at : Profile.t -> Z) (p q r : Profile.t) :
  ProfileService.by_score_desc_created_at_desc created_at p q = true ->
  ProfileService.by_score_desc_created_at_desc created_at q r = true ->
  ProfileService.by_score_desc_created_at_desc created_at p r = true.
Proof.
  unfold ProfileService.by_score_desc_created_at_desc.
  rewrite !orb_true_iff, !andb_true_iff, !Z.ltb_lt, !Z.eqb_eq, !Z.leb_le. lia.
Qed.

(** X28. The public listing and the search return at most [limit] profiles,
    all of them stored and PUBLIC, a higher completeness score first; a
    profile that the search returns has a headline, summary or location
    that matches the pattern built from the query in lower case. With no
    offset and a limit of the size of the table the listing holds every
    public profile. *)
Theorem public_listings_spec (created_at : Profile.t -> Z)
    (ilike : string -> string -> bool) (db : Db) (query : string)
    (limit offset : nat) :
  let listed := ProfileService.get_public_profiles created_at db limit offset in
  let found := ProfileService.search_profiles ilike db query limit offset in
  let by_score (p q : Profile.t) :=
    Profile.completeness_score q <= Profile.completeness_score p in
  ((length listed <= limit)%nat
   /\ (forall p, p ∈ listed ->
         p ∈ profiles db /\ Profile.visibility p = "PUBLIC")
   /\ StronglySorted by_score listed)
  /\ ((length found <= limit)%nat
      /\ (forall p, p ∈ found ->
            p ∈ profiles db /\ Profile.visibility p = "PUBLIC"
            /\ exists v,
                 (Profile.headline p = Some v \/ Profile.summary p = Some v
                  \/ Profile.location p = Some v)
                 /\ ilike v ("%" ++ Py.lower query ++ "%") = true)
      /\ StronglySorted by_score found)
  /\ ProfileService.get_public_profiles created_at db
       (length (profiles db)) 0
     ≡ₚ List.filter Profile.is_public (profiles db).
Proof.
  intros listed found by_score.
  split; [|split].
  - subst listed. unfold ProfileService.get_public_profiles.
    split; [rewrite length_take; lia|]. split.
    + intros p Hp. apply subseteq_take, subseteq_drop in Hp.
      rewrite order_by_Permutation in Hp.
      apply list_elem_of_In, filter_In in Hp as [Hp Hv].
      split; [by apply list_elem_of_In|]. by apply bool_decide_eq_true in Hv.
    + apply StronglySorted_take_drop.
      eapply StronglySorted_impl;
        [|apply (order_by_StronglySorted _ (by_score_total created_at)
                   (by_score_trans created_at))].
      intros p q. unfold ProfileService.by_score_desc_created_at_desc,
        by_score.
      rewrite !orb_true_iff, !andb_true_iff, !Z.ltb_lt, !Z.eqb_eq, !Z.leb_le.
      lia.
  - subst found. unfold ProfileService.search_profiles. cbn zeta.
    split; [rewrite length_take; lia|]. split.
    + intros p Hp. apply subseteq_take, subseteq_drop in Hp.
      rewrite order_by_Permutation in Hp.
      apply list_elem_of_In, filter_In in Hp as [Hp Hv].
      apply andb_true_iff in Hv as [Hv Hm].
      split; [by apply list_elem_of_In|].
      split; [by apply bool_decide_eq_true in Hv|].
      rewrite !orb_true_iff in Hm.
      destruct Hm as [[Hm|Hm]|Hm].
      * destruct (Profile.headline p) as [v|]; [|done]. exists v. auto.
      * destruct (Profile.summary p) as [v|]; [|done]. exists v. auto.
      * destruct (Profile.location p) as [v|]; [|done]. exists v. auto.
    + apply StronglySorted_take_drop.
      eapply StronglySorted_impl;
        [|apply (order_by_StronglySorted ProfileService.by_score_desc)].
      * intros p q. unfold ProfileService.by_score_desc, by_score. lia.
      * intros p q. unfold ProfileService.by_score_desc. lia.
      * intros p q r. unfold ProfileService.by_score_desc. lia.
  - unfold ProfileService.get_public_profiles. rewrite drop_0.
    rewrite take_ge; [apply order_by_Permutation|].
    rewrite (Permutation_length (order_by_Permutation _ _)).
    apply List.filter_length_le.
Qed.

(** ** Who may read and who may write *)




(** X30. A caller who does not own the profile can neither update nor delete
    it nor refresh its score. For an unknown id the update raises
    [ProfileNotFoundError], the deletion reports [False] and leaves the
    store as it is, and the route answers 404; for the profile of another
    user the service raises [AuthenticationError] and the route answers
    403. *)
Theorem profile_writes_refuse_strangers (db : Db)
    (profile_id user_id : string) :
  ~ Rule.owns_profile db profile_id user_id ->
  match ProfileService.get_profile_by_id db profile_id false with
  | None =>
      (forall data,
         ProfileService.update_profile db profile_id user_id data
         = Raise (ProfileNotFoundError "Profile not found"))
      /\ ProfileService.delete_profile db profile_id user_id = Ok (db, false)
      /\ Api.update_completeness_score db profile_id user_id
         = Api.HTTPException 404 "Profile not found"
  | Some _ =>
      (forall data,
         ProfileService.update_profile db profile_id user_id data
         = Raise (AuthenticationError
                    "You don't have permission to update this profile"))
      /\ ProfileService.delete_profile db profile_id user_id
         = Raise (AuthenticationError
                    "You don't have permission to delete this profile")
      /\ Api.update_completeness_score db profile_id user_id
         = Api.HTTPException 403
             "You don't have permission to update this profile"
  end.
Proof.
  intros Hno.
  unfold ProfileService.update_profile, ProfileService.delete_profile,
    Api.update_completeness_score, ProfileService.get_profile_by_id.
  destruct (first _ _) as [p|] eqn:Ep; [|done].
  case_bool_decide as Hu; [done|].
  exfalso. apply Hno. exists p. split; [done|].
  by destruct (decide (Profile.user_id p = user_id)).
Qed.

Lemma profile_writes_refuse_strangers_witness :
  ProfileService.delete_profile Sample.db "p2" "u1"
  = Raise (AuthenticationError
             "You don't have permission to delete this profile").
Proof.
  assert (Hno : ~ Rule.owns_profile Sample.db "p2" "u1").
  { intros (p & Hp & Hu). vm_compute in Hp. injection Hp as <-.
    discriminate. }
  exact (proj1 (proj2 (profile_writes_refuse_strangers Sample.db "p2" "u1"
                         Hno))).
Defined.
